(** * Titan blob garbage collection job (src/blob_gc_job.cc)

    A shallow embedding of [BlobGCJob] and of its optimistic write
    callback.  The job talks to collaborators that live outside
    blob_gc_job.cc (the LSM engine, the blob file manager, the blob file
    builder, the shadow set): they are interfaces here, type classes whose
    operations take the logical time of the call, so that an LSM that is
    mutated by foreground writers between two calls of the job is covered.
    The job itself is a state-and-fault monad over its members and over the
    history of collaborator calls. *)

From Stdlib Require Import ZArith Ascii String List Bool Lia.
From stdpp Require Import base option list gmap strings.

Local Open Scope string_scope.
Local Open Scope list_scope.
Local Open Scope Z_scope.

(** ** Status (rocksdb::Status, as blob_gc_job.cc uses it) *)

Module Status.

Inductive Code :=
| kOk | kNotFound | kCorruption | kNotSupported | kInvalidArgument
| kIOError | kShutdownInProgress | kTimedOut | kAborted | kBusy | kTryAgain.

Record t := mk { code : Code; state : string }.

Definition OK : t := mk kOk EmptyString.
Definition NotFound (m : string) : t := mk kNotFound m.
Definition Busy (m : string) : t := mk kBusy m.
Definition Aborted (m : string) : t := mk kAborted m.
Definition ShutdownInProgress : t := mk kShutdownInProgress EmptyString.

Definition ok (s : t) : bool :=
  match code s with kOk => true | _ => false end.
Definition IsNotFound (s : t) : bool :=
  match code s with kNotFound => true | _ => false end.
Definition IsBusy (s : t) : bool :=
  match code s with kBusy => true | _ => false end.

End Status.

(** ** Blob format (BlobHandle, BlobIndex, BlobRecord) *)

Module BlobHandle.
Record t := mk { offset : Z; size : Z; order : Z }.
End BlobHandle.

Module BlobIndex.

Record t := mk { file_number : Z; blob_handle : BlobHandle.t }.

(** [BlobIndex()], the default constructed index of the fallback mode. *)
Definition empty : t := mk 0 (BlobHandle.mk 0 0 0).

(** Modelled from the spec: [operator==] of BlobIndex is declared in
    blob_format.h, which is not among the sources; "two blob indices compare
    equal iff all four fields match". *)
Definition eqb (a b : t) : bool :=
  (file_number a =? file_number b)
  && (BlobHandle.offset (blob_handle a) =? BlobHandle.offset (blob_handle b))
  && (BlobHandle.size (blob_handle a) =? BlobHandle.size (blob_handle b))
  && (BlobHandle.order (blob_handle a) =? BlobHandle.order (blob_handle b)).

End BlobIndex.

Record BlobRecord := { rec_key : string; rec_value : string }.

(** [BlobFileBuilder::BlobRecordContext] *)
Record BlobRecordContext := {
  ctx_key : string;
  ctx_original_blob_index : BlobIndex.t;
  ctx_new_blob_index : BlobIndex.t
}.

Inductive ValueType := kTypeValue | kTypeBlobIndex.

Record ParsedInternalKey := { user_key : string; sequence : Z; type : ValueType }.

(** ** Write batches *)

Inductive WriteOp :=
| OpPut (cf : Z) (key value : string)
| OpPutBlobIndex (cf : Z) (key index_entry : string).

Definition WriteBatch := list WriteOp.

(** ** Blob file metadata *)

Inductive FileState := kNormal | kPendingGCOutput | kObsolete.

Record BlobFileMeta := {
  file_number : Z;
  file_size : Z;
  file_entries : Z;
  file_level : Z;
  smallest_key : string;
  largest_key : string;
  live_data_size : Z;
  live_bitset : list bool;
  file_state : FileState
}.

Definition u64 (x : Z) : Z := x mod 2 ^ 64.

(** Modelled from the spec: the liveness bitset of BlobFileMeta is declared
    in blob_format.h, which is not among the sources.  One bit per record by
    order, bit = 1 means live; "a blob record with order outside its file's
    bitset is treated as live". *)
Definition IsLiveData (f : BlobFileMeta) (order : Z) : bool :=
  if order <? 0 then true else default true (live_bitset f !! Z.to_nat order).

Definition with_bitset (bits : list bool) (f : BlobFileMeta) : BlobFileMeta :=
  {| file_number := file_number f; file_size := file_size f;
     file_entries := file_entries f; file_level := file_level f;
     smallest_key := smallest_key f; largest_key := largest_key f;
     live_data_size := live_data_size f; live_bitset := bits;
     file_state := file_state f |}.

Definition with_live_data_size (n : Z) (f : BlobFileMeta) : BlobFileMeta :=
  {| file_number := file_number f; file_size := file_size f;
     file_entries := file_entries f; file_level := file_level f;
     smallest_key := smallest_key f; largest_key := largest_key f;
     live_data_size := n; live_bitset := live_bitset f;
     file_state := file_state f |}.

Definition with_state (s : FileState) (f : BlobFileMeta) : BlobFileMeta :=
  {| file_number := file_number f; file_size := file_size f;
     file_entries := file_entries f; file_level := file_level f;
     smallest_key := smallest_key f; largest_key := largest_key f;
     live_data_size := live_data_size f; live_bitset := live_bitset f;
     file_state := s |}.

(** Modelled from the spec: [SetLiveDataBitset], [UpdateLiveDataSize],
    [InitLiveDataBitset] and [is_obsolete] of BlobFileMeta (blob_format.h and
    blob_format.cc are not among the sources).  [UpdateLiveDataSize] adds a
    signed delta to the unsigned 64-bit counter. *)
Definition SetLiveDataBitset (order : Z) (b : bool) (f : BlobFileMeta) : BlobFileMeta :=
  if order <? 0 then f else with_bitset (<[Z.to_nat order := b]> (live_bitset f)) f.

Definition UpdateLiveDataSize (delta : Z) (f : BlobFileMeta) : BlobFileMeta :=
  with_live_data_size (u64 (live_data_size f + delta)) f.

Definition InitLiveDataBitset (n : Z) (f : BlobFileMeta) : BlobFileMeta :=
  with_bitset (replicate (Z.to_nat n) true) f.

Definition is_obsolete (f : BlobFileMeta) : bool :=
  match file_state f with kObsolete => true | _ => false end.

(** ** The job's description (BlobGC) and its options *)

Inductive TitanBlobRunMode := kNormalMode | kReadOnly | kFallback.

Record TitanCFOptions := {
  blob_run_mode : TitanBlobRunMode;
  blob_file_target_size : Z;
  rewrite_shadow : bool;
  shadow_target_size : Z
}.

Record BlobGC := {
  inputs : list BlobFileMeta;
  titan_cf_options : TitanCFOptions;
  cf_id : Z;
  output_shadows : list Z
}.

(** What the merged iterator yields at one position. *)
Record Tuple := { t_key : string; t_blob_index : BlobIndex.t; t_value : string }.

(** [VersionEdit]: the column family and the (file, obsolete sequence)
    pairs of [DeleteBlobFile]. *)
Record VersionEdit := { edit_cf : Z; edit_deleted : list (Z * Z) }.

(** ** Collaborators *)

(** Result of [DBImpl::GetImpl] with [GetImplOptions]: the status, the
    value, the is_blob_index flag and the level. *)
Record GetImplResult := {
  g_status : Status.t;
  g_value : string;
  g_is_blob_index : bool;
  g_level : Z
}.

(** Encoders and decoders of blob_format and dbformat, and the write batch
    helpers: pure functions of their arguments. *)
Class Format := {
  DecodeFrom : string -> Status.t * BlobIndex.t;
  EncodeTo : BlobIndex.t -> string;
  InternalKey_Encode : string -> Z -> ValueType -> string;
  ParseInternalKey : string -> Status.t * ParsedInternalKey;
  BlobRecord_size : BlobRecord -> Z;
  WriteBatchInternal_Put : WriteBatch -> Z -> string -> string -> Status.t * WriteBatch;
  WriteBatchInternal_PutBlobIndex : WriteBatch -> Z -> string -> string -> Status.t * WriteBatch;
  GetDataSize : WriteBatch -> Z
}.

(** The LSM engine as the job sees it.  The first argument of an operation is
    the logical time of the call (the number of collaborator calls the job has
    made so far). *)
Class Engine := {
  db_GetImpl : nat -> Z -> string -> GetImplResult;
  (** what committing a batch gives once its callback has returned OK *)
  db_Commit : nat -> WriteBatch -> Status.t;
  db_FlushWAL : nat -> Status.t;
  db_GetLatestSequenceNumber : nat -> Z;
  cfd_IsDropped : nat -> bool;
  (** [shuting_down_ && shuting_down_->load()] *)
  shuting_down : nat -> bool;
  (** true when the code is compiled with its [assert]s (no NDEBUG) *)
  assertions_enabled : bool
}.

(** Blob files: the manager, the builder of an output file, the readers of
    the input files and the version set. *)
Class BlobFiles := {
  Builder : Type;
  NewBlobFileReader : nat -> Z -> Status.t;
  (** Modelled from the spec: the merged iterator (blob_file_iterator.cc is
      not among the sources) yields these tuples in order and then reports
      this terminal status.  The tuples are not tied to the inputs here;
      which tuples an iterator built over the inputs can yield is stated by
      [from_inputs] below. *)
  iter_tuples : list Tuple;
  iter_terminal_status : Status.t;
  bfm_NewFile : nat -> Status.t * Z;
  bfm_BatchFinishFiles : nat -> Z -> list BlobFileMeta -> Status.t;
  bfm_BatchDeleteFiles : nat -> list Z -> Status.t;
  GetFileSize : Z -> Builder -> Z;
  builder_new : Z -> Builder;
  builder_Add : Builder -> BlobRecord -> BlobRecordContext -> Builder * list BlobRecordContext;
  builder_Finish : nat -> Builder -> Status.t * Builder * list BlobRecordContext;
  builder_status : Builder -> Status.t;
  NumEntries : Builder -> Z;
  builder_live_data_size : Builder -> Z;
  GetSmallestKey : Builder -> string;
  GetLargestKey : Builder -> string;
  GetDiscardableRatioLevel : BlobFileMeta -> Z;
  LogAndApply : nat -> VersionEdit -> Status.t
}.

(** A shadow table under construction: its file number, its level and the
    entries added so far. *)
Record TableBuilder := {
  tb_number : Z;
  tb_level : Z;
  tb_entries : list (string * string)
}.

Class Shadows := {
  NewFileNumber : nat -> Z;
  NewWritableFile : nat -> Z -> Z -> Status.t;
  EstimatedFileSize : TableBuilder -> Z;
  tb_Finish : nat -> TableBuilder -> Status.t
}.

(** ** The job's members and the history of its collaborator calls *)

(** The counters of [metrics_]. *)
Inductive Ticker :=
| gc_bytes_read_check | gc_bytes_read_blob | gc_bytes_read_callback
| gc_bytes_written_lsm | gc_bytes_written_blob
| gc_num_keys_overwritten_check | gc_num_keys_overwritten_callback
| gc_bytes_overwritten_check | gc_bytes_overwritten_callback
| gc_num_keys_relocated | gc_bytes_relocated
| gc_num_keys_fallback | gc_bytes_fallback
| gc_num_new_files | gc_num_files.

#[global] Instance Ticker_eq_dec : EqDecision Ticker.
Proof. solve_decision. Defined.

(** [metrics_.t += n] on an unsigned 64-bit counter. *)
Definition bump (t : Ticker) (n : Z) (m : Ticker -> Z) : Ticker -> Z :=
  fun t' => if decide (t = t') then u64 (m t' + n) else m t'.

(** [BlobGCJob::GarbageCollectionWriteCallback] *)
Record GarbageCollectionWriteCallback := {
  cfh_ : Z;
  key_ : string;
  blob_index_ : BlobIndex.t;
  new_blob_index_ : BlobIndex.t;
  read_bytes_ : Z
}.

Definition set_read_bytes (n : Z) (cb : GarbageCollectionWriteCallback)
  : GarbageCollectionWriteCallback :=
  {| cfh_ := cfh_ cb; key_ := key_ cb; blob_index_ := blob_index_ cb;
     new_blob_index_ := new_blob_index_ cb; read_bytes_ := n |}.

Definition blob_record_size (cb : GarbageCollectionWriteCallback) : Z :=
  BlobHandle.size (BlobIndex.blob_handle (blob_index_ cb)).

(** One entry per call the job makes to a collaborator, in the order of the
    calls, with what the collaborator answered. *)
Inductive Event :=
| EvIsShutingDown (b : bool)
| EvIsDropped (b : bool)
| EvNewBlobFileReader (file : Z) (s : Status.t)
| EvGetImpl (key : string) (r : GetImplResult)
| EvNewFile (s : Status.t) (number : Z)
| EvBuilderFinish (s : Status.t)
| EvBatchFinishFiles (files : list Z) (s : Status.t)
| EvBatchDeleteFiles (handles : list Z) (s : Status.t)
| EvWrite (wb : WriteBatch) (s : Status.t)
| EvFlushWAL (s : Status.t)
| EvGetLatestSequenceNumber (seq : Z)
| EvLogAndApply (edit : VersionEdit) (s : Status.t)
| EvMutexLock
| EvMutexUnlock
| EvSetLiveDataBitset (file order : Z) (b : bool)
| EvUpdateLiveDataSize (file delta : Z)
| EvSubStats (level : Z)
| EvAddStats (level : Z)
| EvComputeGCScore
| EvOpenShadow (number level : Z) (s : Status.t)
| EvShadowFinish (level : Z) (s : Status.t)
| EvUpdateInternalOpStats.

(** What can stop the program short of returning: a failed [assert], an
    index outside an array, a dereferenced null pointer. *)
Inductive Fault :=
| AssertionFailed (what : string)
| IndexOutOfRange (index : Z)
| NullDereference (what : string).

Inductive Outcome (A : Type) :=
| Returns (a : A)
| Faults (f : Fault).
Arguments Returns {A} a.
Arguments Faults {A} f.

(** ** A small concrete environment

    Instances of the collaborators that compute, for running the job on
    explicit inputs.  A blob index is encoded in four characters, an internal
    key is the user key and a trailer of eight characters. *)

Module Demo.

Definition char_of (n : Z) : ascii := ascii_of_nat (Z.to_nat n).
Definition of_char (c : ascii) : Z := Z.of_nat (nat_of_ascii c).

Definition encode (i : BlobIndex.t) : string :=
  String (char_of (BlobIndex.file_number i))
    (String (char_of (BlobHandle.offset (BlobIndex.blob_handle i)))
       (String (char_of (BlobHandle.size (BlobIndex.blob_handle i)))
          (String (char_of (BlobHandle.order (BlobIndex.blob_handle i))) EmptyString))).

Definition decode (s : string) : Status.t * BlobIndex.t :=
  match s with
  | String a (String b (String c (String d EmptyString))) =>
      (Status.OK, BlobIndex.mk (of_char a) (BlobHandle.mk (of_char b) (of_char c) (of_char d)))
  | _ => (Status.mk Status.kCorruption "bad blob index", BlobIndex.empty)
  end.

Definition trailer (ty : ValueType) : string :=
  match ty with kTypeValue => "V0000001" | kTypeBlobIndex => "B0000001" end.

Definition ikey_encode (k : string) (seq : Z) (ty : ValueType) : string :=
  String.append k (trailer ty).

Definition ikey_parse (s : string) : Status.t * ParsedInternalKey :=
  let n := String.length s in
  if (n <? 8)%nat
  then (Status.mk Status.kCorruption "bad internal key",
        {| user_key := EmptyString; sequence := 0; type := kTypeValue |})
  else (Status.OK,
        {| user_key := String.substring 0 (n - 8) s; sequence := 1;
           type := match String.get (n - 8) s with
                   | Some "B"%char => kTypeBlobIndex
                   | _ => kTypeValue
                   end |}).

Definition op_size (op : WriteOp) : Z :=
  match op with
  | OpPut _ k v => Z.of_nat (String.length k + String.length v)
  | OpPutBlobIndex _ k v => Z.of_nat (String.length k + String.length v)
  end.

Definition format : Format :=
  {| DecodeFrom := decode;
     EncodeTo := encode;
     InternalKey_Encode := ikey_encode;
     ParseInternalKey := ikey_parse;
     BlobRecord_size := fun r => Z.of_nat (String.length (rec_key r) + String.length (rec_value r));
     WriteBatchInternal_Put := fun wb cf k v => (Status.OK, wb ++ [OpPut cf k v]);
     WriteBatchInternal_PutBlobIndex := fun wb cf k v => (Status.OK, wb ++ [OpPutBlobIndex cf k v]);
     GetDataSize := fun wb => foldr (fun op n => op_size op + n) 12 wb |}.

(** An engine that answers every lookup at every time from [lookup], commits
    and syncs without error, is never dropped nor shut down. *)
Definition engine (lookup : nat -> string -> GetImplResult) (asserts : bool) : Engine :=
  {| db_GetImpl := fun n _ key => lookup n key;
     db_Commit := fun _ _ => Status.OK;
     db_FlushWAL := fun _ => Status.OK;
     db_GetLatestSequenceNumber := fun _ => 100;
     cfd_IsDropped := fun _ => false;
     shuting_down := fun _ => false;
     assertions_enabled := asserts |}.

Definition missing : GetImplResult :=
  {| g_status := Status.NotFound EmptyString; g_value := EmptyString;
     g_is_blob_index := false; g_level := -1 |}.

Definition inlined (v : string) (level : Z) : GetImplResult :=
  {| g_status := Status.OK; g_value := v; g_is_blob_index := false; g_level := level |}.

Definition points_to (i : BlobIndex.t) (level : Z) : GetImplResult :=
  {| g_status := Status.OK; g_value := encode i; g_is_blob_index := true;
     g_level := level |}.

Definition failing (s : Status.t) : GetImplResult :=
  {| g_status := s; g_value := EmptyString; g_is_blob_index := false; g_level := -1 |}.

Definition garbled : GetImplResult :=
  {| g_status := Status.OK; g_value := "xx"; g_is_blob_index := true; g_level := 2 |}.

(** A builder that is the list of the contexts it has been given, each with
    the handle of its record: records lie one after the other. *)
Definition add_record (b : list BlobRecordContext) (r : BlobRecord) (c : BlobRecordContext)
  : list BlobRecordContext * list BlobRecordContext :=
  let size := Z.of_nat (String.length (rec_key r) + String.length (rec_value r)) in
  let offset := foldr (fun c n => BlobHandle.size (BlobIndex.blob_handle (ctx_new_blob_index c)) + n) 0 b in
  let c' := {| ctx_key := ctx_key c;
               ctx_original_blob_index := ctx_original_blob_index c;
               ctx_new_blob_index :=
                 BlobIndex.mk (BlobIndex.file_number (ctx_new_blob_index c))
                   (BlobHandle.mk offset size (Z.of_nat (length b))) |} in
  (b ++ [c'], [c']).

(** Blob files: the iterator yields [tuples]; the n-th call opens file
    [100 + n]; publishing answers [publish_status] and finishing a builder
    [finish_status]. *)
Definition files (tuples : list Tuple) (finish_status publish_status : Status.t)
  : BlobFiles :=
  {| Builder := list BlobRecordContext;
     NewBlobFileReader := fun _ _ => Status.OK;
     iter_tuples := tuples;
     iter_terminal_status := Status.OK;
     bfm_NewFile := fun n => (Status.OK, 100 + Z.of_nat n);
     bfm_BatchFinishFiles := fun _ _ _ => publish_status;
     bfm_BatchDeleteFiles := fun _ _ => Status.OK;
     GetFileSize := fun _ b =>
       foldr (fun c n => BlobHandle.size (BlobIndex.blob_handle (ctx_new_blob_index c)) + n) 0 b;
     builder_new := fun _ => [];
     builder_Add := add_record;
     builder_Finish := fun _ b => (finish_status, b, []);
     builder_status := fun _ => Status.OK;
     NumEntries := fun b => Z.of_nat (length b);
     builder_live_data_size := fun b =>
       foldr (fun c n => BlobHandle.size (BlobIndex.blob_handle (ctx_new_blob_index c)) + n) 0 b;
     GetSmallestKey := fun b => match b with c :: _ => ctx_key c | [] => EmptyString end;
     GetLargestKey := fun b => match b with c :: _ => ctx_key c | [] => EmptyString end;
     GetDiscardableRatioLevel := fun _ => 0;
     LogAndApply := fun _ _ => Status.OK |}.

Definition shadows : Shadows :=
  {| NewFileNumber := fun n => 500 + Z.of_nat n;
     NewWritableFile := fun _ _ _ => Status.OK;
     EstimatedFileSize := fun tb => Z.of_nat (length (tb_entries tb));
     tb_Finish := fun _ _ => Status.OK |}.

(** An input blob file of [n] records, all bits set. *)
Definition input (number : Z) (n : nat) : BlobFileMeta :=
  {| file_number := number; file_size := 1000; file_entries := Z.of_nat n;
     file_level := 0; smallest_key := "a"; largest_key := "z";
     live_data_size := 1000; live_bitset := replicate n true;
     file_state := kNormal |}.

Definition options (mode : TitanBlobRunMode) (target : Z) (shadow : bool)
  : TitanCFOptions :=
  {| blob_run_mode := mode; blob_file_target_size := target;
     rewrite_shadow := shadow; shadow_target_size := 1000 |}.

Definition gc (files : list BlobFileMeta) (o : TitanCFOptions) : BlobGC :=
  {| inputs := files; titan_cf_options := o; cf_id := 0; output_shadows := [] |}.

Definition index (number order : Z) : BlobIndex.t :=
  BlobIndex.mk number (BlobHandle.mk (10 * order) 10 order).

Definition tuple (key : string) (number order : Z) : Tuple :=
  {| t_key := key; t_blob_index := index number order; t_value := "0123456789" |}.

(** An engine whose column family is dropped, and which is shutting down,
    at the times that [dropped] and [shut] say. *)
Definition stopping (dropped shut : nat -> bool) (lookup : nat -> string -> GetImplResult)
  : Engine :=
  {| db_GetImpl := fun n _ key => lookup n key;
     db_Commit := fun _ _ => Status.OK;
     db_FlushWAL := fun _ => Status.OK;
     db_GetLatestSequenceNumber := fun _ => 100;
     cfd_IsDropped := dropped;
     shuting_down := shut;
     assertions_enabled := true |}.

(** Blob files like [files] where the reader of file [bad] cannot be
    opened. *)
Definition unreadable (bad : Z) (tuples : list Tuple) : BlobFiles :=
  {| Builder := list BlobRecordContext;
     NewBlobFileReader := fun _ number =>
       if number =? bad then Status.mk Status.kIOError "no such file" else Status.OK;
     iter_tuples := tuples;
     iter_terminal_status := Status.OK;
     bfm_NewFile := fun n => (Status.OK, 100 + Z.of_nat n);
     bfm_BatchFinishFiles := fun _ _ _ => Status.OK;
     bfm_BatchDeleteFiles := fun _ _ => Status.OK;
     GetFileSize := fun _ b =>
       foldr (fun c n => BlobHandle.size (BlobIndex.blob_handle (ctx_new_blob_index c)) + n) 0 b;
     builder_new := fun _ => [];
     builder_Add := add_record;
     builder_Finish := fun _ b => (Status.OK, b, []);
     builder_status := fun _ => Status.OK;
     NumEntries := fun b => Z.of_nat (length b);
     builder_live_data_size := fun b =>
       foldr (fun c n => BlobHandle.size (BlobIndex.blob_handle (ctx_new_blob_index c)) + n) 0 b;
     GetSmallestKey := fun b => match b with c :: _ => ctx_key c | [] => EmptyString end;
     GetLargestKey := fun b => match b with c :: _ => ctx_key c | [] => EmptyString end;
     GetDiscardableRatioLevel := fun _ => 0;
     LogAndApply := fun _ _ => Status.OK |}.

(** Blob files like [files] whose merged iterator ends with the status
    [terminal] after its tuples. *)
Definition files_ending (tuples : list Tuple) (terminal : Status.t) : BlobFiles :=
  {| Builder := list BlobRecordContext;
     NewBlobFileReader := fun _ _ => Status.OK;
     iter_tuples := tuples;
     iter_terminal_status := terminal;
     bfm_NewFile := fun n => (Status.OK, 100 + Z.of_nat n);
     bfm_BatchFinishFiles := fun _ _ _ => Status.OK;
     bfm_BatchDeleteFiles := fun _ _ => Status.OK;
     GetFileSize := fun _ b =>
       foldr (fun c n => BlobHandle.size (BlobIndex.blob_handle (ctx_new_blob_index c)) + n) 0 b;
     builder_new := fun _ => [];
     builder_Add := add_record;
     builder_Finish := fun _ b => (Status.OK, b, []);
     builder_status := fun _ => Status.OK;
     NumEntries := fun b => Z.of_nat (length b);
     builder_live_data_size := fun b =>
       foldr (fun c n => BlobHandle.size (BlobIndex.blob_handle (ctx_new_blob_index c)) + n) 0 b;
     GetSmallestKey := fun b => match b with c :: _ => ctx_key c | [] => EmptyString end;
     GetLargestKey := fun b => match b with c :: _ => ctx_key c | [] => EmptyString end;
     GetDiscardableRatioLevel := fun _ => 0;
     LogAndApply := fun _ _ => Status.OK |}.

End Demo.

(** ** The job *)

Section Job.

Context {FMT : Format} {ENG : Engine} {BF : BlobFiles} {SH : Shadows}.
Variable blob_gc_ : BlobGC.

Record State := {
  history : list Event;
  metrics_ : Ticker -> Z;
  rewrite_batches_ : list (WriteBatch * GarbageCollectionWriteCallback);
  blob_file_builders_ : list (option Z * option Builder);
  outputs : list Z;
  storage : option (gmap Z BlobFileMeta);
  shadow_set : list Z
}.

Definition set_history (h : list Event) (st : State) : State :=
  {| history := h; metrics_ := metrics_ st;
     rewrite_batches_ := rewrite_batches_ st;
     blob_file_builders_ := blob_file_builders_ st; outputs := outputs st;
     storage := storage st; shadow_set := shadow_set st |}.

Definition set_metrics (m : Ticker -> Z) (st : State) : State :=
  {| history := history st; metrics_ := m;
     rewrite_batches_ := rewrite_batches_ st;
     blob_file_builders_ := blob_file_builders_ st; outputs := outputs st;
     storage := storage st; shadow_set := shadow_set st |}.

Definition set_rewrite_batches
  (l : list (WriteBatch * GarbageCollectionWriteCallback)) (st : State) : State :=
  {| history := history st; metrics_ := metrics_ st;
     rewrite_batches_ := l;
     blob_file_builders_ := blob_file_builders_ st; outputs := outputs st;
     storage := storage st; shadow_set := shadow_set st |}.

Definition set_blob_file_builders
  (l : list (option Z * option Builder)) (st : State) : State :=
  {| history := history st; metrics_ := metrics_ st;
     rewrite_batches_ := rewrite_batches_ st;
     blob_file_builders_ := l; outputs := outputs st;
     storage := storage st; shadow_set := shadow_set st |}.

Definition set_outputs (l : list Z) (st : State) : State :=
  {| history := history st; metrics_ := metrics_ st;
     rewrite_batches_ := rewrite_batches_ st;
     blob_file_builders_ := blob_file_builders_ st; outputs := l;
     storage := storage st; shadow_set := shadow_set st |}.

Definition set_storage (m : option (gmap Z BlobFileMeta)) (st : State) : State :=
  {| history := history st; metrics_ := metrics_ st;
     rewrite_batches_ := rewrite_batches_ st;
     blob_file_builders_ := blob_file_builders_ st; outputs := outputs st;
     storage := m; shadow_set := shadow_set st |}.

Definition set_shadow_set (l : list Z) (st : State) : State :=
  {| history := history st; metrics_ := metrics_ st;
     rewrite_batches_ := rewrite_batches_ st;
     blob_file_builders_ := blob_file_builders_ st; outputs := outputs st;
     storage := storage st; shadow_set := l |}.

(** *** The monad: state passing, and a fault ends the run *)

Definition M (A : Type) : Type := State -> Outcome A * State.

Definition ret {A} (a : A) : M A := fun st => (Returns a, st).

Definition bind {A B} (m : M A) (k : A -> M B) : M B :=
  fun st =>
    match m st with
    | (Returns a, st') => k a st'
    | (Faults f, st') => (Faults f, st')
    end.

Notation "x <- m ;; k" := (bind m (fun x => k))
  (at level 20, m at level 99, k at level 200, only parsing).
Notation "' p <- m ;; k" := (bind m (fun x => let 'p := x in k))
  (at level 20, p pattern, m at level 99, k at level 200, only parsing).

Definition fault {A} (f : Fault) : M A := fun st => (Faults f, st).

Definition now : M nat := fun st => (Returns (length (history st)), st).

Definition log (e : Event) : M unit :=
  fun st => (Returns tt, set_history (history st ++ [e]) st).

Definition modify (f : State -> State) : M unit :=
  fun st => (Returns tt, f st).

Definition gets {A} (f : State -> A) : M A := fun st => (Returns (f st), st).

(** [assert(b)]: nothing under NDEBUG, a fault otherwise when [b] fails. *)
Definition assert (b : bool) (what : string) : M unit :=
  if assertions_enabled && negb b then fault (AssertionFailed what) else ret tt.

Definition RecordMetric (t : Ticker) (n : Z) : M unit :=
  modify (fun st => set_metrics (bump t n (metrics_ st)) st).

Definition slice_size (s : string) : Z := Z.of_nat (String.length s).

Definition is_Some_b {A} (o : option A) : bool :=
  match o with Some _ => true | None => false end.

(** *** Calls to the engine *)

Definition GetImpl (cf : Z) (key : string) : M GetImplResult :=
  n <- now ;;
  let r := db_GetImpl n cf key in
  _ <- log (EvGetImpl key r) ;; ret r.

Definition IsShutingDown : M bool :=
  n <- now ;;
  let b := shuting_down n in
  _ <- log (EvIsShutingDown b) ;; ret b.

Definition IsDropped : M bool :=
  n <- now ;;
  let b := cfd_IsDropped n in
  _ <- log (EvIsDropped b) ;; ret b.

(** *** GarbageCollectionWriteCallback *)

(** The constructor, with its [assert(!key_.empty())]. *)
Definition NewCallback (cfh : Z) (key : string) (blob_index new_blob_index : BlobIndex.t)
  : M GarbageCollectionWriteCallback :=
  _ <- assert (negb (String.eqb key EmptyString)) "!key_.empty()" ;;
  ret {| cfh_ := cfh; key_ := key; blob_index_ := blob_index;
         new_blob_index_ := new_blob_index; read_bytes_ := 0 |}.

(** [Callback]: the status, and the callback object with its
    [read_bytes_] member as the call leaves it. *)
Definition Callback (cb : GarbageCollectionWriteCallback)
  : M (Status.t * GarbageCollectionWriteCallback) :=
  r <- GetImpl (cfh_ cb) (key_ cb) ;;
  let s := g_status r in
  if negb (Status.ok s) && negb (Status.IsNotFound s) then ret (s, cb)
  else
    let cb := set_read_bytes (u64 (slice_size (key_ cb) + slice_size (g_value r))) cb in
    let s :=
      if Status.IsNotFound s then Status.Busy "key deleted"
      else if negb (g_is_blob_index r)
           then Status.Busy "key overwritten with other value"
           else s in
    if Status.ok s then
      let '(s, other_blob_index) := DecodeFrom (g_value r) in
      if negb (Status.ok s) then ret (s, cb)
      else if negb (BlobIndex.eqb (blob_index_ cb) other_blob_index)
           then ret (Status.Busy "key overwritten with other blob", cb)
           else ret (s, cb)
    else ret (s, cb).

(** Modelled from the spec: [DBImpl::WriteWithCallback] belongs to the
    engine; it "commits batch iff callback.Callback(db) returns OK; otherwise
    returns the callback's status". *)
Definition WriteWithCallback (wb : WriteBatch) (cb : GarbageCollectionWriteCallback)
  : M (Status.t * GarbageCollectionWriteCallback) :=
  '(s, cb) <- Callback cb ;;
  if Status.ok s then
    n <- now ;;
    let s := db_Commit n wb in
    _ <- log (EvWrite wb s) ;; ret (s, cb)
  else ret (s, cb).

(** *** BlobGCJob::DoRunGC

    The local variables of [DoRunGC] ([s_status] is its [s], [cur_file_size]
    its [file_size]). *)
Record Locals := {
  s_status : Status.t;
  blob_file_handle : option Z;
  blob_file_builder : option Builder;
  level_shadow_builders : list (option TableBuilder);
  level_shadow_files : list (option Z);
  cur_file_size : Z;
  shadow_size : Z;
  discardable_count : Z;
  total_count : Z;
  valid_count : Z;
  last_key : string;
  last_key_is_fresh : bool
}.

Definition set_s_status (x : Status.t) (l : Locals) : Locals :=
  {| s_status := x;
     blob_file_handle := blob_file_handle l;
     blob_file_builder := blob_file_builder l;
     level_shadow_builders := level_shadow_builders l;
     level_shadow_files := level_shadow_files l;
     cur_file_size := cur_file_size l;
     shadow_size := shadow_size l;
     discardable_count := discardable_count l;
     total_count := total_count l;
     valid_count := valid_count l;
     last_key := last_key l;
     last_key_is_fresh := last_key_is_fresh l |}.

Definition set_blob_file_handle (x : option Z) (l : Locals) : Locals :=
  {| s_status := s_status l;
     blob_file_handle := x;
     blob_file_builder := blob_file_builder l;
     level_shadow_builders := level_shadow_builders l;
     level_shadow_files := level_shadow_files l;
     cur_file_size := cur_file_size l;
     shadow_size := shadow_size l;
     discardable_count := discardable_count l;
     total_count := total_count l;
     valid_count := valid_count l;
     last_key := last_key l;
     last_key_is_fresh := last_key_is_fresh l |}.

Definition set_blob_file_builder (x : option Builder) (l : Locals) : Locals :=
  {| s_status := s_status l;
     blob_file_handle := blob_file_handle l;
     blob_file_builder := x;
     level_shadow_builders := level_shadow_builders l;
     level_shadow_files := level_shadow_files l;
     cur_file_size := cur_file_size l;
     shadow_size := shadow_size l;
     discardable_count := discardable_count l;
     total_count := total_count l;
     valid_count := valid_count l;
     last_key := last_key l;
     last_key_is_fresh := last_key_is_fresh l |}.

Definition set_level_shadow_builders (x : list (option TableBuilder)) (l : Locals) : Locals :=
  {| s_status := s_status l;
     blob_file_handle := blob_file_handle l;
     blob_file_builder := blob_file_builder l;
     level_shadow_builders := x;
     level_shadow_files := level_shadow_files l;
     cur_file_size := cur_file_size l;
     shadow_size := shadow_size l;
     discardable_count := discardable_count l;
     total_count := total_count l;
     valid_count := valid_count l;
     last_key := last_key l;
     last_key_is_fresh := last_key_is_fresh l |}.

Definition set_level_shadow_files (x : list (option Z)) (l : Locals) : Locals :=
  {| s_status := s_status l;
     blob_file_handle := blob_file_handle l;
     blob_file_builder := blob_file_builder l;
     level_shadow_builders := level_shadow_builders l;
     level_shadow_files := x;
     cur_file_size := cur_file_size l;
     shadow_size := shadow_size l;
     discardable_count := discardable_count l;
     total_count := total_count l;
     valid_count := valid_count l;
     last_key := last_key l;
     last_key_is_fresh := last_key_is_fresh l |}.

Definition set_cur_file_size (x : Z) (l : Locals) : Locals :=
  {| s_status := s_status l;
     blob_file_handle := blob_file_handle l;
     blob_file_builder := blob_file_builder l;
     level_shadow_builders := level_shadow_builders l;
     level_shadow_files := level_shadow_files l;
     cur_file_size := x;
     shadow_size := shadow_size l;
     discardable_count := discardable_count l;
     total_count := total_count l;
     valid_count := valid_count l;
     last_key := last_key l;
     last_key_is_fresh := last_key_is_fresh l |}.

Definition set_shadow_size (x : Z) (l : Locals) : Locals :=
  {| s_status := s_status l;
     blob_file_handle := blob_file_handle l;
     blob_file_builder := blob_file_builder l;
     level_shadow_builders := level_shadow_builders l;
     level_shadow_files := level_shadow_files l;
     cur_file_size := cur_file_size l;
     shadow_size := x;
     discardable_count := discardable_count l;
     total_count := total_count l;
     valid_count := valid_count l;
     last_key := last_key l;
     last_key_is_fresh := last_key_is_fresh l |}.

Definition set_discardable_count (x : Z) (l : Locals) : Locals :=
  {| s_status := s_status l;
     blob_file_handle := blob_file_handle l;
     blob_file_builder := blob_file_builder l;
     level_shadow_builders := level_shadow_builders l;
     level_shadow_files := level_shadow_files l;
     cur_file_size := cur_file_size l;
     shadow_size := shadow_size l;
     discardable_count := x;
     total_count := total_count l;
     valid_count := valid_count l;
     last_key := last_key l;
     last_key_is_fresh := last_key_is_fresh l |}.

Definition set_total_count (x : Z) (l : Locals) : Locals :=
  {| s_status := s_status l;
     blob_file_handle := blob_file_handle l;
     blob_file_builder := blob_file_builder l;
     level_shadow_builders := level_shadow_builders l;
     level_shadow_files := level_shadow_files l;
     cur_file_size := cur_file_size l;
     shadow_size := shadow_size l;
     discardable_count := discardable_count l;
     total_count := x;
     valid_count := valid_count l;
     last_key := last_key l;
     last_key_is_fresh := last_key_is_fresh l |}.

Definition set_valid_count (x : Z) (l : Locals) : Locals :=
  {| s_status := s_status l;
     blob_file_handle := blob_file_handle l;
     blob_file_builder := blob_file_builder l;
     level_shadow_builders := level_shadow_builders l;
     level_shadow_files := level_shadow_files l;
     cur_file_size := cur_file_size l;
     shadow_size := shadow_size l;
     discardable_count := discardable_count l;
     total_count := total_count l;
     valid_count := x;
     last_key := last_key l;
     last_key_is_fresh := last_key_is_fresh l |}.

Definition set_last_key (x : string) (l : Locals) : Locals :=
  {| s_status := s_status l;
     blob_file_handle := blob_file_handle l;
     blob_file_builder := blob_file_builder l;
     level_shadow_builders := level_shadow_builders l;
     level_shadow_files := level_shadow_files l;
     cur_file_size := cur_file_size l;
     shadow_size := shadow_size l;
     discardable_count := discardable_count l;
     total_count := total_count l;
     valid_count := valid_count l;
     last_key := x;
     last_key_is_fresh := last_key_is_fresh l |}.

Definition set_last_key_is_fresh (x : bool) (l : Locals) : Locals :=
  {| s_status := s_status l;
     blob_file_handle := blob_file_handle l;
     blob_file_builder := blob_file_builder l;
     level_shadow_builders := level_shadow_builders l;
     level_shadow_files := level_shadow_files l;
     cur_file_size := cur_file_size l;
     shadow_size := shadow_size l;
     discardable_count := discardable_count l;
     total_count := total_count l;
     valid_count := valid_count l;
     last_key := last_key l;
     last_key_is_fresh := x |}.

Definition cf_options : TitanCFOptions := titan_cf_options blob_gc_.

Definition push_rewrite_batch (b : WriteBatch * GarbageCollectionWriteCallback) : M unit :=
  modify (fun st => set_rewrite_batches (rewrite_batches_ st ++ [b]) st).

Definition push_blob_file_builder (b : option Z * option Builder) : M unit :=
  modify (fun st => set_blob_file_builders (blob_file_builders_ st ++ [b]) st).

(** [v[n]] on an autovector or a vector: outside the bounds it is a fault
    (the [assert(n < size())] of autovector, undefined behaviour without). *)
Definition index {A} (v : list A) (n : Z) : M A :=
  if n <? 0 then fault (IndexOutOfRange n)
  else match v !! Z.to_nat n with
       | Some x => ret x
       | None => fault (IndexOutOfRange n)
       end.

(** [BlobGCJob::BuildIterator]: one reader per input file, in order. *)
Fixpoint open_readers (files : list BlobFileMeta) (s : Status.t) : M Status.t :=
  match files with
  | [] => ret s
  | f :: rest =>
      n <- now ;;
      let s := NewBlobFileReader n (file_number f) in
      _ <- log (EvNewBlobFileReader (file_number f) s) ;;
      if negb (Status.ok s) then ret s else open_readers rest s
  end.

Definition BuildIterator : M (Status.t * option (list Tuple * Status.t)) :=
  _ <- assert (negb (bool_decide (inputs blob_gc_ = []))) "!inputs.empty()" ;;
  s <- open_readers (inputs blob_gc_) Status.OK ;;
  if Status.ok s then ret (s, Some (iter_tuples, iter_terminal_status))
  else ret (s, None).

(** [BlobGCJob::DiscardEntryWithBitset]: the status and [*discardable]. *)
Definition DiscardEntryWithBitset (blob_index : BlobIndex.t) (discardable : bool)
  : Status.t * bool :=
  match List.find (fun f => file_number f =? BlobIndex.file_number blob_index)
                  (inputs blob_gc_) with
  | None => (Status.NotFound "Blob file meta not found", discardable)
  | Some file =>
      if IsLiveData file (BlobHandle.order (BlobIndex.blob_handle blob_index))
      then (Status.OK, false)
      else (Status.OK, true)
  end.

(** [BlobGCJob::DiscardEntry]: the status, [*discardable] and [*level]. *)
Definition DiscardEntry (key : string) (blob_index : BlobIndex.t) (discardable : bool)
  : M (Status.t * bool * Z) :=
  r <- GetImpl (cf_id blob_gc_) key ;;
  let s := g_status r in
  let level := g_level r in
  if negb (Status.ok s) && negb (Status.IsNotFound s) then ret (s, discardable, level)
  else
    _ <- RecordMetric gc_bytes_read_check (slice_size key + slice_size (g_value r)) ;;
    if Status.IsNotFound s || negb (g_is_blob_index r) then ret (Status.OK, true, level)
    else
      let '(s, other_blob_index) := DecodeFrom (g_value r) in
      if negb (Status.ok s) then ret (s, discardable, level)
      else ret (Status.OK, negb (BlobIndex.eqb blob_index other_blob_index), level).

(** [BlobGCJob::BatchWriteNewIndices(contexts, &s)]: the final [*s]. *)
Fixpoint BatchWriteNewIndices (contexts : list BlobRecordContext) (s : Status.t)
  : M Status.t :=
  match contexts with
  | [] => ret s
  | ctx :: rest =>
      let blob_index :=
        BlobIndex.mk (BlobIndex.file_number (ctx_new_blob_index ctx))
                     (BlobIndex.blob_handle (ctx_new_blob_index ctx)) in
      let original_index := ctx_original_blob_index ctx in
      let '(s, ikey) := ParseInternalKey (ctx_key ctx) in
      if negb (Status.ok s) then ret s
      else
        let index_entry := EncodeTo blob_index in
        callback <- NewCallback (cf_id blob_gc_) (user_key ikey) original_index blob_index ;;
        let '(s, wb) :=
          WriteBatchInternal_PutBlobIndex [] (cf_id blob_gc_) (user_key ikey) index_entry in
        _ <- push_rewrite_batch (wb, callback) ;;
        if negb (Status.ok s) then ret s else BatchWriteNewIndices rest s
  end.

(** [BlobGCJob::OpenGCOutputShadow]: the status and, when it is OK, the
    table builder and the file it has set. *)
Definition OpenGCOutputShadow (level : Z) : M (Status.t * option (TableBuilder * Z)) :=
  n <- now ;;
  let shadow_number := NewFileNumber n in
  let s := NewWritableFile n shadow_number level in
  _ <- log (EvOpenShadow shadow_number level s) ;;
  if negb (Status.ok s) then ret (s, None)
  else ret (s, Some ({| tb_number := shadow_number; tb_level := level;
                        tb_entries := [] |}, shadow_number)).

(** [BlobGCJob::AddToShadow]: the status and the builder with the added
    entries.  The source's last test of [s] in the loop body is dead. *)
Fixpoint AddToShadow (builder : TableBuilder) (contexts : list BlobRecordContext)
  (s : Status.t) : Status.t * TableBuilder :=
  match contexts with
  | [] => (s, builder)
  | ctx :: rest =>
      let blob_index :=
        BlobIndex.mk (BlobIndex.file_number (ctx_new_blob_index ctx))
                     (BlobIndex.blob_handle (ctx_new_blob_index ctx)) in
      let index_entry := EncodeTo blob_index in
      let '(s, ikey) := ParseInternalKey (ctx_key ctx) in
      if negb (Status.ok s) then (s, builder)
      else
        let shadow_ikey := InternalKey_Encode (user_key ikey) 1 kTypeBlobIndex in
        let builder :=
          {| tb_number := tb_number builder; tb_level := tb_level builder;
             tb_entries := tb_entries builder ++ [(shadow_ikey, index_entry)] |} in
        AddToShadow builder rest s
  end.

Definition FinishShadow (builder : TableBuilder) : M Status.t :=
  n <- now ;;
  let s := tb_Finish n builder in
  _ <- log (EvShadowFinish (tb_level builder) s) ;; ret s.

(** Lines 276-291: the fallback run mode.  The result says whether the loop
    is left with [break]. *)
Definition RewriteFallback (t : Tuple) (l : Locals) : M (bool * Locals) :=
  callback <- NewCallback (cf_id blob_gc_) (t_key t) (t_blob_index t) BlobIndex.empty ;;
  let '(s, wb) := WriteBatchInternal_Put [] (cf_id blob_gc_) (t_key t) (t_value t) in
  _ <- push_rewrite_batch (wb, callback) ;;
  ret (negb (Status.ok s), set_s_status s l).

(** Lines 294-315: the output blob file is rolled or opened. *)
Definition RollOutputFile (l : Locals) : M (bool * Locals) :=
  let target := blob_file_target_size cf_options in
  if (negb (is_Some_b (blob_file_handle l)) && negb (is_Some_b (blob_file_builder l)))
     || (target <=? cur_file_size l)
  then
    l <- (if target <=? cur_file_size l then
            _ <- assert (is_Some_b (blob_file_builder l)) "blob_file_builder" ;;
            _ <- assert (is_Some_b (blob_file_handle l)) "blob_file_handle" ;;
            _ <- assert (match blob_file_builder l with
                         | Some b => Status.ok (builder_status b)
                         | None => true
                         end) "blob_file_builder->status().ok()" ;;
            _ <- push_blob_file_builder (blob_file_handle l, blob_file_builder l) ;;
            ret (set_blob_file_builder None (set_blob_file_handle None l))
          else ret l) ;;
    n <- now ;;
    let '(s, number) := bfm_NewFile n in
    _ <- log (EvNewFile s number) ;;
    let l := set_s_status s l in
    if negb (Status.ok s) then ret (true, l)
    else ret (false, set_cur_file_size 0
                       (set_blob_file_builder (Some (builder_new number))
                          (set_blob_file_handle (Some number) l)))
  else ret (false, l).

(** Lines 367-388: the live record goes to the shadow table of its level. *)
Definition RewriteToShadow (level : Z) (contexts : list BlobRecordContext) (l : Locals)
  : M (bool * Locals) :=
  b <- index (level_shadow_builders l) level ;;
  '(brk, l) <- (match b with
                | Some _ => ret (false, l)
                | None =>
                    '(s, r) <- OpenGCOutputShadow level ;;
                    let l := set_s_status s l in
                    let l := match r with
                             | Some (tb, f) =>
                                 set_level_shadow_files
                                   (<[Z.to_nat level := Some f]> (level_shadow_files l))
                                   (set_level_shadow_builders
                                      (<[Z.to_nat level := Some tb]> (level_shadow_builders l)) l)
                             | None => l
                             end in
                    if negb (Status.ok s) then ret (true, l)
                    else ret (false, set_shadow_size 0 l)
                end) ;;
  if brk then ret (true, l)
  else
    b <- index (level_shadow_builders l) level ;;
    _ <- assert (is_Some_b b) "level_shadow_builders[level]" ;;
    match b with
    | None => fault (NullDereference "level_shadow_builders[level]")
    | Some tb =>
        let '(s, tb) := AddToShadow tb contexts Status.OK in
        let l := set_s_status s
                   (set_level_shadow_builders
                      (<[Z.to_nat level := Some tb]> (level_shadow_builders l)) l) in
        if negb (Status.ok s) then ret (true, l)
        else
          let l := set_shadow_size (EstimatedFileSize tb) l in
          if shadow_target_size cf_options <=? shadow_size l then
            s <- FinishShadow tb ;;
            let l := set_s_status s l in
            if negb (Status.ok s) then ret (true, l)
            else ret (false,
                      set_level_shadow_files
                        (<[Z.to_nat level := None]> (level_shadow_files l))
                        (set_level_shadow_builders
                           (<[Z.to_nat level := None]> (level_shadow_builders l)) l))
          else ret (false, l)
    end.

(** Lines 293-396: the live record is appended to the output blob file and
    its new index goes to a shadow table or to a rewrite batch. *)
Definition RewriteToBlobFile (t : Tuple) (level : Z) (l : Locals) : M (bool * Locals) :=
  '(brk, l) <- RollOutputFile l ;;
  if brk then ret (true, l)
  else
    _ <- assert (is_Some_b (blob_file_handle l)) "blob_file_handle" ;;
    _ <- assert (is_Some_b (blob_file_builder l)) "blob_file_builder" ;;
    let blob_record := {| rec_key := t_key t; rec_value := t_value t |} in
    _ <- RecordMetric gc_bytes_written_blob (BlobRecord_size blob_record) ;;
    match blob_file_handle l, blob_file_builder l with
    | Some number, Some builder =>
        let ctx :=
          {| ctx_key := InternalKey_Encode (rec_key blob_record) 1 kTypeValue;
             ctx_original_blob_index := t_blob_index t;
             ctx_new_blob_index := BlobIndex.mk number (BlobHandle.mk 0 0 0) |} in
        let '(builder, contexts) := builder_Add builder blob_record ctx in
        let l := set_blob_file_builder (Some builder) l in
        if rewrite_shadow cf_options then RewriteToShadow level contexts l
        else
          s <- BatchWriteNewIndices contexts (s_status l) ;;
          ret (negb (Status.ok s), set_s_status s l)
    | None, _ => fault (NullDereference "blob_file_handle")
    | _, None => fault (NullDereference "blob_file_builder")
    end.

(** Lines 276-396: a live record is rewritten according to the run mode. *)
Definition RewriteLive (t : Tuple) (level : Z) (l : Locals) : M (bool * Locals) :=
  match blob_run_mode cf_options with
  | kFallback => RewriteFallback t l
  | _ => RewriteToBlobFile t level l
  end.

(** The test of line 238: the key of the tuple is the last key seen. *)
Definition same_key (t : Tuple) (l : Locals) : bool :=
  negb (String.eqb (last_key l) EmptyString) && String.eqb (t_key t) (last_key l).

(** One iteration of the scan loop (lines 228-397); the boolean says whether
    the loop is left with [break]. *)
Definition scan_body (t : Tuple) (l : Locals) : M (bool * Locals) :=
  let l := set_total_count (u64 (total_count l + 1)) l in
  sd <- IsShutingDown ;;
  if sd then ret (true, set_s_status Status.ShutdownInProgress l)
  else
    let blob_index := t_blob_index t in
    _ <- RecordMetric gc_bytes_read_blob (BlobHandle.size (BlobIndex.blob_handle blob_index)) ;;
    if same_key t l && last_key_is_fresh l then ret (false, l)
    else
      let l := if same_key t l then l
               else set_last_key_is_fresh false (set_last_key (t_key t) l) in
      let '(s, discardable) := DiscardEntryWithBitset blob_index false in
      let l := set_s_status s l in
      if negb (Status.ok s) then ret (true, l)
      else
        '(s, discardable, level) <-
          (if negb discardable then DiscardEntry (t_key t) blob_index discardable
           else ret (s, discardable, -1)) ;;
        let l := set_s_status s l in
        if negb (Status.ok s) then ret (true, l)
        else if discardable then
          _ <- RecordMetric gc_num_keys_overwritten_check 1 ;;
          _ <- RecordMetric gc_bytes_overwritten_check
                 (BlobHandle.size (BlobIndex.blob_handle blob_index)) ;;
          ret (false, set_discardable_count (u64 (discardable_count l + 1)) l)
        else
          RewriteLive t level
            (set_last_key_is_fresh true (set_valid_count (u64 (valid_count l + 1)) l)).

Fixpoint scan_loop (tuples : list Tuple) (l : Locals) : M (bool * Locals) :=
  match tuples with
  | [] => ret (false, l)
  | t :: rest =>
      '(brk, l) <- scan_body t l ;;
      if brk then ret (true, l) else scan_loop rest l
  end.

(** Lines 427-442: the shadow builders still open are finished, in the
    order of the levels; the result is the [s] that [DoRunGC] returns. *)
Fixpoint FinishShadows (builders : list (option TableBuilder)) (s : Status.t)
  : M Status.t :=
  match builders with
  | [] => ret s
  | None :: rest => FinishShadows rest s
  | Some builder :: rest =>
      s <- FinishShadow builder ;;
      if negb (Status.ok s) then ret s else FinishShadows rest s
  end.

Definition initial_locals (s : Status.t) : Locals :=
  {| s_status := s; blob_file_handle := None; blob_file_builder := None;
     level_shadow_builders := replicate 7 None;
     level_shadow_files := replicate 7 None;
     cur_file_size := 0; shadow_size := 0;
     discardable_count := 0; total_count := 0; valid_count := 0;
     last_key := EmptyString; last_key_is_fresh := false |}.

(** Lines 405-445: what follows the loop.  [broke] says whether the loop was
    left with [break]; the iterator is then still valid and its status OK. *)
Definition AfterScan (broke : bool) (terminal : Status.t) (l : Locals) : M Status.t :=
  let iter_status := if broke then Status.OK else terminal in
  let finish :=
    if rewrite_shadow cf_options
    then FinishShadows (level_shadow_builders l) (s_status l)
    else ret (s_status l) in
  if Status.ok iter_status && Status.ok (s_status l) then
    _ <- (match blob_file_builder l, blob_file_handle l with
          | Some b, Some h =>
              _ <- assert (Status.ok (builder_status b)) "blob_file_builder->status().ok()" ;;
              push_blob_file_builder (Some h, Some b)
          | _, _ =>
              _ <- assert (negb (is_Some_b (blob_file_builder l))) "!blob_file_builder" ;;
              assert (negb (is_Some_b (blob_file_handle l))) "!blob_file_handle"
          end) ;;
    finish
  else if negb (Status.ok iter_status) then ret iter_status
  else finish.

Definition DoRunGC : M Status.t :=
  '(s, gc_iter) <- BuildIterator ;;
  if negb (Status.ok s) then ret s
  else match gc_iter with
       | None => ret (Status.Aborted "Build iterator for gc failed")
       | Some (tuples, terminal) =>
           _ <- assert (negb (bool_decide (tuples = []))) "gc_iter->Valid()" ;;
           '(broke, l) <- scan_loop tuples (initial_locals s) ;;
           AfterScan broke terminal l
       end.

(** [BlobGCJob::Prepare] and [BlobGCJob::Run]; the log lines are left out. *)
Definition Prepare : M Status.t := ret Status.OK.

Definition Run : M Status.t := DoRunGC.

(** *** BlobGCJob::Finish and what it calls *)

(** The loop of [InstallOutputBlobFiles] over [blob_file_builders_]: [done]
    are the entries already visited (their handle moved into [files]). *)
Fixpoint InstallLoop (todo done : list (option Z * option Builder))
  (files : list BlobFileMeta) (s : Status.t)
  : M (Status.t * list (option Z * option Builder) * list BlobFileMeta) :=
  match todo with
  | [] => ret (s, done, files)
  | (first, second) :: rest =>
      match second with
      | None => fault (NullDereference "builder.second")
      | Some b =>
          n <- now ;;
          let '(s, b, contexts) := builder_Finish n b in
          _ <- log (EvBuilderFinish s) ;;
          s <- BatchWriteNewIndices contexts s ;;
          if negb (Status.ok s) then ret (s, done ++ (first, Some b) :: rest, files)
          else
            _ <- RecordMetric gc_num_new_files 1 ;;
            match first with
            | None => fault (NullDereference "builder.first")
            | Some number =>
                let file :=
                  {| file_number := number; file_size := GetFileSize number b;
                     file_entries := NumEntries b; file_level := 0;
                     smallest_key := GetSmallestKey b; largest_key := GetLargestKey b;
                     live_data_size := 0; live_bitset := [];
                     file_state := kPendingGCOutput |} in
                let file := with_live_data_size (builder_live_data_size b) file in
                let file := InitLiveDataBitset (NumEntries b) file in
                InstallLoop rest (done ++ [(None, Some b)]) (files ++ [file]) s
            end
      end
  end.

(** The handles that the failure branch moves out of
    [blob_file_builders_]; a handle already moved away is null. *)
Fixpoint collect_handles (builders : list (option Z * option Builder)) : option (list Z) :=
  match builders with
  | [] => Some []
  | (None, _) :: _ => None
  | (Some number, _) :: rest =>
      match collect_handles rest with
      | Some l => Some (number :: l)
      | None => None
      end
  end.

(** Modelled from the spec: what a successful [BatchFinishFiles] does to the
    blob storage (blob_file_manager is not among the sources); the files
    "atomically" become "normal". *)
Definition publish (files : list BlobFileMeta) (m : gmap Z BlobFileMeta)
  : gmap Z BlobFileMeta :=
  foldl (fun m f => <[file_number f := with_state kNormal f]> m) m files.

Definition InstallOutputBlobFiles : M Status.t :=
  builders <- gets blob_file_builders_ ;;
  '(s, builders, files) <- InstallLoop builders [] [] Status.OK ;;
  _ <- modify (set_blob_file_builders builders) ;;
  if Status.ok s then
    n <- now ;;
    let s := bfm_BatchFinishFiles n (cf_id blob_gc_) files in
    _ <- log (EvBatchFinishFiles (map file_number files) s) ;;
    if Status.ok s then
      _ <- modify (fun st => set_outputs (outputs st ++ map file_number files)
                               (set_storage (publish files <$> storage st) st)) ;;
      ret s
    else ret s
  else
    match collect_handles builders with
    | None => fault (NullDereference "builder.first")
    | Some handles =>
        _ <- modify (set_blob_file_builders (map (fun b => (None, snd b)) builders)) ;;
        n <- now ;;
        let status := bfm_BatchDeleteFiles n handles in
        _ <- log (EvBatchDeleteFiles handles status) ;;
        ret s
    end.

Definition InstallOutputShadows : M Status.t :=
  _ <- modify (fun st => set_shadow_set (shadow_set st ++ output_shadows blob_gc_) st) ;;
  ret Status.OK.

(** [dropped[file].first += size; dropped[file].second.insert(order)] *)
Definition add_dropped (new_blob_index : BlobIndex.t) (dropped : gmap Z (Z * gset Z))
  : gmap Z (Z * gset Z) :=
  let number := BlobIndex.file_number new_blob_index in
  let handle := BlobIndex.blob_handle new_blob_index in
  let old := default (0, ∅) (dropped !! number) in
  <[number := (u64 (old.1 + BlobHandle.size handle),
               {[BlobHandle.order handle]} ∪ old.2)]> dropped.

(** The loop of [RewriteValidKeyToLSM] over [rewrite_batches_]; it gives the
    status the loop ends with, the batches with their callbacks as the calls
    left them, and [dropped]. *)
Fixpoint RewriteLoop (todo done : list (WriteBatch * GarbageCollectionWriteCallback))
  (dropped : gmap Z (Z * gset Z)) (s : Status.t)
  : M (Status.t * list (WriteBatch * GarbageCollectionWriteCallback) * gmap Z (Z * gset Z)) :=
  match todo with
  | [] => ret (s, done, dropped)
  | (wb, cb) :: rest =>
      d <- IsDropped ;;
      if d then ret (Status.Aborted "Column family drop", done ++ todo, dropped)
      else
        sd <- IsShutingDown ;;
        if sd then ret (Status.ShutdownInProgress, done ++ todo, dropped)
        else
          '(s, cb) <- WriteWithCallback wb cb ;;
          let new_blob_index := new_blob_index_ cb in
          if Status.ok s then
            _ <- (if 0 <? BlobHandle.size (BlobIndex.blob_handle new_blob_index) then
                    _ <- RecordMetric gc_bytes_written_lsm (GetDataSize wb) ;;
                    _ <- RecordMetric gc_num_keys_relocated 1 ;;
                    RecordMetric gc_bytes_relocated (blob_record_size cb)
                  else
                    _ <- RecordMetric gc_num_keys_fallback 1 ;;
                    RecordMetric gc_bytes_fallback (blob_record_size cb)) ;;
            _ <- RecordMetric gc_bytes_read_callback (read_bytes_ cb) ;;
            RewriteLoop rest (done ++ [(wb, cb)]) dropped s
          else if Status.IsBusy s then
            _ <- RecordMetric gc_num_keys_overwritten_callback 1 ;;
            _ <- RecordMetric gc_bytes_overwritten_callback (blob_record_size cb) ;;
            _ <- RecordMetric gc_bytes_read_callback (read_bytes_ cb) ;;
            RewriteLoop rest (done ++ [(wb, cb)]) (add_dropped new_blob_index dropped) s
          else ret (s, done ++ (wb, cb) :: rest, dropped)
  end.

(** The body of the loop over [dropped] (lines 829-851) for one blob file. *)
Definition ApplyDropped (entry : Z * (Z * gset Z)) : M unit :=
  let '(number, (dropped_size, orders)) := entry in
  blob_storage <- gets storage ;;
  match blob_storage with
  | None => ret tt
  | Some files =>
      match files !! number with
      | None => ret tt
      | Some file =>
          let file := foldr (fun order f => SetLiveDataBitset order false f)
                            file (elements orders) in
          _ <- log (EvSubStats (GetDiscardableRatioLevel file)) ;;
          let file := UpdateLiveDataSize (- dropped_size) file in
          _ <- log (EvAddStats (GetDiscardableRatioLevel file)) ;;
          _ <- modify (set_storage (Some (<[number := file]> files))) ;;
          log EvComputeGCScore
      end
  end.

Fixpoint ApplyAllDropped (entries : list (Z * (Z * gset Z))) : M unit :=
  match entries with
  | [] => ret tt
  | e :: rest => _ <- ApplyDropped e ;; ApplyAllDropped rest
  end.

Definition FlushWAL : M Status.t :=
  n <- now ;;
  let s := db_FlushWAL n in
  _ <- log (EvFlushWAL s) ;; ret s.

Definition RewriteValidKeyToLSM : M Status.t :=
  batches <- gets rewrite_batches_ ;;
  '(s, batches, dropped) <- RewriteLoop batches [] ∅ Status.OK ;;
  _ <- modify (set_rewrite_batches batches) ;;
  let s := if Status.IsBusy s then Status.OK else s in
  _ <- log EvMutexLock ;;
  _ <- ApplyAllDropped (map_to_list dropped) ;;
  _ <- log EvMutexUnlock ;;
  if Status.ok s then FlushWAL else ret s.

(** The loop of [DeleteInputBlobFiles] over the inputs: the pairs given to
    [edit.DeleteBlobFile]. *)
Fixpoint obsolete_edit (files : list BlobFileMeta) (obsolete_sequence : Z)
  : M (list (Z * Z)) :=
  match files with
  | [] => ret []
  | file :: rest =>
      _ <- RecordMetric gc_num_files 1 ;;
      deleted <- obsolete_edit rest obsolete_sequence ;;
      if is_obsolete file then ret deleted
      else ret ((file_number file, obsolete_sequence) :: deleted)
  end.

Definition DeleteInputBlobFiles : M Status.t :=
  n <- now ;;
  let obsolete_sequence := db_GetLatestSequenceNumber n in
  _ <- log (EvGetLatestSequenceNumber obsolete_sequence) ;;
  deleted <- obsolete_edit (inputs blob_gc_) obsolete_sequence ;;
  let edit := {| edit_cf := cf_id blob_gc_; edit_deleted := deleted |} in
  n <- now ;;
  let s := LogAndApply n edit in
  _ <- log (EvLogAndApply edit s) ;; ret s.

Definition UpdateInternalOpStats : M unit := log EvUpdateInternalOpStats.

Definition Finish : M Status.t :=
  _ <- log EvMutexUnlock ;;
  s <- InstallOutputBlobFiles ;;
  s <- (if Status.ok s then
          if negb (rewrite_shadow cf_options) then RewriteValidKeyToLSM
          else InstallOutputShadows
        else ret s) ;;
  _ <- log EvMutexLock ;;
  s <- (if Status.ok s then
          d <- IsDropped ;;
          if negb d then DeleteInputBlobFiles else ret s
        else ret s) ;;
  _ <- (if Status.ok s then UpdateInternalOpStats else ret tt) ;;
  ret s.

(** Lines 679-691: the end of [Finish], [s] being the status of the
    installation and of the rewrite. *)
Definition FinishTail (s : Status.t) : M Status.t :=
  _ <- log EvMutexLock ;;
  s <- (if Status.ok s then
          d <- IsDropped ;;
          if negb d then DeleteInputBlobFiles else ret s
        else ret s) ;;
  _ <- (if Status.ok s then UpdateInternalOpStats else ret tt) ;;
  ret s.

(** Lines 651-691: what [Finish] does once [InstallOutputBlobFiles] has
    returned [s]. *)
Definition FinishRest (s : Status.t) : M Status.t :=
  s <- (if Status.ok s then
          if negb (rewrite_shadow cf_options) then RewriteValidKeyToLSM
          else InstallOutputShadows
        else ret s) ;;
  FinishTail s.

(** A job that has not run yet, over an empty blob storage. *)
Definition fresh_job : State :=
  {| history := []; metrics_ := fun _ => 0; rewrite_batches_ := [];
     blob_file_builders_ := []; outputs := [];
     storage := Some ∅; shadow_set := [] |}.

(** The part of the history that a run has added. *)
Definition added (before after : State) : list Event :=
  drop (length (history before)) (history after).

(** The fields of the locals that only the head of the loop body writes. *)
Definition same_scan_fields (l l' : Locals) : Prop :=
  last_key l' = last_key l /\ last_key_is_fresh l' = last_key_is_fresh l /\
  valid_count l' = valid_count l /\ discardable_count l' = discardable_count l /\
  total_count l' = total_count l.


(** The shutdown poll, the one call the loop makes for a tuple it skips. *)
Definition is_poll (e : Event) : Prop := exists b, e = EvIsShutingDown b.

(** What a step of the scan loop keeps: [file_size] stays 0 once it is 0,
    the arrays of shadow builders keep their size, and no output file is
    finalized while [file_size] is below the target. *)
Definition step_keeps (l : Locals) (st : State) (l' : Locals) (st' : State) : Prop :=
  (cur_file_size l = 0 -> cur_file_size l' = 0) /\
  length (level_shadow_builders l') = length (level_shadow_builders l) /\
  (0 < blob_file_target_size cf_options -> cur_file_size l = 0 ->
   blob_file_builders_ st' = blob_file_builders_ st).

(** The opening of a reader of an input file, the only call of a run that
    scans nothing. *)
Definition is_reader_open (e : Event) : Prop :=
  exists file s, e = EvNewBlobFileReader file s.

(** Kinds of calls, for counting them in a history. *)
Definition is_GetImpl (e : Event) : bool :=
  match e with EvGetImpl _ _ => true | _ => false end.
Definition is_NewFile (e : Event) : bool :=
  match e with EvNewFile _ _ => true | _ => false end.
Definition is_BatchFinishFiles (e : Event) : bool :=
  match e with EvBatchFinishFiles _ _ => true | _ => false end.
Definition is_BatchDeleteFiles (e : Event) : bool :=
  match e with EvBatchDeleteFiles _ _ => true | _ => false end.
Definition is_Write (e : Event) : bool :=
  match e with EvWrite _ _ => true | _ => false end.
Definition is_FlushWAL (e : Event) : bool :=
  match e with EvFlushWAL _ => true | _ => false end.
Definition is_LogAndApply (e : Event) : bool :=
  match e with EvLogAndApply _ _ => true | _ => false end.

(** The four steps of the commit that must follow one another: publishing
    the output files (0), writing a batch to the LSM (1), syncing the WAL (2),
    the manifest edit that marks the inputs obsolete (3). *)
Definition phase (e : Event) : option nat :=
  match e with
  | EvBatchFinishFiles _ _ => Some 0%nat
  | EvWrite _ _ => Some 1%nat
  | EvFlushWAL _ => Some 2%nat
  | EvLogAndApply _ _ => Some 3%nat
  | _ => None
  end.

Definition in_phases (lo hi : nat) (e : Event) : Prop :=
  forall p, phase e = Some p -> (lo <= p <= hi)%nat.

(** Every call of an earlier phase stands before every call of a later one. *)
Definition in_order (evs : list Event) : Prop :=
  forall (i j : nat) e1 e2 p1 p2,
    evs !! i = Some e1 -> evs !! j = Some e2 ->
    phase e1 = Some p1 -> phase e2 = Some p2 -> (p1 < p2)%nat -> (i < j)%nat.

(** A computation whose calls are of phases [lo] to [hi], in order, whatever
    the state it starts from and whether it returns or not. *)
Definition staged (lo hi : nat) {A} (m : M A) : Prop :=
  forall st, exists evs,
    history (m st).2 = history st ++ evs /\
    Forall (in_phases lo hi) evs /\ in_order evs.

(** Every call that satisfies [Q] has a call that satisfies [P] before it. *)
Definition preceded_by (P Q : Event -> Prop) (evs : list Event) : Prop :=
  forall a e b, evs = a ++ e :: b -> Q e -> exists e', e' ∈ a /\ P e'.

Definition publishes (e : Event) : Prop :=
  exists files s, e = EvBatchFinishFiles files s /\ Status.ok s = true.
Definition writes (e : Event) : Prop := exists wb s, e = EvWrite wb s.
Definition syncs (e : Event) : Prop :=
  exists s, e = EvFlushWAL s /\ Status.ok s = true.
Definition obsoletes (e : Event) : Prop := exists edit s, e = EvLogAndApply edit s.


Definition is_mutex (e : Event) : bool :=
  match e with EvMutexLock | EvMutexUnlock => true | _ => false end.

(** What the scan does in fallback mode: a batch made for a scanned tuple,
    which puts its value inline, and a stretch of the scan that opens no file
    and makes no call but polls and lookups. *)
Definition fallback_batch (ts : list Tuple)
  (b : WriteBatch * GarbageCollectionWriteCallback) : Prop :=
  exists t, t ∈ ts /\
    cfh_ b.2 = cf_id blob_gc_ /\ key_ b.2 = t_key t /\
    blob_index_ b.2 = t_blob_index t /\ new_blob_index_ b.2 = BlobIndex.empty /\
    b.1 = (WriteBatchInternal_Put [] (cf_id blob_gc_) (t_key t) (t_value t)).2.

Definition fallback_step (ts : list Tuple) (l : Locals) (st : State)
  (l' : Locals) (st' : State) : Prop :=
  blob_file_handle l' = blob_file_handle l /\ blob_file_builder l' = blob_file_builder l /\
  level_shadow_builders l' = level_shadow_builders l /\
  blob_file_builders_ st' = blob_file_builders_ st /\
  (exists evs, history st' = history st ++ evs /\
               Forall (fun e => is_GetImpl e = true \/ is_poll e) evs) /\
  (exists new, rewrite_batches_ st' = rewrite_batches_ st ++ new /\
               Forall (fallback_batch ts) new).

(** A computation all of whose calls are of the kind [P], whatever the
    state it starts from and whether it returns or not. *)
Definition only_calls (P : Event -> bool) {A} (m : M A) : Prop :=
  forall st, exists evs,
    history (m st).2 = history st ++ evs /\ Forall (fun e => P e = true) evs.

(** The calls of the scan: polls, readers, lookups, new output files and
    shadow tables. *)
Definition scan_call (e : Event) : bool :=
  match e with
  | EvIsShutingDown _ | EvNewBlobFileReader _ _ | EvGetImpl _ _ | EvNewFile _ _
  | EvOpenShadow _ _ _ | EvShadowFinish _ _ => true
  | _ => false
  end.

Definition no_mutex (e : Event) : bool := negb (is_mutex e).

Definition is_BuilderFinish (e : Event) : bool :=
  match e with EvBuilderFinish _ => true | _ => false end.

(** The mutex calls of a history: [true] for Lock, [false] for Unlock. *)
Definition mutex_trace (evs : list Event) : list bool :=
  omap (fun e => match e with
                 | EvMutexLock => Some true
                 | EvMutexUnlock => Some false
                 | _ => None
                 end) evs.

(** The keys that the loop of [RewriteValidKeyToLSM] has counted. *)
Definition keys_counted (st : State) : Z :=
  metrics_ st gc_num_keys_relocated + metrics_ st gc_num_keys_fallback
  + metrics_ st gc_num_keys_overwritten_callback.

(** The calls of the end of [Finish] (lines 679-691). *)
Definition tail_call (e : Event) : bool :=
  match e with
  | EvMutexLock | EvIsDropped _ | EvGetLatestSequenceNumber _ | EvLogAndApply _ _
  | EvUpdateInternalOpStats => true
  | _ => false
  end.

(** The calls of the installation of the output files. *)
Definition install_call (e : Event) : bool :=
  match e with
  | EvBuilderFinish _ | EvBatchFinishFiles _ _ | EvBatchDeleteFiles _ _ => true
  | _ => false
  end.

(** What a stretch of the scan has counted (counters of 64 bits): [k]
    tuples visited, of which [v] valid and [d] discardable. *)
Definition counted (k v d : Z) (l : Locals) (st : State) (l' : Locals) (st' : State)
  : Prop :=
  u64 (total_count l') = u64 (total_count l + k) /\
  u64 (valid_count l') = u64 (valid_count l + v) /\
  u64 (discardable_count l') = u64 (discardable_count l + d) /\
  u64 (metrics_ st' gc_num_keys_overwritten_check)
    = u64 (metrics_ st gc_num_keys_overwritten_check + d).

(** The locals of the scan once output file [number] has been opened with
    the status [s] (lines 303-314). *)
Definition with_output_file (s : Status.t) (number : Z) (l : Locals) : Locals :=
  set_cur_file_size 0
    (set_blob_file_builder (Some (builder_new number))
       (set_blob_file_handle (Some number) (set_s_status s l))).

(** The calls of [RewriteValidKeyToLSM]. *)
Definition rewrite_call (e : Event) : bool :=
  match e with
  | EvIsDropped _ | EvIsShutingDown _ | EvGetImpl _ _ | EvWrite _ _
  | EvMutexLock | EvMutexUnlock | EvSubStats _ | EvAddStats _ | EvComputeGCScore
  | EvFlushWAL _ => true
  | _ => false
  end.

Definition is_stats_update (e : Event) : bool :=
  match e with EvUpdateInternalOpStats => true | _ => false end.

(** ** The commit of the output files *)

(** The numbers of the output files that the scan has registered in
    [blob_file_builders_] (lines 300-301 and 408-409), in their order. *)
Definition output_numbers (st : State) : list Z := omap fst (blob_file_builders_ st).

(** A successful publication of exactly the files [numbers]. *)
Definition publishes_outputs (numbers : list Z) (e : Event) : Prop :=
  exists s, e = EvBatchFinishFiles numbers s /\ Status.ok s = true.

(** ** The tuples of an iterator over the inputs *)

(** Modelled from the spec: the merged iterator (blob_file_iterator.cc is
    not among the sources) is "an ordered forward cursor over the union of
    input blob files" which returns each "blob_index (with file_number set to
    the source input)"; [BuildIterator] makes one iterator for every input,
    under the file number of that input (lines 566-568).  The tuples of such
    an iterator are the records of the inputs, each of them once: the file
    number of a tuple is the number of an input, and its order is below the
    number of entries of that input. *)
Definition record_of (t : Tuple) : Z * Z :=
  (BlobIndex.file_number (t_blob_index t),
   BlobHandle.order (BlobIndex.blob_handle (t_blob_index t))).

Definition records_of_file (f : BlobFileMeta) : list (Z * Z) :=
  map (fun i => (file_number f, Z.of_nat i)) (seq 0 (Z.to_nat (file_entries f))).

Definition from_inputs (files : list BlobFileMeta) (tuples : list Tuple) : Prop :=
  map record_of tuples ≡ₚ concat (map records_of_file files).

(** * Properties *)

(** ** Basic facts *)

Lemma BlobIndex_eqb_eq (a b : BlobIndex.t) : BlobIndex.eqb a b = true <-> a = b.
Proof.
  destruct a as [fa [oa sa ra]], b as [fb [ob sb rb]]; unfold BlobIndex.eqb; simpl.
  rewrite !andb_true_iff, !Z.eqb_eq. split.
  - intros [[[-> ->] ->] ->]. reflexivity.
  - intros H; inversion H; subst; auto.
Qed.

Lemma BlobIndex_eqb_neq (a b : BlobIndex.t) : BlobIndex.eqb a b = false <-> a <> b.
Proof.
  rewrite <- BlobIndex_eqb_eq. destruct (BlobIndex.eqb a b); split; congruence.
Qed.

Lemma Status_ok_not_NotFound (s : Status.t) :
  Status.ok s = true -> Status.IsNotFound s = false.
Proof. unfold Status.ok, Status.IsNotFound. destruct (Status.code s); congruence. Qed.

Lemma Status_ok_not_Busy (s : Status.t) :
  Status.ok s = true -> Status.IsBusy s = false.
Proof. unfold Status.ok, Status.IsBusy. destruct (Status.code s); congruence. Qed.

Lemma GetImpl_run (cf : Z) (key : string) (st : State) :
  GetImpl cf key st =
  (Returns (db_GetImpl (length (history st)) cf key),
   set_history (history st ++ [EvGetImpl key (db_GetImpl (length (history st)) cf key)]) st).
Proof. reflexivity. Qed.

(** ** The optimistic write callback *)

(** C1.  [Callback] looks the key of its batch up once, with the
    is_blob_index flag, and answers: Busy "key deleted" when the key is
    missing, Busy "key overwritten with other value" when the value is not a
    blob index, Busy "key overwritten with other blob" when the blob index
    decodes to another index than the scanned one, an OK status when it
    decodes to the scanned index, and the error itself when the lookup
    fails otherwise or the blob index does not decode. *)
Theorem Callback_decision (cb : GarbageCollectionWriteCallback) (st : State) :
  let r := db_GetImpl (length (history st)) (cfh_ cb) (key_ cb) in
  let d := DecodeFrom (g_value r) in
  exists s cb',
    Callback cb st =
      (Returns (s, cb'), set_history (history st ++ [EvGetImpl (key_ cb) r]) st) /\
    (Status.IsNotFound (g_status r) = true -> s = Status.Busy "key deleted") /\
    (Status.ok (g_status r) = true -> g_is_blob_index r = false ->
       s = Status.Busy "key overwritten with other value") /\
    (Status.ok (g_status r) = true -> g_is_blob_index r = true ->
       Status.ok d.1 = true -> d.2 <> blob_index_ cb ->
       s = Status.Busy "key overwritten with other blob") /\
    (Status.ok (g_status r) = true -> g_is_blob_index r = true ->
       Status.ok d.1 = true -> d.2 = blob_index_ cb ->
       Status.ok s = true) /\
    (Status.ok (g_status r) = false -> Status.IsNotFound (g_status r) = false ->
       s = g_status r) /\
    (Status.ok (g_status r) = true -> g_is_blob_index r = true ->
       Status.ok d.1 = false -> s = d.1).
Proof.
  intros r d. unfold Callback, bind. rewrite GetImpl_run. fold r.
  destruct (Status.ok (g_status r)) eqn:Hok.
  - (* the lookup found a value *)
    rewrite (Status_ok_not_NotFound _ Hok). simpl.
    destruct (g_is_blob_index r) eqn:Hbi; simpl.
    + rewrite Hok. fold d. destruct d as [ds di] eqn:Hd. simpl.
      destruct (Status.ok ds) eqn:Hds; simpl.
      * destruct (BlobIndex.eqb (blob_index_ cb) di) eqn:He; simpl.
        -- apply BlobIndex_eqb_eq in He.
           eexists _, _. split; [reflexivity|].
           repeat split; intros; congruence.
        -- apply BlobIndex_eqb_neq in He.
           eexists _, _. split; [reflexivity|].
           repeat split; intros; congruence.
      * eexists _, _. split; [reflexivity|].
        repeat split; intros; congruence.
    + eexists _, _. split; [reflexivity|].
      repeat split; intros; congruence.
  - destruct (Status.IsNotFound (g_status r)) eqn:Hnf; simpl.
    + (* the key is missing *)
      eexists _, _. split; [reflexivity|].
      repeat split; intros; congruence.
    + (* another failure of the lookup *)
      eexists _, _. split; [reflexivity|].
      repeat split; intros; congruence.
Qed.

Arguments u64 : simpl never.
Arguments bump : simpl never.

Lemma IsShutingDown_run (st : State) :
  IsShutingDown st =
  (Returns (shuting_down (length (history st))),
   set_history (history st ++ [EvIsShutingDown (shuting_down (length (history st)))]) st).
Proof. reflexivity. Qed.

Lemma IsDropped_run (st : State) :
  IsDropped st =
  (Returns (cfd_IsDropped (length (history st))),
   set_history (history st ++ [EvIsDropped (cfd_IsDropped (length (history st)))]) st).
Proof. reflexivity. Qed.

Lemma added_app (st st' : State) (evs : list Event) :
  history st' = history st ++ evs -> added st st' = evs.
Proof. unfold added. intros ->. apply drop_app_length. Qed.

Lemma length_snoc (h : list Event) (e : Event) : length (h ++ [e]) = S (length h).
Proof. rewrite length_app. simpl. lia. Qed.

(** ** The scan loop: classification of a tuple *)

(** C3.  A tuple that the loop does not skip as an older version, and whose
    source file is among the inputs, is classified in two levels.  When the
    liveness bit of its record is clear it is counted discardable and no
    lookup is made (the only call is the shutdown poll).  Otherwise one point
    lookup decides: a missing key, a value that is not a blob index, a blob
    index other than the scanned one count it discardable; the scanned blob
    index makes it live, and the record is rewritten with the level that the
    lookup returned. *)
Theorem scan_classification (t : Tuple) (l : Locals) (st : State) (file : BlobFileMeta) :
  shuting_down (length (history st)) = false ->
  same_key t l && last_key_is_fresh l = false ->
  List.find (fun f => file_number f =? BlobIndex.file_number (t_blob_index t))
            (inputs blob_gc_) = Some file ->
  let order := BlobHandle.order (BlobIndex.blob_handle (t_blob_index t)) in
  let r := db_GetImpl (S (length (history st))) (cf_id blob_gc_) (t_key t) in
  let d := DecodeFrom (g_value r) in
  let discarded (lookups : list Event) :=
    exists l' st',
      scan_body t l st = (Returns (false, l'), st') /\
      discardable_count l' = u64 (discardable_count l + 1) /\
      valid_count l' = valid_count l /\
      last_key_is_fresh l' = false /\
      rewrite_batches_ st' = rewrite_batches_ st /\
      metrics_ st' gc_num_keys_overwritten_check
        = u64 (metrics_ st gc_num_keys_overwritten_check + 1) /\
      added st st' = EvIsShutingDown false :: lookups in
  let live :=
    exists l1 st1,
      scan_body t l st = RewriteLive t (g_level r) l1 st1 /\
      valid_count l1 = u64 (valid_count l + 1) /\
      discardable_count l1 = discardable_count l /\
      last_key_is_fresh l1 = true /\
      rewrite_batches_ st1 = rewrite_batches_ st /\
      added st st1 = [EvIsShutingDown false; EvGetImpl (t_key t) r] in
  (IsLiveData file order = false -> discarded []) /\
  (IsLiveData file order = true ->
     (Status.IsNotFound (g_status r) = true -> discarded [EvGetImpl (t_key t) r]) /\
     (Status.ok (g_status r) = true -> g_is_blob_index r = false ->
        discarded [EvGetImpl (t_key t) r]) /\
     (Status.ok (g_status r) = true -> g_is_blob_index r = true ->
        Status.ok d.1 = true ->
        (d.2 <> t_blob_index t -> discarded [EvGetImpl (t_key t) r]) /\
        (d.2 = t_blob_index t -> live))).
Proof.
  intros Hsd Hnew Hfile order r d discarded live.
  assert (Hlen : length (history st ++ [EvIsShutingDown false]) = S (length (history st)))
    by apply length_snoc.
  set (l0 := set_total_count (u64 (total_count l + 1)) l).
  assert (Hnew' : same_key t l0 && last_key_is_fresh l0 = false) by exact Hnew.
  assert (Hfresh : last_key_is_fresh
                     (if same_key t l0 then l0
                      else set_last_key_is_fresh false (set_last_key (t_key t) l0)) = false).
  { destruct (same_key t l0); [exact Hnew' | reflexivity]. }
  assert (Hdc : discardable_count
                     (if same_key t l0 then l0
                      else set_last_key_is_fresh false (set_last_key (t_key t) l0))
                = discardable_count l) by (destruct (same_key t l0); reflexivity).
  assert (Hvc : valid_count
                     (if same_key t l0 then l0
                      else set_last_key_is_fresh false (set_last_key (t_key t) l0))
                = valid_count l) by (destruct (same_key t l0); reflexivity).
  unfold discarded, live, scan_body, bind, DiscardEntryWithBitset.
  rewrite IsShutingDown_run, Hsd, Hfile. fold order. fold l0.
  cbn [RecordMetric modify fst snd]. rewrite Hnew'.
  split.
  - intros Hbit. rewrite Hbit. cbn.
    eexists _, _. split; [reflexivity|]. cbn.
    rewrite Hdc, Hvc, Hfresh. repeat split.
    apply added_app. reflexivity.
  - intros Hbit. rewrite Hbit. cbn [negb Status.ok Status.OK Status.code].
    unfold DiscardEntry, bind. rewrite GetImpl_run.
    cbn [history set_metrics set_history]. rewrite Hlen. fold r.
    split; [|split; [|intros Hok Hbi Hds; split]].
    + (* the key is missing *)
      intros Hnf. rewrite Hnf. rewrite andb_false_r. cbn.
      eexists _, _. split; [reflexivity|]. cbn.
      rewrite Hdc, Hvc, Hfresh. repeat split.
      apply added_app. cbn. rewrite <- app_assoc. reflexivity.
    + (* the value is inlined *)
      intros Hok Hbi. rewrite Hok, Hbi, orb_true_r. cbn.
      eexists _, _. split; [reflexivity|]. cbn.
      rewrite Hdc, Hvc, Hfresh. repeat split.
      apply added_app. cbn. rewrite <- app_assoc. reflexivity.
    + (* another blob index *)
      intros Hne. rewrite Hok, Hbi, (Status_ok_not_NotFound _ Hok). cbn.
      fold d. destruct d as [ds di]. cbn in *. rewrite Hds. cbn.
      assert (He : BlobIndex.eqb (t_blob_index t) di = false)
        by (apply BlobIndex_eqb_neq; congruence).
      rewrite He. cbn.
      eexists _, _. split; [reflexivity|]. cbn.
      rewrite Hdc, Hvc, Hfresh. repeat split.
      apply added_app. cbn. rewrite <- app_assoc. reflexivity.
    + (* the scanned blob index *)
      intros Heq. rewrite Hok, Hbi, (Status_ok_not_NotFound _ Hok). cbn.
      fold d. destruct d as [ds di]. cbn in *. rewrite Hds. cbn.
      assert (He : BlobIndex.eqb (t_blob_index t) di = true)
        by (apply BlobIndex_eqb_eq; congruence).
      rewrite He. cbn.
      eexists _, _. split; [reflexivity|]. cbn.
      rewrite Hdc, Hvc. repeat split.
      apply added_app. cbn. rewrite <- app_assoc. reflexivity.
Qed.

(** ** Frame lemmas: what rewriting a live record leaves alone *)

Ltac run_cases H :=
  cbn in H; repeat (case_match; try discriminate; simplify_eq; cbn in *).

Lemma RewriteFallback_frame t l st brk l' st' :
  RewriteFallback t l st = (Returns (brk, l'), st') -> same_scan_fields l l'.
Proof.
  unfold RewriteFallback, bind, NewCallback, assert, fault, ret, push_rewrite_batch, modify.
  intros H. run_cases H. repeat split.
Qed.

Lemma RollOutputFile_frame l st brk l' st' :
  RollOutputFile l st = (Returns (brk, l'), st') -> same_scan_fields l l'.
Proof.
  unfold RollOutputFile, bind, assert, fault, ret, push_blob_file_builder, modify, now, log.
  intros H. run_cases H; repeat split.
Qed.

Lemma RewriteToShadow_frame level contexts l st brk l' st' :
  RewriteToShadow level contexts l st = (Returns (brk, l'), st') -> same_scan_fields l l'.
Proof.
  unfold RewriteToShadow, bind, index, OpenGCOutputShadow, FinishShadow, assert, fault,
    ret, modify, now, log.
  intros H. run_cases H; repeat split.
Qed.

Lemma same_scan_fields_trans l1 l2 l3 :
  same_scan_fields l1 l2 -> same_scan_fields l2 l3 -> same_scan_fields l1 l3.
Proof. unfold same_scan_fields. intuition congruence. Qed.

Lemma RewriteToBlobFile_frame t level l st brk l' st' :
  RewriteToBlobFile t level l st = (Returns (brk, l'), st') -> same_scan_fields l l'.
Proof.
  unfold RewriteToBlobFile, bind. intros H.
  destruct (RollOutputFile l st) as [[[b1 l1]|f] st1] eqn:Hroll; [|discriminate].
  apply RollOutputFile_frame in Hroll.
  destruct b1.
  - injection H as <- <- <-. exact Hroll.
  - eapply same_scan_fields_trans; [exact Hroll|]. clear Hroll.
    revert H. unfold assert, fault, ret, RecordMetric, modify. intros H.
    repeat (case_match; try discriminate); simplify_eq.
    + apply RewriteToShadow_frame in H. exact H.
    + repeat split.
Qed.

Lemma RewriteLive_frame t level l st brk l' st' :
  RewriteLive t level l st = (Returns (brk, l'), st') -> same_scan_fields l l'.
Proof.
  unfold RewriteLive. destruct (blob_run_mode cf_options);
    eauto using RewriteFallback_frame, RewriteToBlobFile_frame.
Qed.

(** ** The scan loop: older versions of a key *)

Lemma same_key_true (t : Tuple) (l : Locals) :
  last_key l <> EmptyString -> t_key t = last_key l -> same_key t l = true.
Proof.
  intros Hne Heq. unfold same_key. rewrite Heq, String.eqb_refl, andb_true_r.
  destruct (String.eqb_spec (last_key l) EmptyString); [contradiction | reflexivity].
Qed.

Lemma scan_body_skip (t : Tuple) (l : Locals) (st : State) :
  last_key l <> EmptyString -> t_key t = last_key l -> last_key_is_fresh l = true ->
  let b := shuting_down (length (history st)) in
  let l0 := set_total_count (u64 (total_count l + 1)) l in
  let st0 := set_history (history st ++ [EvIsShutingDown b]) st in
  scan_body t l st =
  if b then (Returns (true, set_s_status Status.ShutdownInProgress l0), st0)
  else (Returns (false, l0),
        set_metrics (bump gc_bytes_read_blob
                       (BlobHandle.size (BlobIndex.blob_handle (t_blob_index t)))
                       (metrics_ st)) st0).
Proof.
  intros Hne Heq Hfresh b l0 st0.
  unfold scan_body, bind. rewrite IsShutingDown_run. fold b. fold st0. fold l0.
  destruct b; [reflexivity|].
  cbn [RecordMetric modify].
  assert (Hs : same_key t l0 && last_key_is_fresh l0 = true).
  { change (same_key t l && last_key_is_fresh l = true).
    rewrite (same_key_true t l Hne Heq), Hfresh. reflexivity. }
  rewrite Hs. reflexivity.
Qed.

Lemma scan_loop_skips (ts : list Tuple) : forall (l : Locals) (st : State),
  last_key l <> EmptyString -> last_key_is_fresh l = true ->
  Forall (fun t => t_key t = last_key l) ts ->
  exists brk l' st',
    scan_loop ts l st = (Returns (brk, l'), st') /\
    last_key l' = last_key l /\ last_key_is_fresh l' = true /\
    valid_count l' = valid_count l /\ discardable_count l' = discardable_count l /\
    blob_file_handle l' = blob_file_handle l /\
    blob_file_builder l' = blob_file_builder l /\
    level_shadow_builders l' = level_shadow_builders l /\
    rewrite_batches_ st' = rewrite_batches_ st /\
    blob_file_builders_ st' = blob_file_builders_ st /\
    exists evs, history st' = history st ++ evs /\ Forall is_poll evs.
Proof.
  induction ts as [|t ts IH]; intros l st Hne Hfresh Hall.
  - exists false, l, st. split_and!; try reflexivity; try assumption.
    exists []. rewrite app_nil_r. split; [reflexivity | constructor].
  - inversion Hall as [|? ? Hk Hrest]; subst.
    cbn [scan_loop]. unfold bind.
    rewrite (scan_body_skip t l st Hne Hk Hfresh).
    destruct (shuting_down (length (history st))) eqn:Hsd.
    + eexists _, _, _. split; [reflexivity|].
      split_and!; try reflexivity; try exact Hfresh.
      exists [EvIsShutingDown true]. split; [reflexivity|].
      repeat constructor. eexists; reflexivity.
    + set (l0 := set_total_count (u64 (total_count l + 1)) l).
      set (st1 := set_metrics _ _).
      destruct (IH l0 st1)
        as (brk & l' & st' & Hrun & Hlk & Hf & Hv & Hd & Hh & Hb & Hsb & Hrb & Hbb
            & evs & Hhist & Hev);
        [exact Hne | exact Hfresh | exact Hrest |].
      exists brk, l', st'. split; [exact Hrun|].
      split_and!; try assumption; try reflexivity.
      exists (EvIsShutingDown false :: evs). split.
      * rewrite Hhist. unfold st1. cbn. rewrite <- app_assoc. reflexivity.
      * constructor; [eexists; reflexivity | exact Hev].
Qed.

Lemma u64_succ_neq (v : Z) : u64 (v + 1) <> v.
Proof.
  unfold u64. intros H.
  assert (0 <= (v + 1) mod 2 ^ 64 < 2 ^ 64) by (apply Z.mod_pos_bound; lia).
  assert (Hv : 0 <= v < 2 ^ 64) by lia.
  destruct (Z.eq_dec (v + 1) (2 ^ 64)) as [He|He].
  - rewrite He, Z.mod_same in H by lia. lia.
  - rewrite Z.mod_small in H by lia. lia.
Qed.

Lemma scan_body_fresh (t : Tuple) (l : Locals) (st : State) brk l' st' :
  scan_body t l st = (Returns (brk, l'), st') ->
  (valid_count l' = u64 (valid_count l + 1) /\
   last_key_is_fresh l' = true /\ last_key l' = t_key t)
  \/ (valid_count l' = valid_count l /\
      (last_key_is_fresh l' = true -> last_key_is_fresh l = true)).
Proof.
  unfold scan_body, bind. rewrite IsShutingDown_run.
  set (l0 := set_total_count (u64 (total_count l + 1)) l).
  destruct (shuting_down (length (history st))).
  { intros H. injection H as <- <- <-. right. split; [reflexivity | auto]. }
  cbn [RecordMetric modify].
  destruct (same_key t l0 && last_key_is_fresh l0) eqn:Hskip.
  { intros H. injection H as <- <- <-. right. split; [reflexivity | auto]. }
  set (lk := if same_key t l0 then l0
             else set_last_key_is_fresh false (set_last_key (t_key t) l0)).
  assert (Hlk_fresh : last_key_is_fresh lk = false).
  { unfold lk. destruct (same_key t l0); [exact Hskip | reflexivity]. }
  assert (Hlk_valid : valid_count lk = valid_count l).
  { unfold lk. destruct (same_key t l0); reflexivity. }
  assert (Hlk_key : last_key lk = t_key t).
  { unfold lk. destruct (same_key t l0) eqn:Hs; [|reflexivity].
    unfold same_key in Hs. apply andb_true_iff in Hs as [_ Hs].
    apply String.eqb_eq in Hs. symmetry. exact Hs. }
  destruct (DiscardEntryWithBitset (t_blob_index t) false) as [s discardable].
  destruct (Status.ok s); cbn [negb].
  2:{ intros H. injection H as <- <- <-. right. cbn.
      rewrite Hlk_valid, Hlk_fresh. split; [reflexivity | discriminate]. }
  match goal with
  | |- context [(if negb discardable then ?a else ?b) ?x] =>
      destruct ((if negb discardable then a else b) x) as [[[[s1 d1] lvl]|f] st1]
  end; [|discriminate].
  destruct (Status.ok s1); cbn [negb].
  2:{ intros H. injection H as <- <- <-. right. cbn.
      rewrite Hlk_valid, Hlk_fresh. split; [reflexivity | discriminate]. }
  destruct d1.
  - intros H. injection H as <- <- <-. right. cbn.
    rewrite Hlk_valid, Hlk_fresh. split; [reflexivity | discriminate].
  - intros H. apply RewriteLive_frame in H.
    destruct H as (Hk & Hf & Hv & _). left. cbn in Hk, Hf, Hv.
    rewrite Hk, Hf, Hv, Hlk_valid, Hlk_key. auto.
Qed.

(** C4, as the code has it.  A tuple whose key is not empty and equals
    [last_key] while [last_key_is_fresh] holds is skipped: the loop body
    polls the shutdown flag and does nothing else to it, so it is not
    counted discardable nor valid, no lookup is made, no output file and no
    rewrite batch is produced.  The flag is raised only by a step that
    counts its tuple valid, and such a step leaves the key in [last_key];
    hence once a version of a key is rewritten, the versions of this key
    that follow it are all skipped.  (The test of line 238 requires
    [last_key] not to be empty.) *)
Theorem older_versions_skipped :
  (forall (t : Tuple) (l : Locals) (st : State),
     last_key l <> EmptyString -> t_key t = last_key l -> last_key_is_fresh l = true ->
     exists brk l' st' b,
       scan_body t l st = (Returns (brk, l'), st') /\
       history st' = history st ++ [EvIsShutingDown b] /\
       discardable_count l' = discardable_count l /\
       valid_count l' = valid_count l /\
       last_key l' = last_key l /\ last_key_is_fresh l' = true /\
       blob_file_handle l' = blob_file_handle l /\
       blob_file_builder l' = blob_file_builder l /\
       level_shadow_builders l' = level_shadow_builders l /\
       rewrite_batches_ st' = rewrite_batches_ st /\
       blob_file_builders_ st' = blob_file_builders_ st) /\
  (forall (t : Tuple) (l : Locals) (st : State) brk l' st',
     scan_body t l st = (Returns (brk, l'), st') ->
     (valid_count l' = u64 (valid_count l + 1) /\
      last_key_is_fresh l' = true /\ last_key l' = t_key t)
     \/ (valid_count l' = valid_count l /\
         (last_key_is_fresh l' = true -> last_key_is_fresh l = true))) /\
  (forall (t : Tuple) (ts : list Tuple) (l : Locals) (st : State) l1 st1,
     t_key t <> EmptyString ->
     Forall (fun t' => t_key t' = t_key t) ts ->
     scan_body t l st = (Returns (false, l1), st1) ->
     valid_count l1 <> valid_count l ->
     exists brk l' st',
       scan_loop (t :: ts) l st = (Returns (brk, l'), st') /\
       valid_count l' = valid_count l1 /\
       discardable_count l' = discardable_count l1 /\
       blob_file_handle l' = blob_file_handle l1 /\
       blob_file_builder l' = blob_file_builder l1 /\
       level_shadow_builders l' = level_shadow_builders l1 /\
       rewrite_batches_ st' = rewrite_batches_ st1 /\
       blob_file_builders_ st' = blob_file_builders_ st1 /\
       exists evs, history st' = history st1 ++ evs /\ Forall is_poll evs).
Proof.
  split_and!.
  - intros t l st Hne Hk Hfresh.
    pose proof (scan_body_skip t l st Hne Hk Hfresh) as Hrun. cbv zeta in Hrun.
    destruct (shuting_down (length (history st))) eqn:Hsd;
      eexists _, _, _, _; (split; [exact Hrun|]);
      split_and!; try reflexivity; exact Hfresh.
  - exact scan_body_fresh.
  - intros t ts l st l1 st1 Hne Hall Hstep Hlive.
    destruct (scan_body_fresh _ _ _ _ _ _ Hstep) as [(_ & Hf & Hk)|(Hv & _)];
      [|congruence].
    destruct (scan_loop_skips ts l1 st1)
      as (brk & l' & st' & Hrun & _ & _ & Hv' & Hd & Hh & Hb & Hsb & Hrb & Hbb & Hev).
    + rewrite Hk. exact Hne.
    + exact Hf.
    + rewrite Hk. exact Hall.
    + exists brk, l', st'. cbn [scan_loop]. unfold bind. rewrite Hstep.
      split_and!; assumption.
Qed.

(** ** The scan loop: a blob index of no input file *)

Lemma scan_loop_break (t : Tuple) (rest : list Tuple) (l : Locals) (st : State) l' st' :
  scan_body t l st = (Returns (true, l'), st') ->
  scan_loop (t :: rest) l st = (Returns (true, l'), st').
Proof. intros H. cbn [scan_loop]. unfold bind. rewrite H. reflexivity. Qed.

(** X23.  When the file number of the scanned blob index is the number of no
    input file, the bitset check answers NotFound and the loop is left at
    once: no lookup is made, nothing is counted or rewritten. *)
Lemma bitset_check_missing_file (t : Tuple) (l : Locals) (st : State) :
  shuting_down (length (history st)) = false ->
  same_key t l && last_key_is_fresh l = false ->
  List.find (fun f => file_number f =? BlobIndex.file_number (t_blob_index t))
            (inputs blob_gc_) = None ->
  DiscardEntryWithBitset (t_blob_index t) false
    = (Status.NotFound "Blob file meta not found", false) /\
  exists l' st',
    scan_body t l st = (Returns (true, l'), st') /\
    s_status l' = Status.NotFound "Blob file meta not found" /\
    valid_count l' = valid_count l /\ discardable_count l' = discardable_count l /\
    rewrite_batches_ st' = rewrite_batches_ st /\
    history st' = history st ++ [EvIsShutingDown false].
Proof.
  intros Hsd Hnew Hfile.
  assert (Hd : DiscardEntryWithBitset (t_blob_index t) false
               = (Status.NotFound "Blob file meta not found", false)).
  { unfold DiscardEntryWithBitset. rewrite Hfile. reflexivity. }
  split; [exact Hd|].
  unfold scan_body, bind. rewrite IsShutingDown_run, Hsd.
  set (l0 := set_total_count (u64 (total_count l + 1)) l).
  change (same_key t l0 && last_key_is_fresh l0 = false) in Hnew.
  cbn [RecordMetric modify]. rewrite Hnew, Hd. cbn.
  eexists _, _. split; [reflexivity|]. cbn.
  destruct (same_key t l0); split_and!; reflexivity.
Qed.

(** Without shadow tables, what follows a loop left on an error returns
    the status of the loop. *)
Lemma AfterScan_break (terminal : Status.t) (l : Locals) (st : State) :
  rewrite_shadow cf_options = false -> Status.ok (s_status l) = false ->
  AfterScan true terminal l st = (Returns (s_status l), st).
Proof.
  intros Hsh Hs. unfold AfterScan. rewrite Hsh, Hs. reflexivity.
Qed.

(** With shadow tables, a builder that is still open is finished after the
    loop and the status of [Finish] replaces the status of the loop. *)
Lemma AfterScan_break_shadow (terminal : Status.t) (l : Locals) (st : State) :
  rewrite_shadow cf_options = true -> Status.ok (s_status l) = false ->
  AfterScan true terminal l st = FinishShadows (level_shadow_builders l) (s_status l) st.
Proof.
  intros Hsh Hs. unfold AfterScan. rewrite Hsh, Hs. reflexivity.
Qed.

(** ** The scan loop: the size of the output file *)

Lemma step_keeps_refl l st : step_keeps l st l st.
Proof. unfold step_keeps. auto. Qed.

Lemma step_keeps_trans l1 st1 l2 st2 l3 st3 :
  step_keeps l1 st1 l2 st2 -> step_keeps l2 st2 l3 st3 -> step_keeps l1 st1 l3 st3.
Proof.
  unfold step_keeps. intros (Ha & Hb & Hc) (Ha' & Hb' & Hc'). split_and!.
  - auto.
  - congruence.
  - intros Ht H0. rewrite Hc', Hc; auto.
Qed.

Lemma BatchWriteNewIndices_builders (contexts : list BlobRecordContext) :
  forall (s : Status.t) (st : State) r st',
    BatchWriteNewIndices contexts s st = (r, st') ->
    blob_file_builders_ st' = blob_file_builders_ st /\ history st' = history st.
Proof.
  induction contexts as [|ctx rest IH]; intros s st r st' H.
  - injection H as <- <-. auto.
  - cbn [BatchWriteNewIndices] in H.
    destruct (ParseInternalKey (ctx_key ctx)) as [s1 ikey].
    destruct (Status.ok s1); cbn [negb] in H.
    2:{ injection H as <- <-. auto. }
    unfold bind, NewCallback, assert, fault, ret in H.
    destruct (assertions_enabled && negb (negb (String.eqb (user_key ikey) EmptyString))).
    { injection H as <- <-. auto. }
    destruct (WriteBatchInternal_PutBlobIndex [] (cf_id blob_gc_) (user_key ikey) _)
      as [s2 wb].
    cbn in H.
    destruct (Status.ok s2); cbn [negb] in H.
    + apply IH in H. exact H.
    + injection H as <- <-. auto.
Qed.

Ltac keeps_cases H :=
  cbn in H;
  repeat (case_match; try discriminate; simplify_eq; cbn in * );
  unfold step_keeps; cbn; rewrite ?length_insert;
  split_and!; intros; simplify_eq; cbn; try reflexivity; try assumption; try lia.

Lemma RewriteFallback_keeps t l st brk l' st' :
  RewriteFallback t l st = (Returns (brk, l'), st') -> step_keeps l st l' st'.
Proof.
  unfold RewriteFallback, bind, NewCallback, assert, fault, ret, push_rewrite_batch, modify.
  intros H. keeps_cases H.
Qed.

Lemma RollOutputFile_keeps l st brk l' st' :
  RollOutputFile l st = (Returns (brk, l'), st') -> step_keeps l st l' st'.
Proof.
  unfold RollOutputFile, bind, assert, fault, ret, push_blob_file_builder, modify, now, log.
  intros H. keeps_cases H.
Qed.

Lemma RewriteToShadow_keeps level contexts l st brk l' st' :
  RewriteToShadow level contexts l st = (Returns (brk, l'), st') -> step_keeps l st l' st'.
Proof.
  unfold RewriteToShadow, bind, index, OpenGCOutputShadow, FinishShadow, assert, fault,
    ret, modify, now, log.
  intros H. keeps_cases H.
Qed.

Lemma RewriteToBlobFile_keeps t level l st brk l' st' :
  RewriteToBlobFile t level l st = (Returns (brk, l'), st') -> step_keeps l st l' st'.
Proof.
  unfold RewriteToBlobFile, bind. intros H.
  destruct (RollOutputFile l st) as [[[b1 l1]|f] st1] eqn:Hroll; [|discriminate].
  apply RollOutputFile_keeps in Hroll.
  destruct b1.
  - injection H as <- <- <-. exact Hroll.
  - eapply step_keeps_trans; [exact Hroll|]. clear Hroll.
    revert H. unfold assert, fault, ret, RecordMetric, modify. intros H.
    repeat (case_match; try discriminate); simplify_eq.
    + apply RewriteToShadow_keeps in H. exact H.
    + match goal with
      | H : BatchWriteNewIndices _ _ _ = _ |- _ =>
          apply BatchWriteNewIndices_builders in H; destruct H as [Hb _]
      end.
      unfold step_keeps. cbn. split_and!; intros; auto.
Qed.

Lemma RewriteLive_keeps t level l st brk l' st' :
  RewriteLive t level l st = (Returns (brk, l'), st') -> step_keeps l st l' st'.
Proof.
  unfold RewriteLive. destruct (blob_run_mode cf_options);
    eauto using RewriteFallback_keeps, RewriteToBlobFile_keeps.
Qed.

Lemma DiscardEntry_run (key : string) (blob_index : BlobIndex.t) (discardable : bool)
  (st : State) :
  exists v m,
    DiscardEntry key blob_index discardable st =
    (Returns (v, g_level (db_GetImpl (length (history st)) (cf_id blob_gc_) key)),
     set_metrics m
       (set_history (history st ++
          [EvGetImpl key (db_GetImpl (length (history st)) (cf_id blob_gc_) key)]) st)).
Proof.
  unfold DiscardEntry, bind. rewrite GetImpl_run.
  set (r := db_GetImpl _ _ _).
  destruct (negb (Status.ok (g_status r)) && negb (Status.IsNotFound (g_status r))).
  - eexists _, (metrics_ st). reflexivity.
  - cbn [RecordMetric modify].
    destruct (Status.IsNotFound (g_status r) || negb (g_is_blob_index r)).
    + eexists _, _. reflexivity.
    + destruct (DecodeFrom (g_value r)) as [s other].
      destruct (negb (Status.ok s)); eexists _, _; reflexivity.
Qed.

Lemma scan_body_keeps (t : Tuple) (l : Locals) (st : State) brk l' st' :
  scan_body t l st = (Returns (brk, l'), st') -> step_keeps l st l' st'.
Proof.
  unfold scan_body, bind. rewrite IsShutingDown_run.
  set (l0 := set_total_count (u64 (total_count l + 1)) l).
  destruct (shuting_down (length (history st))).
  { intros H. injection H as <- <- <-. unfold step_keeps. cbn. auto. }
  cbn [RecordMetric modify].
  destruct (same_key t l0 && last_key_is_fresh l0).
  { intros H. injection H as <- <- <-. unfold step_keeps. cbn. auto. }
  set (lk := if same_key t l0 then l0
             else set_last_key_is_fresh false (set_last_key (t_key t) l0)).
  assert (Hk : forall st1, blob_file_builders_ st1 = blob_file_builders_ st ->
                           forall s, step_keeps l st (set_s_status s lk) st1).
  { intros st1 Hb s. unfold step_keeps, lk. destruct (same_key t l0); cbn; auto. }
  destruct (DiscardEntryWithBitset (t_blob_index t) false) as [s discardable].
  destruct (Status.ok s); cbn [negb].
  2:{ intros H. injection H as <- <- <-. apply Hk. reflexivity. }
  destruct discardable; cbn [negb].
  - unfold ret at 1. destruct (Status.ok s); cbn [negb].
    + intros H. injection H as <- <- <-.
      pose proof (Hk st eq_refl s) as Hs. unfold step_keeps in *. cbn in *. exact Hs.
    + intros H. injection H as <- <- <-.
      pose proof (Hk st eq_refl s) as Hs. unfold step_keeps in *. cbn in *. exact Hs.
  - match goal with
    | |- context [DiscardEntry ?k ?b ?d ?x] =>
        destruct (DiscardEntry_run k b d x) as ([s1 d1] & m & ->)
    end.
    destruct (Status.ok s1); cbn [negb].
    2:{ intros H. injection H as <- <- <-.
        pose proof (Hk st eq_refl s1) as Hs. unfold step_keeps in *. cbn in *. exact Hs. }
    destruct d1.
    + intros H. injection H as <- <- <-.
      pose proof (Hk st eq_refl s1) as Hs. unfold step_keeps in *. cbn in *. exact Hs.
    + intros H. apply RewriteLive_keeps in H.
      pose proof (Hk st eq_refl s1) as Hs. unfold step_keeps in *. cbn in *.
      destruct H as (Ha & Hb & Hc). destruct Hs as (Ha' & Hb' & Hc').
      split_and!; auto. congruence.
Qed.

(** With a target above 0 the loop finalizes no output file, whatever is
    written: [file_size] stays 0 and the test of line 295 never holds for an
    open file. *)
Lemma scan_loop_never_rolls (ts : list Tuple) : forall (l : Locals) (st : State) brk l' st',
  0 < blob_file_target_size cf_options -> cur_file_size l = 0 ->
  scan_loop ts l st = (Returns (brk, l'), st') ->
  cur_file_size l' = 0 /\ blob_file_builders_ st' = blob_file_builders_ st.
Proof.
  induction ts as [|t ts IH]; intros l st brk l' st' Ht H0 H.
  - injection H as <- <- <-. auto.
  - cbn [scan_loop] in H. unfold bind in H.
    destruct (scan_body t l st) as [[[b1 l1]|f] st1] eqn:Hstep; [|discriminate].
    apply scan_body_keeps in Hstep. destruct Hstep as (Ha & _ & Hc).
    destruct b1.
    + injection H as <- <- <-. auto.
    + apply IH in H; auto. destruct H as [H1 H2]. split; [exact H1|].
      rewrite H2. auto.
Qed.

(** ** A scan that yields no key *)

Lemma open_readers_ok (files : list BlobFileMeta) : forall (s : Status.t) (st : State),
  Status.ok s = true ->
  (forall n f, Status.ok (NewBlobFileReader n f) = true) ->
  exists s' evs,
    open_readers files s st = (Returns s', set_history (history st ++ evs) st) /\
    Status.ok s' = true /\ Forall is_reader_open evs /\ length evs = length files.
Proof.
  induction files as [|f rest IH]; intros s st Hs Hall.
  - exists s, []. rewrite app_nil_r. destruct st. split_and!; auto.
  - cbn [open_readers]. unfold bind, now, log. cbn.
    rewrite (Hall (length (history st)) (file_number f)). cbn.
    set (s1 := NewBlobFileReader (length (history st)) (file_number f)).
    destruct (IH s1 (set_history (history st ++ [EvNewBlobFileReader (file_number f) s1]) st))
      as (s' & evs & Hrun & Hok & Hev & Hlen); [apply Hall | exact Hall |].
    exists s', (EvNewBlobFileReader (file_number f) s1 :: evs).
    rewrite Hrun. cbn. rewrite <- app_assoc. split_and!; auto.
    constructor; [eexists _, _; reflexivity | exact Hev].
Qed.


(** Line 227 asserts that the iterator is valid after [SeekToFirst]:
    compiled with its assertions, [Run] does not go into a scan without
    keys. *)
Lemma Run_asserts_iterator_valid (st : State) :
  (forall n f, Status.ok (NewBlobFileReader n f) = true) ->
  iter_tuples = [] -> assertions_enabled = true -> inputs blob_gc_ <> [] ->
  (Run st).1 = Faults (AssertionFailed "gc_iter->Valid()").
Proof.
  intros Hread Hempty Hdebug Hinputs.
  destruct (open_readers_ok (inputs blob_gc_) Status.OK st eq_refl Hread)
    as (s & evs & Hrun & Hok & _).
  unfold Run, DoRunGC, BuildIterator, bind, assert. rewrite Hdebug. cbn.
  destruct (bool_decide_reflect (inputs blob_gc_ = [])) as [He|_]; [contradiction|].
  cbn. rewrite Hrun, Hok, Hempty. cbn. rewrite Hok. reflexivity.
Qed.


(** ** The shadow builders of the levels *)













Lemma RollOutputFile_open (l : Locals) (st : State) h b :
  blob_file_handle l = Some h -> blob_file_builder l = Some b ->
  cur_file_size l < blob_file_target_size cf_options ->
  RollOutputFile l st = (Returns (false, l), st).
Proof.
  intros Hh Hb Hsize. unfold RollOutputFile. rewrite Hh, Hb. cbn.
  destruct (Z.leb_spec (blob_file_target_size cf_options) (cur_file_size l)); [lia|].
  reflexivity.
Qed.




(** ** The order of the calls of a computation *)

Lemma in_order_nil : in_order [].
Proof. intros i j e1 e2 p1 p2 H. rewrite lookup_nil in H. discriminate. Qed.

Lemma in_order_app (lo mid hi : nat) (a b : list Event) :
  Forall (in_phases lo mid) a -> Forall (in_phases mid hi) b ->
  in_order a -> in_order b -> in_order (a ++ b).
Proof.
  intros Ha Hb Oa Ob i j e1 e2 p1 p2 Hi Hj H1 H2 Hlt.
  rewrite Forall_lookup in Ha, Hb.
  destruct (decide (i < length a)%nat) as [Hia|Hia];
    destruct (decide (j < length a)%nat) as [Hja|Hja].
  - rewrite lookup_app_l in Hi, Hj by lia. eapply Oa; eauto.
  - lia.
  - rewrite lookup_app_r in Hi by lia. rewrite lookup_app_l in Hj by lia.
    pose proof (Hb _ _ Hi _ H1). pose proof (Ha _ _ Hj _ H2). lia.
  - rewrite lookup_app_r in Hi, Hj by lia.
    pose proof (Ob _ _ _ _ _ _ Hi Hj H1 H2 Hlt). lia.
Qed.

Lemma in_phases_weaken (lo hi lo' hi' : nat) (evs : list Event) :
  (lo' <= lo)%nat -> (hi <= hi')%nat ->
  Forall (in_phases lo hi) evs -> Forall (in_phases lo' hi') evs.
Proof.
  intros Hlo Hhi H. eapply Forall_impl; [exact H|].
  intros e He p Hp. specialize (He p Hp). lia.
Qed.

Lemma staged_weaken (lo hi lo' hi' : nat) {A} (m : M A) :
  (lo' <= lo)%nat -> (hi <= hi')%nat -> staged lo hi m -> staged lo' hi' m.
Proof.
  intros Hlo Hhi Hm st. destruct (Hm st) as (evs & Hh & Hp & Ho).
  exists evs. split_and!; auto. eapply in_phases_weaken; eauto.
Qed.

Lemma staged_quiet (lo hi : nat) {A} (m : M A) :
  (forall st, history (m st).2 = history st) -> staged lo hi m.
Proof.
  intros H st. exists []. rewrite app_nil_r. split_and!; auto using in_order_nil.
Qed.

Lemma staged_ret (lo hi : nat) {A} (a : A) : staged lo hi (ret a).
Proof. apply staged_quiet. reflexivity. Qed.

Lemma staged_fault (lo hi : nat) {A} (f : Fault) : staged lo hi (@fault A f).
Proof. apply staged_quiet. reflexivity. Qed.

Lemma staged_now (lo hi : nat) : staged lo hi now.
Proof. apply staged_quiet. reflexivity. Qed.

Lemma staged_gets (lo hi : nat) {A} (f : State -> A) : staged lo hi (gets f).
Proof. apply staged_quiet. reflexivity. Qed.

Lemma staged_assert (lo hi : nat) (b : bool) (what : string) : staged lo hi (assert b what).
Proof. unfold assert. destruct (_ && _); [apply staged_fault | apply staged_ret]. Qed.

Lemma staged_modify (lo hi : nat) (f : State -> State) :
  (forall st, history (f st) = history st) -> staged lo hi (modify f).
Proof. intros H. apply staged_quiet. exact H. Qed.

Lemma staged_RecordMetric (lo hi : nat) (t : Ticker) (n : Z) : staged lo hi (RecordMetric t n).
Proof. apply staged_modify. reflexivity. Qed.

Lemma staged_log (lo hi : nat) (e : Event) :
  in_phases lo hi e -> staged lo hi (log e).
Proof.
  intros He st. exists [e]. split_and!.
  - reflexivity.
  - constructor; [exact He | constructor].
  - intros i j e1 e2 p1 p2 Hi Hj H1 H2 Hlt.
    apply list_lookup_singleton_Some in Hi as [-> <-].
    apply list_lookup_singleton_Some in Hj as [-> <-].
    rewrite H1 in H2. injection H2 as ->. lia.
Qed.

Lemma staged_bind (lo mid hi : nat) {A B} (m : M A) (k : A -> M B) :
  (lo <= mid <= hi)%nat ->
  staged lo mid m -> (forall a, staged mid hi (k a)) -> staged lo hi (bind m k).
Proof.
  intros Hmid Hm Hk st. unfold bind.
  destruct (Hm st) as (e1 & Hh1 & Hp1 & Ho1).
  destruct (m st) as [[a|f] st1]; cbn in Hh1.
  - destruct (Hk a st1) as (e2 & Hh2 & Hp2 & Ho2).
    exists (e1 ++ e2). split_and!.
    + rewrite Hh2, Hh1, app_assoc. reflexivity.
    + apply Forall_app. split.
      * eapply in_phases_weaken; [| |exact Hp1]; lia.
      * eapply in_phases_weaken; [| |exact Hp2]; lia.
    + eapply in_order_app; eauto.
  - exists e1. split_and!; auto.
    eapply in_phases_weaken; [| |exact Hp1]; lia.
Qed.

(** A step in one phase followed by its continuation in the same phases. *)
Lemma staged_seq (lo hi : nat) {A B} (m : M A) (k : A -> M B) :
  (lo <= hi)%nat ->
  staged lo lo m -> (forall a, staged lo hi (k a)) -> staged lo hi (bind m k).
Proof. intros H. apply staged_bind. lia. Qed.

Ltac staged_event :=
  let p := fresh "p" in let Hp := fresh "Hp" in
  intros p Hp; cbn in Hp; first [discriminate Hp | injection Hp as <-; lia].

Ltac staged_step :=
  first
    [ apply staged_ret | apply staged_fault | apply staged_now | apply staged_gets
    | apply staged_assert | apply staged_RecordMetric
    | apply staged_modify; intros; reflexivity
    | apply staged_log; staged_event
    | apply staged_seq; [lia | | intros]
    | match goal with
      | |- staged _ _ (match ?x with _ => _ end) => destruct x
      end ].

Ltac staged_auto := repeat staged_step.

Lemma staged_GetImpl (lo hi : nat) cf key : (lo <= hi)%nat -> staged lo hi (GetImpl cf key).
Proof. intros H. unfold GetImpl. staged_auto. Qed.

Lemma staged_IsDropped (lo hi : nat) : (lo <= hi)%nat -> staged lo hi IsDropped.
Proof. intros H. unfold IsDropped. staged_auto. Qed.

Lemma staged_IsShutingDown (lo hi : nat) : (lo <= hi)%nat -> staged lo hi IsShutingDown.
Proof. intros H. unfold IsShutingDown. staged_auto. Qed.

Lemma staged_Callback (lo hi : nat) cb : (lo <= hi)%nat -> staged lo hi (Callback cb).
Proof.
  intros H. unfold Callback.
  apply staged_seq; [lia | apply staged_GetImpl; lia | intros r].
  staged_auto.
Qed.

Lemma staged_WriteWithCallback wb cb : staged 1 1 (WriteWithCallback wb cb).
Proof.
  unfold WriteWithCallback.
  apply staged_seq; [lia | apply staged_Callback; lia | intros [s cb']].
  staged_auto.
Qed.

Lemma staged_NewCallback (lo hi : nat) cfh key b nb :
  (lo <= hi)%nat -> staged lo hi (NewCallback cfh key b nb).
Proof. intros H. unfold NewCallback. staged_auto. Qed.

Lemma staged_BatchWriteNewIndices (lo hi : nat) contexts :
  (lo <= hi)%nat -> forall s, staged lo hi (BatchWriteNewIndices contexts s).
Proof.
  intros H. induction contexts as [|ctx rest IH]; intros s; cbn [BatchWriteNewIndices].
  - staged_auto.
  - destruct (ParseInternalKey (ctx_key ctx)) as [s1 ikey].
    destruct (negb (Status.ok s1)); [staged_auto|].
    apply staged_seq; [lia | apply staged_NewCallback; lia | intros cb].
    destruct (WriteBatchInternal_PutBlobIndex _ _ _ _) as [s2 wb].
    apply staged_seq; [lia | apply staged_modify; intros; reflexivity | intros _].
    destruct (negb (Status.ok s2)); [staged_auto | apply IH].
Qed.

Lemma staged_RewriteLoop todo : forall done dropped s,
  staged 1 1 (RewriteLoop todo done dropped s).
Proof.
  induction todo as [|[wb cb] rest IH]; intros done dropped s; cbn [RewriteLoop].
  - staged_auto.
  - apply staged_seq; [lia | apply staged_IsDropped; lia | intros d].
    destruct d; [staged_auto|].
    apply staged_seq; [lia | apply staged_IsShutingDown; lia | intros sd].
    destruct sd; [staged_auto|].
    apply staged_seq; [lia | apply staged_WriteWithCallback | intros [s1 cb1]].
    destruct (Status.ok s1).
    + apply staged_seq; [lia | | intros _].
      * destruct (0 <? _); staged_auto.
      * apply staged_seq; [lia | apply staged_RecordMetric | intros _]. apply IH.
    + destruct (Status.IsBusy s1); [|staged_auto].
      do 3 (apply staged_seq; [lia | apply staged_RecordMetric | intros _]). apply IH.
Qed.

Lemma staged_ApplyDropped (lo hi : nat) entry : (lo <= hi)%nat -> staged lo hi (ApplyDropped entry).
Proof.
  intros H. destruct entry as [number [dropped_size orders]]. unfold ApplyDropped.
  staged_auto.
Qed.

Lemma staged_ApplyAllDropped (lo hi : nat) entries :
  (lo <= hi)%nat -> staged lo hi (ApplyAllDropped entries).
Proof.
  intros H. induction entries as [|e rest IH]; cbn [ApplyAllDropped].
  - staged_auto.
  - apply staged_seq; [lia | apply staged_ApplyDropped; lia | intros _; exact IH].
Qed.

Lemma staged_FlushWAL : staged 2 2 FlushWAL.
Proof. unfold FlushWAL. staged_auto. Qed.

Lemma staged_RewriteValidKeyToLSM : staged 1 2 RewriteValidKeyToLSM.
Proof.
  unfold RewriteValidKeyToLSM.
  apply (staged_bind 1 1 2); [lia | apply staged_gets | intros batches].
  apply (staged_bind 1 1 2); [lia | apply staged_RewriteLoop | intros [[s batches'] dropped]].
  apply (staged_bind 1 1 2); [lia | apply staged_modify; intros; reflexivity | intros _].
  apply (staged_bind 1 1 2); [lia | apply staged_log; staged_event | intros _].
  apply (staged_bind 1 1 2); [lia | apply staged_ApplyAllDropped; lia | intros _].
  apply (staged_bind 1 1 2); [lia | apply staged_log; staged_event | intros _].
  destruct (Status.ok _).
  - eapply staged_weaken; [| |apply staged_FlushWAL]; lia.
  - staged_auto.
Qed.

Lemma staged_InstallLoop todo : forall done files s,
  staged 0 0 (InstallLoop todo done files s).
Proof.
  induction todo as [|[first second] rest IH]; intros done files s; cbn [InstallLoop].
  - staged_auto.
  - destruct second as [b|]; [|staged_auto].
    apply staged_seq; [lia | apply staged_now | intros n].
    destruct (builder_Finish n b) as [[s1 b1] contexts].
    apply staged_seq; [lia | apply staged_log; staged_event | intros _].
    apply staged_seq; [lia | apply staged_BatchWriteNewIndices; lia | intros s2].
    destruct (negb (Status.ok s2)); [staged_auto|].
    apply staged_seq; [lia | apply staged_RecordMetric | intros _].
    destruct first as [number|]; [apply IH | staged_auto].
Qed.

Lemma staged_InstallOutputBlobFiles : staged 0 0 InstallOutputBlobFiles.
Proof.
  unfold InstallOutputBlobFiles.
  apply staged_seq; [lia | apply staged_gets | intros builders].
  apply staged_seq; [lia | apply staged_InstallLoop | intros [[s builders'] files]].
  staged_auto.
Qed.

Lemma staged_InstallOutputShadows (lo hi : nat) :
  (lo <= hi)%nat -> staged lo hi InstallOutputShadows.
Proof. intros H. unfold InstallOutputShadows. staged_auto. Qed.

Lemma staged_obsolete_edit files seq : forall lo hi : nat,
  (lo <= hi)%nat -> staged lo hi (obsolete_edit files seq).
Proof.
  induction files as [|f rest IH]; intros lo hi H; cbn [obsolete_edit].
  - staged_auto.
  - apply staged_seq; [lia | apply staged_RecordMetric | intros _].
    apply staged_seq; [lia | apply IH; lia | intros deleted]. staged_auto.
Qed.

Lemma staged_DeleteInputBlobFiles : staged 3 3 DeleteInputBlobFiles.
Proof.
  unfold DeleteInputBlobFiles.
  apply staged_seq; [lia | apply staged_now | intros n].
  apply staged_seq; [lia | apply staged_log; staged_event | intros _].
  apply staged_seq; [lia | apply staged_obsolete_edit; lia | intros deleted].
  staged_auto.
Qed.

Lemma staged_Finish : staged 0 3 Finish.
Proof.
  unfold Finish.
  apply (staged_bind 0 0 3); [lia | apply staged_log; staged_event | intros _].
  apply (staged_bind 0 0 3); [lia | apply staged_InstallOutputBlobFiles | intros s].
  apply (staged_bind 0 2 3); [lia | | intros s1].
  { destruct (Status.ok s); [|staged_auto].
    destruct (negb (rewrite_shadow cf_options)).
    - eapply staged_weaken; [| |apply staged_RewriteValidKeyToLSM]; lia.
    - apply staged_InstallOutputShadows. lia. }
  apply (staged_bind 2 2 3); [lia | apply staged_log; staged_event | intros _].
  apply (staged_bind 2 3 3); [lia | | intros s2].
  { destruct (Status.ok s1); [|staged_auto].
    apply (staged_bind 2 2 3); [lia | apply staged_IsDropped; lia | intros d].
    destruct (negb d); [|staged_auto].
    eapply staged_weaken; [| |apply staged_DeleteInputBlobFiles]; lia. }
  apply (staged_bind 3 3 3); [lia | | intros _; staged_auto].
  destruct (Status.ok s2); unfold UpdateInternalOpStats; staged_auto.
Qed.

Lemma Finish_unfold (st : State) :
  Finish st = bind (log EvMutexUnlock)
                (fun _ => bind InstallOutputBlobFiles FinishRest) st.
Proof. reflexivity. Qed.

Lemma staged_FinishRest (s : Status.t) : staged 1 3 (FinishRest s).
Proof.
  unfold FinishRest.
  apply (staged_bind 1 2 3); [lia | | intros s1].
  { destruct (Status.ok s); [|staged_auto].
    destruct (negb (rewrite_shadow cf_options)).
    - apply staged_RewriteValidKeyToLSM.
    - apply staged_InstallOutputShadows. lia. }
  unfold FinishTail.
  apply (staged_bind 2 2 3); [lia | apply staged_log; staged_event | intros _].
  apply (staged_bind 2 3 3); [lia | | intros s2].
  { destruct (Status.ok s1); [|staged_auto].
    apply (staged_bind 2 2 3); [lia | apply staged_IsDropped; lia | intros d].
    destruct (negb d); [|staged_auto].
    eapply staged_weaken; [| |apply staged_DeleteInputBlobFiles]; lia. }
  apply (staged_bind 3 3 3); [lia | | intros _; staged_auto].
  destruct (Status.ok s2); unfold UpdateInternalOpStats; staged_auto.
Qed.

(** When the installation of the output files has failed, the rest of
    [Finish] takes the mutex again and returns the status of the
    installation. *)
Lemma FinishRest_failed (s : Status.t) (st : State) :
  Status.ok s = false ->
  FinishRest s st = (Returns s, set_history (history st ++ [EvMutexLock]) st).
Proof.
  intros Hs. unfold FinishRest, FinishTail, bind. rewrite Hs. cbn. rewrite Hs. cbn.
  rewrite Hs. reflexivity.
Qed.

(** An installation that returns an OK status has published the output
    files: its last call is [BatchFinishFiles], which answered this status. *)
Lemma InstallOutputBlobFiles_ok (st : State) s st' :
  InstallOutputBlobFiles st = (Returns s, st') -> Status.ok s = true ->
  exists pre files,
    history st' = history st ++ pre ++ [EvBatchFinishFiles files s] /\
    Forall (in_phases 0 0) pre.
Proof.
  unfold InstallOutputBlobFiles, bind. cbn [gets].
  destruct (staged_InstallLoop (blob_file_builders_ st) [] [] Status.OK st)
    as (pre & Hpre & Hph & _).
  destruct (InstallLoop _ _ _ _ st) as [[[[s0 builders] files]|f] st1]; [|discriminate].
  cbn in Hpre. cbn [modify].
  destruct (Status.ok s0) eqn:Hs0.
  - cbn [now log]. set (s1 := bfm_BatchFinishFiles _ _ _).
    destruct (Status.ok s1) eqn:Hs1; cbn; intros H Hs; injection H as <- <-;
      exists pre, (map file_number files); cbn; rewrite Hpre, <- app_assoc; auto.
  - destruct (collect_handles builders); [|discriminate].
    cbn. intros H Hs. injection H as <- <-. congruence.
Qed.

(** A rewrite that returns an OK status has synced the WAL: its last call
    is [FlushWAL], which answered this status. *)
Lemma RewriteValidKeyToLSM_ok (st : State) s st' :
  RewriteValidKeyToLSM st = (Returns s, st') -> Status.ok s = true ->
  exists pre, history st' = history st ++ pre ++ [EvFlushWAL s].
Proof.
  unfold RewriteValidKeyToLSM, bind. cbn [gets].
  destruct (staged_RewriteLoop (rewrite_batches_ st) [] ∅ Status.OK st)
    as (e1 & He1 & _).
  destruct (RewriteLoop _ _ _ _ st) as [[[[s0 batches] dropped]|f] st1]; [|discriminate].
  cbn in He1. cbn [modify log].
  set (st2 := set_history _ _).
  destruct (staged_ApplyAllDropped 1 1 (map_to_list dropped) ltac:(lia) st2)
    as (e2 & He2 & _).
  destruct (ApplyAllDropped _ st2) as [[[]|f] st3]; [|discriminate].
  cbn in He2. cbn.
  set (s1 := if Status.IsBusy s0 then Status.OK else s0).
  destruct (Status.ok s1) eqn:Hs1.
  - unfold FlushWAL, bind, now, log, ret. cbn. intros H Hs. injection H as <- <-.
    cbn. rewrite He2. unfold st2. cbn. rewrite He1.
    exists (e1 ++ [EvMutexLock] ++ e2 ++ [EvMutexUnlock]).
    rewrite <- !app_assoc. reflexivity.
  - unfold ret. intros H Hs. injection H as <- <-. congruence.
Qed.

Lemma preceded_by_none (P Q : Event -> Prop) (evs : list Event) :
  Forall (fun e => ~ Q e) evs -> preceded_by P Q evs.
Proof.
  intros H a e b -> HQ. rewrite Forall_app, Forall_cons in H.
  destruct H as (_ & H & _). contradiction.
Qed.

Lemma preceded_by_app (P Q : Event -> Prop) (a b : list Event) :
  preceded_by P Q a ->
  (Forall (fun e => ~ Q e) b \/ exists e', e' ∈ a /\ P e') ->
  preceded_by P Q (a ++ b).
Proof.
  intros Ha Hb x e y Heq HQ.
  apply app_eq_app in Heq as [l [[-> Hy]|[-> Hb']]].
  - destruct l as [|e0 l].
    + cbn in Hy. rewrite app_nil_r in *.
      destruct Hb as [Hb|Hb]; [|exact Hb].
      rewrite <- Hy in Hb. apply Forall_cons in Hb as [Hb _]. contradiction.
    + cbn in Hy. injection Hy as He Hy. subst e0.
      destruct (Ha x e l eq_refl HQ) as (e' & He' & HP). eauto.
  - destruct Hb as [Hb|(e' & He' & HP)].
    + rewrite Hb' in Hb. rewrite Forall_app, Forall_cons in Hb.
      destruct Hb as (_ & Hb & _). contradiction.
    + exists e'. split; [|exact HP]. apply elem_of_app. auto.
Qed.

Lemma writes_phase e : writes e -> phase e = Some 1%nat.
Proof. intros (wb & s & ->). reflexivity. Qed.

Lemma obsoletes_phase e : obsoletes e -> phase e = Some 3%nat.
Proof. intros (edit & s & ->). reflexivity. Qed.

Lemma in_phases_not (lo hi p : nat) (Q : Event -> Prop) (evs : list Event) :
  (forall e, Q e -> phase e = Some p) -> (p < lo \/ hi < p)%nat ->
  Forall (in_phases lo hi) evs -> Forall (fun e => ~ Q e) evs.
Proof.
  intros HQ Hp H. eapply Forall_impl; [exact H|].
  intros e He Hq. specialize (He p (HQ e Hq)). lia.
Qed.

Lemma preceded_by_app_l (P Q : Event -> Prop) (a b : list Event) :
  Forall (fun e => ~ Q e) a -> preceded_by P Q b -> preceded_by P Q (a ++ b).
Proof.
  intros Ha Hb x e y Heq HQ.
  apply app_eq_app in Heq as [l [[-> Hy]|[-> Hb']]].
  - destruct l as [|e0 l].
    + cbn in Hy. rewrite app_nil_r in *.
      destruct (Hb [] e y) as (e' & He' & _); [symmetry; exact Hy | exact HQ |].
      apply elem_of_nil in He'. contradiction.
    + cbn in Hy. injection Hy as He Hy. subst e0.
      rewrite Forall_app, Forall_cons in Ha. destruct Ha as (_ & Ha & _). contradiction.
  - destruct (Hb l e y Hb' HQ) as (e' & He' & HP).
    exists e'. split; [|exact HP]. apply elem_of_app. auto.
Qed.

Lemma staged_FinishTail (s : Status.t) : staged 2 3 (FinishTail s).
Proof.
  unfold FinishTail.
  apply (staged_bind 2 2 3); [lia | apply staged_log; staged_event | intros _].
  apply (staged_bind 2 3 3); [lia | | intros s2].
  { destruct (Status.ok s); [|staged_auto].
    apply (staged_bind 2 2 3); [lia | apply staged_IsDropped; lia | intros d].
    destruct (negb d); [|staged_auto].
    eapply staged_weaken; [| |apply staged_DeleteInputBlobFiles]; lia. }
  apply (staged_bind 3 3 3); [lia | | intros _; staged_auto].
  destruct (Status.ok s2); unfold UpdateInternalOpStats; staged_auto.
Qed.

Lemma FinishTail_failed (s : Status.t) (st : State) :
  Status.ok s = false ->
  FinishTail s st = (Returns s, set_history (history st ++ [EvMutexLock]) st).
Proof.
  intros Hs. unfold FinishTail, bind. cbn. rewrite Hs. cbn. rewrite Hs. reflexivity.
Qed.

(** When the new indices go to the LSM, the manifest edit of the rest of
    [Finish] has a successful sync of the WAL before it. *)
Lemma FinishRest_synced (s : Status.t) (st : State) :
  rewrite_shadow cf_options = false ->
  exists evs,
    history (FinishRest s st).2 = history st ++ evs /\
    preceded_by syncs obsoletes evs.
Proof.
  intros Hsh.
  destruct (Status.ok s) eqn:Hs.
  2:{ rewrite (FinishRest_failed s st Hs). exists [EvMutexLock]. split; [reflexivity|].
      apply preceded_by_none. repeat constructor. intros (edit & s' & H). discriminate. }
  unfold FinishRest, bind. rewrite Hs, Hsh. cbn [negb].
  destruct (staged_RewriteValidKeyToLSM st) as (e_r & Hr & Hph & _).
  assert (Hnone : Forall (fun e => ~ obsoletes e) e_r).
  { eapply in_phases_not; [apply obsoletes_phase | | exact Hph]. lia. }
  destruct (RewriteValidKeyToLSM st) as [[s1|f] st1] eqn:Hrun; cbn in Hr.
  2:{ exists e_r. split; [exact Hr|]. apply preceded_by_none. exact Hnone. }
  destruct (Status.ok s1) eqn:Hs1.
  - destruct (RewriteValidKeyToLSM_ok st s1 st1 Hrun Hs1) as (pre & Hpre).
    assert (e_r = pre ++ [EvFlushWAL s1]).
    { rewrite Hpre in Hr. apply app_inv_head in Hr. congruence. }
    destruct (staged_FinishTail s1 st1) as (e_t & Ht & _).
    exists (e_r ++ e_t). split.
    + rewrite Ht, Hr, app_assoc. reflexivity.
    + apply preceded_by_app; [apply preceded_by_none; exact Hnone|].
      right. exists (EvFlushWAL s1). split.
      * subst e_r. apply elem_of_app. right. apply list_elem_of_singleton. reflexivity.
      * exists s1. auto.
  - rewrite (FinishTail_failed s1 st1 Hs1). cbn.
    exists (e_r ++ [EvMutexLock]). split.
    + rewrite Hr, app_assoc. reflexivity.
    + apply preceded_by_none. apply Forall_app. split; [exact Hnone|].
      repeat constructor. intros (edit & s' & H). discriminate.
Qed.

(** The calls of [Finish] stand in the order of the commit, and with
    [rewrite_shadow] off a manifest edit has a successful sync of the WAL
    before it. *)
Lemma Finish_steps_in_order (st : State) :
  exists evs,
    history (Finish st).2 = history st ++ evs /\
    in_order evs /\
    (rewrite_shadow cf_options = false -> preceded_by syncs obsoletes evs).
Proof.
  destruct (staged_Finish st) as (evs & Hevs & _ & Hord).
  exists evs. split_and!; [exact Hevs | exact Hord |].
  - (* the manifest edit has the sync before it *)
    intros Hsh. revert Hevs. rewrite Finish_unfold. unfold bind at 1. cbn [log].
    set (st0 := set_history (history st ++ [EvMutexUnlock]) st).
    unfold bind.
    destruct (staged_InstallOutputBlobFiles st0) as (e1 & H1 & Hph1 & _).
    assert (Hnone1 : Forall (fun e => ~ obsoletes e) e1).
    { eapply in_phases_not; [apply obsoletes_phase | | exact Hph1]. lia. }
    assert (Hunlock : Forall (fun e => ~ obsoletes e) [EvMutexUnlock]).
    { repeat constructor. intros (edit & s' & H). discriminate. }
    destruct (InstallOutputBlobFiles st0) as [[s|f] st1] eqn:Hinst; cbn in H1.
    2:{ cbn. rewrite H1. unfold st0. cbn. rewrite <- app_assoc. intros Hevs.
        apply app_inv_head in Hevs. subst evs.
        apply preceded_by_none. apply Forall_app. auto. }
    destruct (FinishRest_synced s st1 Hsh) as (e2 & H2 & Hpre2).
    rewrite H2, H1. unfold st0. cbn. rewrite <- !app_assoc. intros Hevs.
    apply app_inv_head in Hevs. subst evs.
    change (EvMutexUnlock :: e1 ++ e2) with ([EvMutexUnlock] ++ e1 ++ e2).
    rewrite app_assoc.
    apply preceded_by_app_l; [apply Forall_app; auto | exact Hpre2].
Qed.

(** ** A failed installation of the output files *)

(** X22.  When [InstallOutputBlobFiles] returns an error, [Finish] returns this
    error; besides the calls of the installation it only takes the mutex
    again: no batch is written to the LSM, the WAL is not synced and no
    manifest edit marks the inputs obsolete. *)
Lemma Finish_install_failed (st : State) s st1 :
  InstallOutputBlobFiles (set_history (history st ++ [EvMutexUnlock]) st)
    = (Returns s, st1) ->
  Status.ok s = false ->
  Finish st = (Returns s, set_history (history st1 ++ [EvMutexLock]) st1) /\
  exists evs,
    history st1 = history st ++ EvMutexUnlock :: evs /\
    Forall (fun e => ~ writes e /\ ~ obsoletes e /\ is_FlushWAL e = false) evs.
Proof.
  intros Hinst Hs. split.
  - rewrite Finish_unfold. unfold bind at 1. cbn [log]. unfold bind. rewrite Hinst.
    apply FinishRest_failed. exact Hs.
  - destruct (staged_InstallOutputBlobFiles (set_history (history st ++ [EvMutexUnlock]) st))
      as (evs & Hevs & Hph & _).
    rewrite Hinst in Hevs. cbn in Hevs. exists evs. split.
    + rewrite Hevs, <- app_assoc. reflexivity.
    + eapply Forall_impl; [exact Hph|]. intros e He. split_and!.
      * intros Hw. specialize (He _ (writes_phase e Hw)). lia.
      * intros Ho. specialize (He _ (obsoletes_phase e Ho)). lia.
      * destruct e; try reflexivity. specialize (He 2%nat eq_refl). lia.
Qed.

(** The two ways in which the installation fails.  When finishing a
    builder fails for the first builder, all the output files are handed to
    [BatchDeleteFiles].  When the builders are finished and [BatchFinishFiles]
    fails, the installation returns its error and nothing is deleted. *)
Lemma InstallOutputBlobFiles_publish_failed (st : State) s0 builders files st1 :
  InstallLoop (blob_file_builders_ st) [] [] Status.OK st
    = (Returns (s0, builders, files), st1) ->
  Status.ok s0 = true ->
  let s := bfm_BatchFinishFiles (length (history st1)) (cf_id blob_gc_) files in
  Status.ok s = false ->
  exists st',
    InstallOutputBlobFiles st = (Returns s, st') /\
    history st' = history st1 ++ [EvBatchFinishFiles (map file_number files) s] /\
    storage st' = storage st1 /\ outputs st' = outputs st1.
Proof.
  intros Hloop Hs0 s Hs. unfold InstallOutputBlobFiles, bind. cbn [gets].
  rewrite Hloop. cbn [modify]. rewrite Hs0. cbn [now log history set_blob_file_builders].
  fold s. rewrite Hs. cbn. eexists. split_and!; reflexivity.
Qed.

Lemma InstallOutputBlobFiles_finish_failed (st : State) s0 builders files st1 handles :
  InstallLoop (blob_file_builders_ st) [] [] Status.OK st
    = (Returns (s0, builders, files), st1) ->
  Status.ok s0 = false ->
  collect_handles builders = Some handles ->
  exists st',
    InstallOutputBlobFiles st = (Returns s0, st') /\
    history st' = history st1 ++
      [EvBatchDeleteFiles handles (bfm_BatchDeleteFiles (length (history st1)) handles)] /\
    storage st' = storage st1 /\ outputs st' = outputs st1.
Proof.
  intros Hloop Hs0 Hh. unfold InstallOutputBlobFiles, bind. cbn [gets].
  rewrite Hloop. cbn [modify]. rewrite Hs0, Hh. cbn. eexists. split_and!; reflexivity.
Qed.

(** A builder that fails after another one has been finished: the handle of
    the finished one has been moved away, and the failure branch dereferences
    it. *)
Lemma InstallOutputBlobFiles_moved_handle (st : State) s0 builders files st1 :
  InstallLoop (blob_file_builders_ st) [] [] Status.OK st
    = (Returns (s0, builders, files), st1) ->
  Status.ok s0 = false ->
  collect_handles builders = None ->
  (InstallOutputBlobFiles st).1 = Faults (NullDereference "builder.first").
Proof.
  intros Hloop Hs0 Hh. unfold InstallOutputBlobFiles, bind. cbn [gets].
  rewrite Hloop. cbn [modify]. rewrite Hs0, Hh. reflexivity.
Qed.

(** ** The rewrite of the valid keys: batches that lose the race *)

Lemma Callback_returns (cb : GarbageCollectionWriteCallback) (st : State) :
  exists s n,
    Callback cb st =
    (Returns (s, set_read_bytes n cb),
     set_history (history st ++
       [EvGetImpl (key_ cb) (db_GetImpl (length (history st)) (cfh_ cb) (key_ cb))]) st).
Proof.
  unfold Callback, bind. rewrite GetImpl_run.
  set (r := db_GetImpl _ _ _).
  destruct (negb (Status.ok (g_status r)) && negb (Status.IsNotFound (g_status r))).
  - exists (g_status r), (read_bytes_ cb). destruct cb. reflexivity.
  - cbv zeta. destruct (Status.ok _).
    + destruct (DecodeFrom (g_value r)) as [s other].
      destruct (negb (Status.ok s)); [eexists _, _; reflexivity|].
      destruct (negb _); eexists _, _; reflexivity.
    + eexists _, _. reflexivity.
Qed.



Lemma add_dropped_lookup (i : BlobIndex.t) (dropped : gmap Z (Z * gset Z)) :
  add_dropped i dropped !! BlobIndex.file_number i =
  Some (u64 ((default (0, ∅) (dropped !! BlobIndex.file_number i)).1
             + BlobHandle.size (BlobIndex.blob_handle i)),
        {[BlobHandle.order (BlobIndex.blob_handle i)]}
          ∪ (default (0, ∅) (dropped !! BlobIndex.file_number i)).2).
Proof. unfold add_dropped. apply lookup_insert_eq. Qed.

Lemma add_dropped_other (i : BlobIndex.t) (dropped : gmap Z (Z * gset Z)) (number : Z) :
  number <> BlobIndex.file_number i ->
  add_dropped i dropped !! number = dropped !! number.
Proof. intros H. unfold add_dropped. apply lookup_insert_ne. congruence. Qed.

(** An order recorded in [dropped] stays recorded. *)
Lemma add_dropped_keeps (i : BlobIndex.t) (dropped : gmap Z (Z * gset Z))
  (number order : Z) size orders :
  dropped !! number = Some (size, orders) -> order ∈ orders ->
  exists size' orders',
    add_dropped i dropped !! number = Some (size', orders') /\ order ∈ orders'.
Proof.
  intros Hl Ho. destruct (decide (number = BlobIndex.file_number i)) as [->|Hne].
  - rewrite add_dropped_lookup, Hl. cbn. eexists _, _. split; [reflexivity|].
    set_solver.
  - rewrite add_dropped_other by exact Hne. eauto.
Qed.











Lemma obsolete_edit_run (files : list BlobFileMeta) (seq : Z) : forall st,
  exists m,
    obsolete_edit files seq st =
    (Returns (map (fun f => (file_number f, seq))
                  (List.filter (fun f => negb (is_obsolete f)) files)),
     set_metrics m st).
Proof.
  induction files as [|f rest IH]; intros st.
  - exists (metrics_ st). destruct st. reflexivity.
  - cbn [obsolete_edit]. unfold bind. cbn [RecordMetric modify].
    destruct (IH (set_metrics (bump gc_num_files 1 (metrics_ st)) st)) as (m & ->).
    exists m. cbn [List.filter]. destruct (is_obsolete f); reflexivity.
Qed.

(** [DeleteInputBlobFiles]: one manifest edit that deletes every input not
    yet obsolete, at the latest sequence number; its status is returned. *)
Lemma DeleteInputBlobFiles_run (st : State) :
  let seq := db_GetLatestSequenceNumber (length (history st)) in
  let edit := {| edit_cf := cf_id blob_gc_;
                 edit_deleted := map (fun f => (file_number f, seq))
                                   (List.filter (fun f => negb (is_obsolete f))
                                                (inputs blob_gc_)) |} in
  let s := LogAndApply (S (length (history st))) edit in
  exists m,
    DeleteInputBlobFiles st =
    (Returns s,
     set_history (history st ++ [EvGetLatestSequenceNumber seq; EvLogAndApply edit s])
       (set_metrics m st)).
Proof.
  intros seq edit s. unfold DeleteInputBlobFiles, bind. cbn [now log].
  fold seq.
  destruct (obsolete_edit_run (inputs blob_gc_) seq
              (set_history (history st ++ [EvGetLatestSequenceNumber seq]) st)) as (m & ->).
  exists m. cbn. rewrite length_snoc. fold edit. fold s.
  rewrite <- app_assoc. reflexivity.
Qed.

Section AllBusy.

(** From the time [start] on, the callback of every batch of [batches]
    returns Busy (each of these keys has been overwritten or deleted since
    the scan); the column family is not dropped and the job is not shut
    down.  Nothing is assumed of other keys or of earlier times. *)
Variable start : nat.
Variable batches : list (WriteBatch * GarbageCollectionWriteCallback).
Hypothesis not_dropped : forall n, cfd_IsDropped n = false.
Hypothesis not_shut_down : forall n, shuting_down n = false.
Hypothesis all_busy :
  forall wb cb st, (wb, cb) ∈ batches -> (start <= length (history st))%nat ->
    exists s cb' st',
      Callback cb st = (Returns (s, cb'), st') /\ Status.IsBusy s = true.


Hypothesis lsm_mode : rewrite_shadow cf_options = false.
Hypothesis wal_syncs : forall n, Status.ok (db_FlushWAL n) = true.



End AllBusy.

(** ** Further properties of the callback and of the checks of the scan *)

(** X1.  What a call of [Callback] leaves behind.  The members of the
    callback other than [read_bytes_] are not written; [read_bytes_] is set to
    the size of the key plus the size of the value found (line 41), except
    when the lookup fails with an error other than NotFound, where the
    function returns before the assignment.  Of the job nothing changes:
    counters, rewrite batches, output builders and blob storage are as
    before. *)
Theorem Callback_effects (cb : GarbageCollectionWriteCallback) (st : State) :
  let r := db_GetImpl (length (history st)) (cfh_ cb) (key_ cb) in
  exists s cb' st',
    Callback cb st = (Returns (s, cb'), st') /\
    cfh_ cb' = cfh_ cb /\ key_ cb' = key_ cb /\ blob_index_ cb' = blob_index_ cb /\
    new_blob_index_ cb' = new_blob_index_ cb /\
    read_bytes_ cb' =
      (if negb (Status.ok (g_status r)) && negb (Status.IsNotFound (g_status r))
       then read_bytes_ cb
       else u64 (slice_size (key_ cb) + slice_size (g_value r))) /\
    metrics_ st' = metrics_ st /\ rewrite_batches_ st' = rewrite_batches_ st /\
    blob_file_builders_ st' = blob_file_builders_ st /\ outputs st' = outputs st /\
    storage st' = storage st /\ shadow_set st' = shadow_set st.
Proof.
  intros r. unfold Callback, bind. rewrite GetImpl_run. fold r.
  destruct (negb (Status.ok (g_status r)) && negb (Status.IsNotFound (g_status r))).
  - eexists _, _, _. split_and!; reflexivity.
  - cbv zeta. destruct (Status.ok _).
    + destruct (DecodeFrom (g_value r)) as [s other].
      destruct (negb (Status.ok s)); [eexists _, _, _; split_and!; reflexivity|].
      destruct (negb _); eexists _, _, _; split_and!; reflexivity.
    + eexists _, _, _. split_and!; reflexivity.
Qed.

Lemma find_first {A} (p : A -> bool) (l : list A) :
  match List.find p l with
  | Some x =>
      exists k, l !! k = Some x /\ p x = true /\
                forall j y, (j < k)%nat -> l !! j = Some y -> p y = false
  | None => forall y, y ∈ l -> p y = false
  end.
Proof.
  induction l as [|a l IH]; cbn [List.find].
  - intros y Hy. apply elem_of_nil in Hy. contradiction.
  - destruct (p a) eqn:Ha.
    + exists 0%nat. split_and!; [reflexivity | exact Ha | intros; lia].
    + destruct (List.find p l) as [x|].
      * destruct IH as (k & Hk & Hx & Hbefore). exists (S k). split_and!; auto.
        intros [|j] y Hj Hy; cbn in Hy; [congruence|].
        apply (Hbefore j y); [lia | exact Hy].
      * intros y Hy. apply elem_of_cons in Hy as [->|Hy]; auto.
Qed.

(** X2.  [DiscardEntryWithBitset] answers OK exactly when the file number of
    the blob index is the number of an input file.  It then reads the bit of
    the first such input (the loop of line 583 stops at the first match), and
    the value that [*discardable] had plays no part; otherwise it answers
    NotFound "Blob file meta not found" and leaves [*discardable] alone. *)
Theorem DiscardEntryWithBitset_found (blob_index : BlobIndex.t) (discardable : bool) :
  let number := BlobIndex.file_number blob_index in
  let order := BlobHandle.order (BlobIndex.blob_handle blob_index) in
  let r := DiscardEntryWithBitset blob_index discardable in
  (Status.ok r.1 = true <-> number ∈ map file_number (inputs blob_gc_)) /\
  (Status.ok r.1 = true <->
     exists k file,
       inputs blob_gc_ !! k = Some file /\ file_number file = number /\
       (forall j f, (j < k)%nat -> inputs blob_gc_ !! j = Some f -> file_number f <> number) /\
       r = (Status.OK, negb (IsLiveData file order))) /\
  (Status.ok r.1 = false <->
     r = (Status.NotFound "Blob file meta not found", discardable)) /\
  (Status.ok r.1 = true -> DiscardEntryWithBitset blob_index (negb discardable) = r).
Proof.
  intros number order r. unfold r, DiscardEntryWithBitset. fold number order.
  pose proof (find_first (fun f => file_number f =? number) (inputs blob_gc_)) as Hfind.
  destruct (List.find _ (inputs blob_gc_)) as [file|].
  - destruct Hfind as (k & Hk & Hx & Hbefore). apply Z.eqb_eq in Hx.
    assert (Hr : (if IsLiveData file order then (Status.OK, false) else (Status.OK, true))
                 = (Status.OK, negb (IsLiveData file order)))
      by (destruct (IsLiveData file order); reflexivity).
    rewrite Hr. cbn [fst]. split_and!.
    + split; [intros _|reflexivity]. apply list_elem_of_fmap. exists file.
      split; [congruence|]. eapply list_elem_of_lookup_2. exact Hk.
    + split; [intros _|reflexivity]. exists k, file. split_and!; auto.
      intros j f Hj Hf. specialize (Hbefore j f Hj Hf). apply Z.eqb_neq in Hbefore. exact Hbefore.
    + split; [discriminate|]. intros H. injection H as H _. discriminate.
    + reflexivity.
  - cbn [fst]. split_and!.
    + split; [discriminate|]. intros Hin. exfalso.
      apply list_elem_of_fmap in Hin as (f & Hn & Hin).
      specialize (Hfind f Hin). apply Z.eqb_neq in Hfind. congruence.
    + split; [discriminate|]. intros (k & file & _ & _ & _ & H). discriminate.
    + split; reflexivity.
    + discriminate.
Qed.

(** The tuples of an iterator over the inputs pass the bitset check: each
    of them names an input file, so that the check answers OK and the
    NotFound of line 600 is never returned in a scan of these tuples. *)
Lemma from_inputs_found (tuples : list Tuple) (t : Tuple) (discardable : bool) :
  from_inputs (inputs blob_gc_) tuples -> t ∈ tuples ->
  Status.ok (DiscardEntryWithBitset (t_blob_index t) discardable).1 = true.
Proof.
  intros Hfrom Ht.
  assert (Hrec : In (record_of t) (concat (map records_of_file (inputs blob_gc_)))).
  { apply list_elem_of_In. unfold from_inputs in Hfrom. rewrite <- Hfrom.
    apply list_elem_of_In, in_map, list_elem_of_In, Ht. }
  apply in_concat in Hrec as (records & Hrecords & Hin).
  apply in_map_iff in Hrecords as (f & <- & Hf).
  apply in_map_iff in Hin as (i & Heq & _).
  unfold record_of in Heq. injection Heq as Hnumber _.
  unfold DiscardEntryWithBitset.
  pose proof (find_first (fun f => file_number f =? BlobIndex.file_number (t_blob_index t))
                         (inputs blob_gc_)) as Hfind.
  destruct (List.find _ (inputs blob_gc_)) as [file|].
  - destruct (IsLiveData file _); reflexivity.
  - specialize (Hfind f (proj2 (list_elem_of_In _ _) Hf)). cbn in Hfind.
    rewrite Hnumber, Z.eqb_refl in Hfind. discriminate.
Qed.

(** X3.  [DiscardEntry] always returns and makes one call, the lookup of the
    key in the column family of the job; the level it reports is the level of
    that lookup.  The only counter it writes is [gc_bytes_read_check], which
    grows by the size of the key plus the size of the value found, unless the
    lookup fails with an error other than NotFound: this error is then
    returned, nothing is counted and [*discardable] is left alone.  A record
    is reported live only when the lookup finds a blob index that decodes to
    the index of the record; it is reported discardable only when the key is
    missing, holds an inline value, or holds another blob index. *)
Theorem DiscardEntry_effects (key : string) (blob_index : BlobIndex.t) (discardable : bool)
  (st : State) :
  let r := db_GetImpl (length (history st)) (cf_id blob_gc_) key in
  let failed := negb (Status.ok (g_status r)) && negb (Status.IsNotFound (g_status r)) in
  exists s d st',
    DiscardEntry key blob_index discardable st = (Returns (s, d, g_level r), st') /\
    history st' = history st ++ [EvGetImpl key r] /\
    (forall t, t <> gc_bytes_read_check -> metrics_ st' t = metrics_ st t) /\
    metrics_ st' gc_bytes_read_check =
      (if failed then metrics_ st gc_bytes_read_check
       else u64 (metrics_ st gc_bytes_read_check + (slice_size key + slice_size (g_value r)))) /\
    rewrite_batches_ st' = rewrite_batches_ st /\
    blob_file_builders_ st' = blob_file_builders_ st /\ storage st' = storage st /\
    (failed = true -> s = g_status r /\ d = discardable) /\
    (Status.ok s = true -> d = false ->
       Status.ok (g_status r) = true /\ g_is_blob_index r = true /\
       (DecodeFrom (g_value r)).2 = blob_index) /\
    (Status.ok s = true -> d = true -> failed = false ->
       Status.IsNotFound (g_status r) = true \/ g_is_blob_index r = false \/
       (DecodeFrom (g_value r)).2 <> blob_index).
Proof.
  intros r failed. unfold DiscardEntry, bind. rewrite GetImpl_run. fold r. fold failed.
  destruct failed eqn:Hfailed.
  - eexists _, _, _. split_and!; try reflexivity.
    + auto.
    + intros Hs ->. unfold failed in Hfailed. rewrite Hs in Hfailed. discriminate.
    + discriminate.
  - cbn [RecordMetric modify].
    assert (Hm : forall t, t <> gc_bytes_read_check ->
                 bump gc_bytes_read_check (slice_size key + slice_size (g_value r))
                      (metrics_ st) t = metrics_ st t).
    { intros t Ht. unfold bump. destruct (decide _); congruence. }
    assert (Hok : Status.IsNotFound (g_status r) = false -> Status.ok (g_status r) = true).
    { intros Hnf. unfold failed in Hfailed. rewrite Hnf in Hfailed.
      destruct (Status.ok _); [reflexivity | discriminate]. }
    destruct (Status.IsNotFound (g_status r)) eqn:Hnf; cbn [orb].
    { eexists _, _, _. split_and!; try reflexivity; try discriminate; auto. }
    destruct (g_is_blob_index r) eqn:Hbi; cbn [negb].
    2:{ eexists _, _, _. split_and!; try reflexivity; try discriminate; auto. }
    destruct (DecodeFrom (g_value r)) as [s other] eqn:Hdec.
    destruct (Status.ok s) eqn:Hs; cbn [negb].
    + eexists _, _, _. split_and!; try reflexivity; try discriminate; auto.
      * intros _ Hd. apply negb_false_iff, BlobIndex_eqb_eq in Hd. auto.
      * intros _ Hd _. apply negb_true_iff, BlobIndex_eqb_neq in Hd. cbn. auto.
    + eexists _, _, _. split_and!; try reflexivity; try discriminate; auto.
      * cbn. congruence.
      * cbn. congruence.
Qed.

(** ** Loops that stop at the first failure *)

Lemma open_readers_prefix (files : list BlobFileMeta) :
  forall (s0 : Status.t) (st : State), Status.ok s0 = true ->
  exists (s : Status.t) (oks stop : list Event),
    open_readers files s0 st = (Returns s, set_history (history st ++ oks ++ stop) st) /\
    Forall2 (fun f e => exists s', e = EvNewBlobFileReader (file_number f) s' /\
                                   Status.ok s' = true)
            (take (length oks) files) oks /\
    ((stop = [] /\ length oks = length files /\ Status.ok s = true) \/
     (exists f, files !! length oks = Some f /\
                stop = [EvNewBlobFileReader (file_number f) s] /\ Status.ok s = false)).
Proof.
  induction files as [|f rest IH]; intros s0 st Hs0.
  - exists s0, [], []. cbn. rewrite app_nil_r. destruct st. split_and!; auto.
  - cbn [open_readers]. unfold bind, now, log. cbn [history set_history].
    set (s1 := NewBlobFileReader (length (history st)) (file_number f)).
    destruct (Status.ok s1) eqn:Hs1; cbn [negb].
    + destruct (IH s1 (set_history (history st ++ [EvNewBlobFileReader (file_number f) s1]) st)
                  Hs1) as (s & oks & stop & Hrun & Hoks & Hend).
      exists s, (EvNewBlobFileReader (file_number f) s1 :: oks), stop.
      rewrite Hrun. cbn. rewrite <- app_assoc. split_and!.
      * reflexivity.
      * constructor; [eauto | exact Hoks].
      * destruct Hend as [(-> & Hlen & Hs)|(g & Hg & -> & Hs)]; [left|right]; eauto.
    + exists s1, [], [EvNewBlobFileReader (file_number f) s1]. cbn. split_and!; auto.
      right. exists f. auto.
Qed.

(** X4.  [BuildIterator] opens one reader per input file in the order of
    the inputs and stops at the first reader that fails.  Either every input
    has a reader that answered OK, the status is OK and the merged iterator is
    made; or the readers of a prefix of the inputs answered OK, the reader of
    the next input failed, its status is returned and no iterator is made.
    Nothing else of the job changes. *)
Theorem BuildIterator_prefix (st : State) :
  inputs blob_gc_ <> [] ->
  exists (s : Status.t) (oks stop : list Event),
    BuildIterator st =
      (Returns (s, if Status.ok s then Some (iter_tuples, iter_terminal_status) else None),
       set_history (history st ++ oks ++ stop) st) /\
    Forall2 (fun f e => exists s', e = EvNewBlobFileReader (file_number f) s' /\
                                   Status.ok s' = true)
            (take (length oks) (inputs blob_gc_)) oks /\
    ((stop = [] /\ length oks = length (inputs blob_gc_) /\ Status.ok s = true) \/
     (exists f, inputs blob_gc_ !! length oks = Some f /\
                stop = [EvNewBlobFileReader (file_number f) s] /\ Status.ok s = false)).
Proof.
  intros Hne.
  destruct (open_readers_prefix (inputs blob_gc_) Status.OK st eq_refl)
    as (s & oks & stop & Hrun & Hrest).
  exists s, oks, stop. split; [|exact Hrest].
  unfold BuildIterator, bind, assert.
  rewrite bool_decide_eq_false_2 by exact Hne.
  rewrite andb_false_r. cbn [ret]. rewrite Hrun.
  destruct (Status.ok s); reflexivity.
Qed.

Lemma FinishShadow_run (b : TableBuilder) (st : State) :
  FinishShadow b st =
  (Returns (tb_Finish (length (history st)) b),
   set_history (history st ++ [EvShadowFinish (tb_level b) (tb_Finish (length (history st)) b)])
     st).
Proof. reflexivity. Qed.

Lemma FinishShadows_prefix (builders : list (option TableBuilder)) :
  forall (s0 : Status.t) (st : State),
  exists (s : Status.t) (oks stop : list Event),
    FinishShadows builders s0 st = (Returns s, set_history (history st ++ oks ++ stop) st) /\
    Forall2 (fun b e => exists s', e = EvShadowFinish (tb_level b) s' /\ Status.ok s' = true)
            (take (length oks) (omap id builders)) oks /\
    ((stop = [] /\ length oks = length (omap id builders) /\
      (oks = [] -> s = s0) /\ (oks <> [] -> Status.ok s = true)) \/
     (exists b, omap id builders !! length oks = Some b /\
                stop = [EvShadowFinish (tb_level b) s] /\ Status.ok s = false)).
Proof.
  induction builders as [|[b|] rest IH]; intros s0 st.
  - exists s0, [], []. cbn. rewrite app_nil_r. destruct st.
    split_and!; auto; left; split_and!; auto; congruence.
  - cbn [FinishShadows]. unfold bind. rewrite FinishShadow_run.
    set (s1 := tb_Finish (length (history st)) b).
    destruct (Status.ok s1) eqn:Hs1; cbn [negb].
    + destruct (IH s1 (set_history (history st ++ [EvShadowFinish (tb_level b) s1]) st))
        as (s & oks & stop & Hrun & Hoks & Hend).
      exists s, (EvShadowFinish (tb_level b) s1 :: oks), stop.
      rewrite Hrun. cbn. rewrite <- app_assoc. split_and!.
      * reflexivity.
      * constructor; [eauto | exact Hoks].
      * destruct Hend as [(-> & Hlen & Hnil & Hcons)|(g & Hg & -> & Hs)]; [left|right]; eauto.
        split_and!; auto; [discriminate|].
        intros _. destruct oks; [rewrite Hnil by reflexivity; exact Hs1 | apply Hcons; discriminate].
    + exists s1, [], [EvShadowFinish (tb_level b) s1]. cbn. split_and!; auto.
      right. exists b. auto.
  - cbn [FinishShadows]. destruct (IH s0 st) as (s & oks & stop & Hrun & Hoks & Hend).
    exists s, oks, stop. cbn. auto.
Qed.

(** X5.  After the scan the shadow builders that are still open are finished
    in the order of the levels, up to the first [Finish] that fails.  Either
    every open builder has been finished with OK, and the status is OK (the
    status of the scan when no builder was open); or the builders of a prefix
    have been finished, the next one failed and its status is returned, the
    builders of the levels above being left unfinished. *)
Theorem FinishShadows_in_level_order (l : Locals) (st : State) :
  exists (s : Status.t) (oks stop : list Event),
    let open := omap id (level_shadow_builders l) in
    FinishShadows (level_shadow_builders l) (s_status l) st
      = (Returns s, set_history (history st ++ oks ++ stop) st) /\
    Forall2 (fun b e => exists s', e = EvShadowFinish (tb_level b) s' /\ Status.ok s' = true)
            (take (length oks) open) oks /\
    ((stop = [] /\ length oks = length open /\
      (open = [] -> s = s_status l) /\ (open <> [] -> Status.ok s = true)) \/
     (exists b, open !! length oks = Some b /\
                stop = [EvShadowFinish (tb_level b) s] /\ Status.ok s = false)).
Proof.
  destruct (FinishShadows_prefix (level_shadow_builders l) (s_status l) st)
    as (s & oks & stop & Hrun & Hoks & Hend).
  exists s, oks, stop. cbv zeta. split_and!; [exact Hrun | exact Hoks |].
  destruct Hend as [(Hstop & Hlen & Hnil & Hcons)|Hfail]; [left|right; exact Hfail].
  split_and!; auto.
  - intros Hopen. apply Hnil. rewrite Hopen in Hlen. destruct oks; [reflexivity|discriminate].
  - intros Hopen. apply Hcons. intros ->. destruct (omap id _); [congruence|discriminate].
Qed.

(** ** The new indices of the records written *)

(** X6.  [BatchWriteNewIndices] appends rewrite batches and does nothing
    else: the batches that were there stay, no call is made, no counter moves.
    The new batches stand for a prefix of the contexts, one batch per context
    and in their order.  The callback of a batch carries the key parsed from
    the context, the original index of the context as the index to check and
    its new index as the new index, with [read_bytes_] 0; the batch itself is
    the blob index put for that key with the encoding of that new index.
    When the status is OK every context has its batch; the only fault is the
    assertion of the constructor of the callback on an empty key. *)
Theorem BatchWriteNewIndices_appends (contexts : list BlobRecordContext) :
  forall (s0 : Status.t) (st : State),
  exists (o : Outcome Status.t) (new : list (WriteBatch * GarbageCollectionWriteCallback)),
    BatchWriteNewIndices contexts s0 st
      = (o, set_rewrite_batches (rewrite_batches_ st ++ new) st) /\
    Forall2 (fun ctx b =>
               cfh_ b.2 = cf_id blob_gc_ /\
               key_ b.2 = user_key (ParseInternalKey (ctx_key ctx)).2 /\
               blob_index_ b.2 = ctx_original_blob_index ctx /\
               new_blob_index_ b.2 = ctx_new_blob_index ctx /\
               read_bytes_ b.2 = 0 /\
               b.1 = (WriteBatchInternal_PutBlobIndex [] (cf_id blob_gc_) (key_ b.2)
                        (EncodeTo (new_blob_index_ b.2))).2)
            (take (length new) contexts) new /\
    (forall s, o = Returns s -> Status.ok s = true -> contexts <> [] ->
               length new = length contexts) /\
    (forall s, o = Returns s -> contexts = [] -> s = s0) /\
    (forall f, o = Faults f -> f = AssertionFailed "!key_.empty()").
Proof.
  induction contexts as [|ctx rest IH]; intros s0 st.
  - exists (Returns s0), []. cbn. rewrite app_nil_r. destruct st.
    split_and!; auto; congruence.
  - cbn [BatchWriteNewIndices].
    destruct (ParseInternalKey (ctx_key ctx)) as [s1 ikey] eqn:Hparse.
    destruct (Status.ok s1) eqn:Hs1; cbn [negb].
    2:{ exists (Returns s1), []. cbn. rewrite app_nil_r. destruct st.
        split_and!; auto; try congruence. }
    unfold bind, NewCallback, assert, fault, ret. unfold bind.
    destruct (assertions_enabled && negb (negb (String.eqb (user_key ikey) EmptyString))).
    { exists (Faults (AssertionFailed "!key_.empty()")), []. cbn. rewrite app_nil_r.
      destruct st. split_and!; auto; congruence. }
    assert (Heta : BlobIndex.mk (BlobIndex.file_number (ctx_new_blob_index ctx))
                                (BlobIndex.blob_handle (ctx_new_blob_index ctx))
                   = ctx_new_blob_index ctx) by (destruct (ctx_new_blob_index ctx); reflexivity).
    rewrite Heta.
    destruct (WriteBatchInternal_PutBlobIndex [] (cf_id blob_gc_) (user_key ikey)
                (EncodeTo (ctx_new_blob_index ctx))) as [s2 wb] eqn:Hput.
    unfold push_rewrite_batch, modify.
    set (cb := {| cfh_ := cf_id blob_gc_; key_ := user_key ikey;
                  blob_index_ := ctx_original_blob_index ctx;
                  new_blob_index_ := ctx_new_blob_index ctx; read_bytes_ := 0 |}).
    assert (Hone : cfh_ (wb, cb).2 = cf_id blob_gc_ /\
               key_ (wb, cb).2 = user_key (ParseInternalKey (ctx_key ctx)).2 /\
               blob_index_ (wb, cb).2 = ctx_original_blob_index ctx /\
               new_blob_index_ (wb, cb).2 = ctx_new_blob_index ctx /\
               read_bytes_ (wb, cb).2 = 0 /\
               (wb, cb).1 = (WriteBatchInternal_PutBlobIndex [] (cf_id blob_gc_) (key_ (wb, cb).2)
                        (EncodeTo (new_blob_index_ (wb, cb).2))).2).
    { cbn. rewrite Hparse, Hput. cbn. split_and!; reflexivity. }
    unfold bind. cbv beta iota.
    destruct (Status.ok s2) eqn:Hs2; cbn [negb].
    + destruct (IH s2 (set_rewrite_batches (rewrite_batches_ st ++ [(wb, cb)]) st))
        as (o & new & Hrun & Hnew & Hall & _ & Hfault).
      exists o, ((wb, cb) :: new). rewrite Hrun. cbn [rewrite_batches_ set_rewrite_batches].
      rewrite <- app_assoc. split_and!.
      * reflexivity.
      * cbn. constructor; [exact Hone | exact Hnew].
      * intros s Ho Hs _. cbn. f_equal.
        destruct rest as [|c rest'].
        -- destruct new; [reflexivity|]. cbn in Hnew. inversion Hnew.
        -- apply (Hall s Ho Hs). discriminate.
      * discriminate.
      * exact Hfault.
    + exists (Returns s2), [(wb, cb)]. split_and!.
      * reflexivity.
      * cbn. constructor; [exact Hone | constructor].
      * intros s Ho Hs. injection Ho as <-. congruence.
      * discriminate.
      * discriminate.
Qed.

(** X7.  [AddToShadow] adds entries to the shadow table and keeps what the
    table held: its number, its level and the entries it had, in their order.
    The entries added stand for a prefix of the contexts, one per context:
    the user key of the context with sequence number 1 and type blob index,
    and the encoding of the new index of the context.  Every context has its
    entry unless the key of one of them does not parse, and then the status is
    the error of the parser. *)
Theorem AddToShadow_appends (contexts : list BlobRecordContext) :
  forall (builder : TableBuilder) (s0 : Status.t),
  exists (new : list (string * string)),
    let r := AddToShadow builder contexts s0 in
    tb_number r.2 = tb_number builder /\ tb_level r.2 = tb_level builder /\
    tb_entries r.2 = tb_entries builder ++ new /\
    Forall2 (fun ctx e =>
               e = (InternalKey_Encode (user_key (ParseInternalKey (ctx_key ctx)).2) 1
                      kTypeBlobIndex,
                    EncodeTo (ctx_new_blob_index ctx)) /\
               Status.ok (ParseInternalKey (ctx_key ctx)).1 = true)
            (take (length new) contexts) new /\
    (contexts = [] -> r.1 = s0) /\
    (length new = length contexts -> contexts <> [] -> Status.ok r.1 = true) /\
    (forall ctx, contexts !! length new = Some ctx ->
                 r.1 = (ParseInternalKey (ctx_key ctx)).1 /\ Status.ok r.1 = false).
Proof.
  induction contexts as [|ctx rest IH]; intros builder s0.
  - exists []. cbn. rewrite app_nil_r. split_and!; auto; try congruence; discriminate.
  - cbn [AddToShadow].
    assert (Heta : BlobIndex.mk (BlobIndex.file_number (ctx_new_blob_index ctx))
                                (BlobIndex.blob_handle (ctx_new_blob_index ctx))
                   = ctx_new_blob_index ctx) by (destruct (ctx_new_blob_index ctx); reflexivity).
    rewrite Heta.
    destruct (ParseInternalKey (ctx_key ctx)) as [s1 ikey] eqn:Hparse.
    destruct (Status.ok s1) eqn:Hs1; cbn [negb].
    + set (b1 := {| tb_number := tb_number builder; tb_level := tb_level builder;
                    tb_entries := tb_entries builder ++ _ |}).
      destruct (IH b1 s1) as (new & Hn & Hl & He & Hnew & Hnil & Hall & Hstop).
      exists ((InternalKey_Encode (user_key ikey) 1 kTypeBlobIndex,
               EncodeTo (ctx_new_blob_index ctx)) :: new).
      cbv zeta in *. split_and!.
      * rewrite Hn. reflexivity.
      * rewrite Hl. reflexivity.
      * rewrite He. unfold b1. cbn. rewrite <- app_assoc. reflexivity.
      * cbn. constructor; [|exact Hnew]. rewrite Hparse. auto.
      * discriminate.
      * intros Hlen _. cbn in Hlen. destruct rest as [|c rest'].
        -- rewrite Hnil by reflexivity. exact Hs1.
        -- apply Hall; [lia | discriminate].
      * intros c Hc. cbn in Hc. apply Hstop. exact Hc.
    + exists []. cbn. rewrite app_nil_r. split_and!; auto; try discriminate.
      intros c Hc. injection Hc as <-. rewrite Hparse. auto.
Qed.

(** ** The scan: shutdown, and what a run hands to the commit *)

(** X8.  When the job is shutting down at the poll of line 230, the scan
    stops there: the tuple is counted in [total_count] and nothing else is
    done for it (no byte is counted as read, no lookup is made, nothing is
    rewritten), the tuples that follow are not visited, and the status of the
    loop is ShutdownInProgress.  When the new indices go to the LSM this is
    the status that [DoRunGC] returns, and the output file that may be open is
    not registered for installation. *)
Theorem shutdown_stops_scan (t : Tuple) (rest : list Tuple) (l : Locals) (st : State) :
  shuting_down (length (history st)) = true ->
  let l' := set_s_status Status.ShutdownInProgress
              (set_total_count (u64 (total_count l + 1)) l) in
  let st' := set_history (history st ++ [EvIsShutingDown true]) st in
  scan_loop (t :: rest) l st = (Returns (true, l'), st') /\
  (rewrite_shadow cf_options = false ->
   forall terminal, AfterScan true terminal l' st' = (Returns Status.ShutdownInProgress, st')).
Proof.
  intros Hsd l' st'. split.
  - apply scan_loop_break. unfold scan_body, bind. rewrite IsShutingDown_run, Hsd. reflexivity.
  - intros Hsh terminal. unfold AfterScan. rewrite Hsh. reflexivity.
Qed.

Lemma BuildIterator_frame (st : State) r st' :
  BuildIterator st = (r, st') -> exists evs, st' = set_history (history st ++ evs) st.
Proof.
  unfold BuildIterator, bind, assert, fault, ret.
  destruct (assertions_enabled && _).
  { intros H. injection H as <- <-. exists []. rewrite app_nil_r. destruct st. reflexivity. }
  destruct (open_readers_prefix (inputs blob_gc_) Status.OK st eq_refl)
    as (s & oks & stop & -> & _).
  destruct (Status.ok s); intros H; injection H as <- <-; eauto.
Qed.

(** X9.  A run registers at most one output blob file for installation,
    whatever the target size (above 0) and however much is written: nothing
    is registered during the scan, and after the scan the open file is
    registered when the scan and the iterator ended with OK.  When the new
    indices go to the LSM and the run returns an error, nothing has been
    registered: the output file that the scan has opened is handed neither to
    [BatchFinishFiles] nor to [BatchDeleteFiles] by [Finish]. *)
Theorem Run_registers_one_file (st : State) s st' :
  0 < blob_file_target_size cf_options ->
  Run st = (Returns s, st') ->
  exists new,
    blob_file_builders_ st' = blob_file_builders_ st ++ new /\
    (length new <= 1)%nat /\
    Forall (fun b => is_Some b.1 /\ is_Some b.2) new /\
    (rewrite_shadow cf_options = false -> Status.ok s = false -> new = []).
Proof.
  intros Htarget. unfold Run, DoRunGC, bind.
  destruct (BuildIterator st) as [[[s0 gc_iter]|f] st0] eqn:Hbuild; [|discriminate].
  apply BuildIterator_frame in Hbuild as (e0 & ->).
  assert (Hnone : forall s1 st1, (Returns s1, set_history (history st ++ e0) st) = (Returns s, st1) ->
            st1 = st' -> exists new,
              blob_file_builders_ st' = blob_file_builders_ st ++ new /\
              (length new <= 1)%nat /\
              Forall (fun b => is_Some b.1 /\ is_Some b.2) new /\
              (rewrite_shadow cf_options = false -> Status.ok s = false -> new = [])).
  { intros s1 st1 H <-. injection H as -> <-. exists []. rewrite app_nil_r.
    split_and!; auto. }
  destruct (Status.ok s0); cbn [negb]; [|intros H; injection H as <- <-; eauto].
  destruct gc_iter as [[tuples terminal]|]; [|intros H; injection H as <- <-; eauto].
  unfold assert, fault, ret.
  destruct (assertions_enabled && _); [discriminate|].
  set (st0 := set_history (history st ++ e0) st).
  destruct (scan_loop tuples (initial_locals s0) st0) as [[[broke l]|f] st1] eqn:Hscan;
    [|discriminate].
  apply scan_loop_never_rolls in Hscan as [_ Hb1]; [|exact Htarget|reflexivity].
  change (blob_file_builders_ st0) with (blob_file_builders_ st) in Hb1.
  unfold AfterScan.
  set (iter_status := if broke then Status.OK else terminal).
  assert (Hfinish : forall st2 r st3,
            (if rewrite_shadow cf_options
             then FinishShadows (level_shadow_builders l) (s_status l)
             else ret (s_status l)) st2 = (r, st3) ->
            blob_file_builders_ st3 = blob_file_builders_ st2 /\
            (rewrite_shadow cf_options = false -> r = Returns (s_status l))).
  { intros st2 r st3. destruct (rewrite_shadow cf_options).
    - destruct (FinishShadows_prefix (level_shadow_builders l) (s_status l) st2)
        as (s2 & oks & stop & -> & _).
      intros H. injection H as <- <-. split; [reflexivity | discriminate].
    - intros H. injection H as <- <-. auto. }
  destruct (Status.ok iter_status && Status.ok (s_status l)) eqn:Hok.
  - apply andb_true_iff in Hok as [_ Hok].
    destruct (blob_file_builder l) as [b|] eqn:Hb, (blob_file_handle l) as [h|] eqn:Hh;
      unfold bind, assert, fault, ret, push_blob_file_builder, modify.
    + destruct (assertions_enabled && _); [discriminate|].
      intros H. apply Hfinish in H as [H Hr]. cbn in H.
      exists [(Some h, Some b)]. rewrite H, Hb1. split_and!; auto.
      intros Hsh Hs. specialize (Hr Hsh). injection Hr as ->. congruence.
    + repeat match goal with
             | |- context [assertions_enabled && ?x] =>
                 destruct (assertions_enabled && x); [discriminate|]
             end.
      intros H. apply Hfinish in H as [H Hr]. exists []. rewrite app_nil_r, H, Hb1.
      split_and!; auto.
    + repeat match goal with
             | |- context [assertions_enabled && ?x] =>
                 destruct (assertions_enabled && x); [discriminate|]
             end.
      intros H. apply Hfinish in H as [H Hr]. exists []. rewrite app_nil_r, H, Hb1.
      split_and!; auto.
    + repeat match goal with
             | |- context [assertions_enabled && ?x] =>
                 destruct (assertions_enabled && x); [discriminate|]
             end.
      intros H. apply Hfinish in H as [H Hr]. exists []. rewrite app_nil_r, H, Hb1.
      split_and!; auto.
  - destruct (negb (Status.ok iter_status)).
    + intros H. injection H as <- <-. exists []. rewrite app_nil_r. split_and!; auto.
    + intros H. apply Hfinish in H as [H Hr]. exists []. rewrite app_nil_r, H, Hb1.
      split_and!; auto.
Qed.

(** X10.  When no iterator is built, [Run] ends there with an error: the
    status of [BuildIterator] when that is an error, Aborted otherwise.
    No tuple is scanned and the job is as [BuildIterator] left it. *)
Theorem Run_without_iterator (st : State) s st' :
  BuildIterator st = (Returns (s, None), st') ->
  exists s',
    Run st = (Returns s', st') /\ Status.ok s' = false /\
    (Status.ok s = false -> s' = s) /\
    (Status.ok s = true -> s' = Status.Aborted "Build iterator for gc failed") /\
    exists evs, st' = set_history (history st ++ evs) st /\ Forall is_reader_open evs.
Proof.
  intros Hbuild. unfold Run, DoRunGC, bind. rewrite Hbuild.
  assert (Hev : exists evs, st' = set_history (history st ++ evs) st /\
                            Forall is_reader_open evs).
  { revert Hbuild. unfold BuildIterator, bind, assert, fault, ret.
    destruct (assertions_enabled && _); [discriminate|].
    destruct (open_readers_prefix (inputs blob_gc_) Status.OK st eq_refl)
      as (s1 & oks & stop & -> & Hoks & Hend).
    intros H. exists (oks ++ stop). split.
    - destruct (Status.ok s1); [discriminate | injection H as _ <-; reflexivity].
    - apply Forall_app. split.
      + clear - Hoks. revert Hoks. generalize (take (length oks) (inputs blob_gc_)).
        induction oks as [|e oks IH]; intros fs H; [constructor|].
        inversion H as [|f e' fs' oks' (s' & -> & _) Hrest]; subst.
        constructor; [eexists _, _; reflexivity | eapply IH; exact Hrest].
      + destruct Hend as [(-> & _)|(f & _ & -> & _)]; [constructor|].
        repeat constructor. eexists _, _. reflexivity. }
  destruct (Status.ok s) eqn:Hs; cbn [negb].
  - eexists. split_and!; [reflexivity | reflexivity | discriminate | reflexivity | exact Hev].
  - exists s. split_and!; [reflexivity | exact Hs | reflexivity | discriminate | exact Hev].
Qed.

(** ** The scan in fallback mode *)

Lemma fallback_step_refl ts l st : fallback_step ts l st l st.
Proof.
  unfold fallback_step. split_and!; auto.
  - exists []. rewrite app_nil_r. auto.
  - exists []. rewrite app_nil_r. auto.
Qed.

Lemma fallback_step_trans t ts l1 st1 l2 st2 l3 st3 :
  fallback_step [t] l1 st1 l2 st2 -> fallback_step ts l2 st2 l3 st3 ->
  fallback_step (t :: ts) l1 st1 l3 st3.
Proof.
  intros (A1 & A2 & A3 & A4 & (e1 & A5 & A6) & (n1 & A7 & A8))
         (B1 & B2 & B3 & B4 & (e2 & B5 & B6) & (n2 & B7 & B8)).
  unfold fallback_step. split_and!; try congruence.
  - exists (e1 ++ e2). split; [rewrite B5, A5, app_assoc; reflexivity|].
    apply Forall_app. auto.
  - exists (n1 ++ n2). split; [rewrite B7, A7, app_assoc; reflexivity|].
    apply Forall_app. split.
    + eapply Forall_impl; [exact A8|]. intros b (t0 & Hin & H). exists t0. split; [|exact H].
      apply list_elem_of_singleton in Hin as ->. apply list_elem_of_here.
    + eapply Forall_impl; [exact B8|]. intros b (t0 & Hin & H). exists t0. split; [|exact H].
      apply list_elem_of_further. exact Hin.
Qed.

Lemma scan_body_fallback (t : Tuple) (l : Locals) (st : State) brk l' st' :
  blob_run_mode cf_options = kFallback ->
  scan_body t l st = (Returns (brk, l'), st') -> fallback_step [t] l st l' st'.
Proof.
  intros Hmode. unfold scan_body, bind. rewrite IsShutingDown_run.
  set (l0 := set_total_count (u64 (total_count l + 1)) l).
  set (poll := EvIsShutingDown (shuting_down (length (history st)))).
  assert (Hpoll : is_GetImpl poll = true \/ is_poll poll) by (right; eexists; reflexivity).
  assert (Hstep : forall l1 st1 evs new,
            (blob_file_handle l1 = blob_file_handle l /\
             blob_file_builder l1 = blob_file_builder l /\
             level_shadow_builders l1 = level_shadow_builders l) ->
            blob_file_builders_ st1 = blob_file_builders_ st ->
            history st1 = history st ++ evs ->
            Forall (fun e => is_GetImpl e = true \/ is_poll e) evs ->
            rewrite_batches_ st1 = rewrite_batches_ st ++ new ->
            Forall (fallback_batch [t]) new ->
            fallback_step [t] l st l1 st1).
  { intros l1 st1 evs new (A1 & A2 & A3) A4 A5 A6 A7 A8. unfold fallback_step.
    split_and!; eauto. }
  destruct (shuting_down (length (history st))).
  { intros H. injection H as <- <- <-. apply (Hstep _ _ [poll] []); cbn;
      rewrite ?app_nil_r; auto. }
  cbn [RecordMetric modify].
  destruct (same_key t l0 && last_key_is_fresh l0).
  { intros H. injection H as <- <- <-. apply (Hstep _ _ [poll] []); cbn;
      rewrite ?app_nil_r; auto. }
  set (lk := if same_key t l0 then l0
             else set_last_key_is_fresh false (set_last_key (t_key t) l0)).
  assert (Hlk : blob_file_handle lk = blob_file_handle l /\
                blob_file_builder lk = blob_file_builder l /\
                level_shadow_builders lk = level_shadow_builders l).
  { unfold lk. destruct (same_key t l0); auto. }
  destruct (DiscardEntryWithBitset (t_blob_index t) false) as [s discardable].
  destruct (Status.ok s); cbn [negb].
  2:{ intros H. injection H as <- <- <-. apply (Hstep _ _ [poll] []); cbn;
        rewrite ?app_nil_r; auto. }
  destruct discardable; cbn [negb].
  - unfold ret at 1. destruct (Status.ok s); cbn [negb];
      intros H; injection H as <- <- <-; apply (Hstep _ _ [poll] []); cbn;
      rewrite ?app_nil_r; auto.
  - match goal with
    | |- context [DiscardEntry ?k ?b ?d ?x] =>
        destruct (DiscardEntry_run k b d x) as ([s1 d1] & m & ->)
    end.
    cbn [history set_history].
    set (get := EvGetImpl _ _).
    assert (Hget : is_GetImpl get = true \/ is_poll get) by (left; reflexivity).
    destruct (Status.ok s1); cbn [negb].
    2:{ intros H. injection H as <- <- <-. apply (Hstep _ _ [poll; get] []); cbn;
          rewrite <- ?app_assoc, ?app_nil_r; auto. }
    destruct d1.
    + intros H. injection H as <- <- <-. apply (Hstep _ _ [poll; get] []); cbn;
        rewrite <- ?app_assoc, ?app_nil_r; auto.
    + unfold RewriteLive. rewrite Hmode.
      unfold RewriteFallback, bind, NewCallback, assert, fault, ret.
      destruct (assertions_enabled && _); [discriminate|].
      destruct (WriteBatchInternal_Put [] (cf_id blob_gc_) (t_key t) (t_value t))
        as [s2 wb] eqn:Hput.
      unfold push_rewrite_batch, modify. intros H. injection H as <- <- <-.
      eapply (Hstep _ _ [poll; get]); cbn; rewrite <- ?app_assoc; auto.
      constructor; [|constructor].
      exists t. cbn. rewrite Hput. split_and!; auto. apply list_elem_of_here.
Qed.

(** X11.  In fallback mode the scan opens no output blob file and no shadow
    table, and registers nothing for installation: its only calls are the
    shutdown polls and the lookups.  Every rewrite batch it adds is made for a
    scanned tuple: it puts the value of the tuple inline under its key, and
    its callback checks the index of the tuple and carries an empty new index
    (the size 0 by which [RewriteValidKeyToLSM] counts it as a fallback). *)
Theorem fallback_scan (ts : list Tuple) : forall (l : Locals) (st : State) brk l' st',
  blob_run_mode cf_options = kFallback ->
  scan_loop ts l st = (Returns (brk, l'), st') ->
  fallback_step ts l st l' st' /\
  BlobHandle.size (BlobIndex.blob_handle BlobIndex.empty) = 0.
Proof.
  intros l st brk l' st' Hmode H. split; [|reflexivity]. revert l st brk l' st' H.
  induction ts as [|t ts IH]; intros l st brk l' st' H.
  - injection H as <- <- <-. apply fallback_step_refl.
  - cbn [scan_loop] in H. unfold bind in H.
    destruct (scan_body t l st) as [[[b1 l1]|f] st1] eqn:Hstep; [|discriminate].
    apply (scan_body_fallback _ _ _ _ _ _ Hmode) in Hstep.
    destruct b1.
    + injection H as <- <- <-.
      eapply fallback_step_trans; [exact Hstep | apply fallback_step_refl].
    + apply IH in H. eapply fallback_step_trans; eauto.
Qed.

(** ** The kinds of calls of a computation *)

Lemma only_calls_quiet (P : Event -> bool) {A} (m : M A) :
  (forall st, history (m st).2 = history st) -> only_calls P m.
Proof. intros H st. exists []. rewrite app_nil_r. auto. Qed.

Lemma only_calls_ret (P : Event -> bool) {A} (a : A) : only_calls P (ret a).
Proof. apply only_calls_quiet. reflexivity. Qed.

Lemma only_calls_fault (P : Event -> bool) {A} (f : Fault) : only_calls P (@fault A f).
Proof. apply only_calls_quiet. reflexivity. Qed.

Lemma only_calls_now (P : Event -> bool) : only_calls P now.
Proof. apply only_calls_quiet. reflexivity. Qed.

Lemma only_calls_gets (P : Event -> bool) {A} (f : State -> A) : only_calls P (gets f).
Proof. apply only_calls_quiet. reflexivity. Qed.

Lemma only_calls_assert (P : Event -> bool) (b : bool) (what : string) :
  only_calls P (assert b what).
Proof. unfold assert. destruct (_ && _); [apply only_calls_fault | apply only_calls_ret]. Qed.

Lemma only_calls_modify (P : Event -> bool) (f : State -> State) :
  (forall st, history (f st) = history st) -> only_calls P (modify f).
Proof. intros H. apply only_calls_quiet. exact H. Qed.

Lemma only_calls_RecordMetric (P : Event -> bool) (t : Ticker) (n : Z) :
  only_calls P (RecordMetric t n).
Proof. apply only_calls_modify. reflexivity. Qed.

Lemma only_calls_log (P : Event -> bool) (e : Event) :
  P e = true -> only_calls P (log e).
Proof. intros He st. exists [e]. split; [reflexivity|]. constructor; [exact He | constructor]. Qed.

Lemma only_calls_bind (P : Event -> bool) {A B} (m : M A) (k : A -> M B) :
  only_calls P m -> (forall a, only_calls P (k a)) -> only_calls P (bind m k).
Proof.
  intros Hm Hk st. unfold bind.
  destruct (Hm st) as (e1 & Hh1 & Hp1).
  destruct (m st) as [[a|f] st1]; cbn in Hh1.
  - destruct (Hk a st1) as (e2 & Hh2 & Hp2).
    exists (e1 ++ e2). split; [rewrite Hh2, Hh1, app_assoc; reflexivity|].
    apply Forall_app. auto.
  - exists e1. auto.
Qed.

Lemma only_calls_weaken (P Q : Event -> bool) {A} (m : M A) :
  (forall e, P e = true -> Q e = true) -> only_calls P m -> only_calls Q m.
Proof.
  intros HPQ Hm st. destruct (Hm st) as (evs & Hh & Hp).
  exists evs. split; [exact Hh|]. eapply Forall_impl; [exact Hp|]. exact HPQ.
Qed.

Create HintDb calls.

Ltac calls_step :=
  first
    [ apply only_calls_ret | apply only_calls_fault | apply only_calls_now
    | apply only_calls_gets | apply only_calls_assert | apply only_calls_RecordMetric
    | apply only_calls_modify; intros; reflexivity
    | apply only_calls_log; reflexivity
    | solve [auto with calls nocore]
    | apply only_calls_bind; [ | intros]
    | match goal with
      | |- only_calls _ (match ?x with _ => _ end) => destruct x
      end ].

Ltac calls_auto := repeat calls_step.

Section SharedCalls.

Variable P : Event -> bool.

Lemma only_calls_GetImpl cf key :
  (forall k r, P (EvGetImpl k r) = true) -> only_calls P (GetImpl cf key).
Proof.
  intros H. unfold GetImpl.
  apply only_calls_bind; [apply only_calls_now | intros n].
  apply only_calls_bind; [apply only_calls_log; apply H | intros; apply only_calls_ret].
Qed.

Lemma only_calls_IsShutingDown :
  (forall b, P (EvIsShutingDown b) = true) -> only_calls P IsShutingDown.
Proof.
  intros H. unfold IsShutingDown.
  apply only_calls_bind; [apply only_calls_now | intros n].
  apply only_calls_bind; [apply only_calls_log; apply H | intros; apply only_calls_ret].
Qed.

Lemma only_calls_IsDropped :
  (forall b, P (EvIsDropped b) = true) -> only_calls P IsDropped.
Proof.
  intros H. unfold IsDropped.
  apply only_calls_bind; [apply only_calls_now | intros n].
  apply only_calls_bind; [apply only_calls_log; apply H | intros; apply only_calls_ret].
Qed.

Lemma only_calls_NewCallback cfh key b nb : only_calls P (NewCallback cfh key b nb).
Proof. unfold NewCallback. calls_auto. Qed.

Lemma only_calls_BatchWriteNewIndices contexts :
  forall s, only_calls P (BatchWriteNewIndices contexts s).
Proof.
  intros s. apply only_calls_quiet. intros st.
  destruct (BatchWriteNewIndices contexts s st) as [r st'] eqn:H.
  apply BatchWriteNewIndices_builders in H. apply H.
Qed.

End SharedCalls.

#[local] Hint Resolve only_calls_NewCallback only_calls_BatchWriteNewIndices : calls.

(** *** The calls of the scan *)

Lemma scan_calls_GetImpl cf key : only_calls scan_call (GetImpl cf key).
Proof. apply only_calls_GetImpl. reflexivity. Qed.

Lemma scan_calls_IsShutingDown : only_calls scan_call IsShutingDown.
Proof. apply only_calls_IsShutingDown. reflexivity. Qed.

#[local] Hint Resolve scan_calls_GetImpl scan_calls_IsShutingDown : calls.

Lemma scan_calls_DiscardEntry key b d : only_calls scan_call (DiscardEntry key b d).
Proof. unfold DiscardEntry. calls_auto. Qed.

Lemma scan_calls_index {A} (v : list A) (n : Z) : only_calls scan_call (index v n).
Proof. unfold index. calls_auto. Qed.

Lemma scan_calls_OpenGCOutputShadow level : only_calls scan_call (OpenGCOutputShadow level).
Proof. unfold OpenGCOutputShadow. calls_auto. Qed.

Lemma scan_calls_FinishShadow b : only_calls scan_call (FinishShadow b).
Proof. unfold FinishShadow. calls_auto. Qed.

#[local] Hint Resolve scan_calls_DiscardEntry scan_calls_index scan_calls_OpenGCOutputShadow
  scan_calls_FinishShadow : calls.

Lemma scan_calls_RewriteFallback t l : only_calls scan_call (RewriteFallback t l).
Proof. unfold RewriteFallback, push_rewrite_batch. calls_auto. Qed.

Lemma scan_calls_RollOutputFile l : only_calls scan_call (RollOutputFile l).
Proof. unfold RollOutputFile, push_blob_file_builder. calls_auto. Qed.

Lemma scan_calls_RewriteToShadow level contexts l :
  only_calls scan_call (RewriteToShadow level contexts l).
Proof. unfold RewriteToShadow. calls_auto. Qed.

#[local] Hint Resolve scan_calls_RewriteFallback scan_calls_RollOutputFile
  scan_calls_RewriteToShadow : calls.

Lemma scan_calls_RewriteToBlobFile t level l :
  only_calls scan_call (RewriteToBlobFile t level l).
Proof. unfold RewriteToBlobFile. calls_auto. Qed.

#[local] Hint Resolve scan_calls_RewriteToBlobFile : calls.

Lemma scan_calls_RewriteLive t level l : only_calls scan_call (RewriteLive t level l).
Proof. unfold RewriteLive. calls_auto. Qed.

#[local] Hint Resolve scan_calls_RewriteLive : calls.

Lemma scan_calls_scan_body t l : only_calls scan_call (scan_body t l).
Proof. unfold scan_body. calls_auto. Qed.

Lemma scan_calls_scan_loop ts : forall l, only_calls scan_call (scan_loop ts l).
Proof.
  induction ts as [|t ts IH]; intros l; cbn [scan_loop].
  - calls_auto.
  - apply only_calls_bind; [apply scan_calls_scan_body | intros [brk l1]].
    destruct brk; [calls_auto | apply IH].
Qed.

Lemma scan_calls_FinishShadows builders : forall s, only_calls scan_call (FinishShadows builders s).
Proof.
  induction builders as [|[b|] rest IH]; intros s; cbn [FinishShadows].
  - calls_auto.
  - apply only_calls_bind; [apply scan_calls_FinishShadow | intros s1].
    destruct (negb (Status.ok s1)); [calls_auto | apply IH].
  - apply IH.
Qed.

Lemma scan_calls_open_readers files : forall s, only_calls scan_call (open_readers files s).
Proof.
  induction files as [|f rest IH]; intros s; cbn [open_readers].
  - calls_auto.
  - apply only_calls_bind; [apply only_calls_now | intros n].
    apply only_calls_bind; [apply only_calls_log; reflexivity | intros _].
    destruct (negb _); [calls_auto | apply IH].
Qed.

#[local] Hint Resolve scan_calls_scan_loop scan_calls_FinishShadows scan_calls_open_readers
  : calls.

Lemma scan_calls_AfterScan broke terminal l : only_calls scan_call (AfterScan broke terminal l).
Proof. unfold AfterScan, push_blob_file_builder. calls_auto. Qed.

Lemma scan_calls_BuildIterator : only_calls scan_call BuildIterator.
Proof. unfold BuildIterator. calls_auto. Qed.

#[local] Hint Resolve scan_calls_AfterScan scan_calls_BuildIterator : calls.

(** X12.  [Run] commits nothing.  Whatever the inputs and the answers of
    the engine, and whether it returns or stops on a failed assertion, its
    calls are shutdown polls, openings of readers, lookups, openings of output
    blob files and openings and finishings of shadow tables: it writes no
    batch to the LSM, publishes and deletes no blob file, does not sync the
    WAL, makes no manifest edit and does not touch the mutex. *)
Theorem Run_commits_nothing (st : State) :
  exists evs,
    history (Run st).2 = history st ++ evs /\
    Forall (fun e => scan_call e = true) evs /\
    Forall (fun e => ~ writes e /\ ~ publishes e /\ ~ syncs e /\ ~ obsoletes e /\
                     is_BatchDeleteFiles e = false /\ is_mutex e = false) evs.
Proof.
  assert (H : only_calls scan_call Run) by (unfold Run, DoRunGC; calls_auto).
  destruct (H st) as (evs & Hh & Hp). exists evs. split_and!; [exact Hh | exact Hp |].
  eapply Forall_impl; [exact Hp|]. intros e He. split_and!.
  - intros (wb & s & ->). discriminate.
  - intros (files & s & -> & _). discriminate.
  - intros (s & -> & _). discriminate.
  - intros (edit & s & ->). discriminate.
  - destruct e; try reflexivity; discriminate.
  - destruct e; try reflexivity; discriminate.
Qed.

(** *** The mutex during the commit *)

Lemma mutex_trace_app (a b : list Event) :
  mutex_trace (a ++ b) = mutex_trace a ++ mutex_trace b.
Proof. unfold mutex_trace. apply omap_app. Qed.

Lemma mutex_trace_unlock (evs : list Event) :
  mutex_trace (EvMutexUnlock :: evs) = false :: mutex_trace evs.
Proof. reflexivity. Qed.

Lemma mutex_trace_none (evs : list Event) :
  Forall (fun e => no_mutex e = true) evs -> mutex_trace evs = [].
Proof.
  induction 1 as [|e evs He _ IH]; [reflexivity|].
  unfold mutex_trace in *. cbn. rewrite IH. destruct e; try reflexivity; discriminate.
Qed.

Arguments mutex_trace : simpl never.

Lemma calm_GetImpl cf key : only_calls no_mutex (GetImpl cf key).
Proof. apply only_calls_GetImpl. reflexivity. Qed.

Lemma calm_IsShutingDown : only_calls no_mutex IsShutingDown.
Proof. apply only_calls_IsShutingDown. reflexivity. Qed.

Lemma calm_IsDropped : only_calls no_mutex IsDropped.
Proof. apply only_calls_IsDropped. reflexivity. Qed.

#[local] Hint Resolve calm_GetImpl calm_IsShutingDown calm_IsDropped : calls.

Lemma calm_Callback cb : only_calls no_mutex (Callback cb).
Proof. unfold Callback. calls_auto. Qed.

#[local] Hint Resolve calm_Callback : calls.

Lemma calm_WriteWithCallback wb cb : only_calls no_mutex (WriteWithCallback wb cb).
Proof. unfold WriteWithCallback. calls_auto. Qed.

#[local] Hint Resolve calm_WriteWithCallback : calls.

Lemma calm_RewriteLoop todo : forall done dropped s,
  only_calls no_mutex (RewriteLoop todo done dropped s).
Proof.
  induction todo as [|[wb cb] rest IH]; intros done dropped s; cbn [RewriteLoop].
  - calls_auto.
  - apply only_calls_bind; [apply calm_IsDropped | intros d].
    destruct d; [calls_auto|].
    apply only_calls_bind; [apply calm_IsShutingDown | intros sd].
    destruct sd; [calls_auto|].
    apply only_calls_bind; [apply calm_WriteWithCallback | intros [s1 cb1]].
    destruct (Status.ok s1).
    + apply only_calls_bind; [destruct (0 <? _); calls_auto | intros _].
      apply only_calls_bind; [apply only_calls_RecordMetric | intros _]. apply IH.
    + destruct (Status.IsBusy s1); [|calls_auto].
      do 3 (apply only_calls_bind; [apply only_calls_RecordMetric | intros _]). apply IH.
Qed.

Lemma calm_ApplyDropped entry : only_calls no_mutex (ApplyDropped entry).
Proof. destruct entry as [number [size orders]]. unfold ApplyDropped. calls_auto. Qed.

Lemma calm_ApplyAllDropped entries : only_calls no_mutex (ApplyAllDropped entries).
Proof.
  induction entries as [|e rest IH]; cbn [ApplyAllDropped].
  - calls_auto.
  - apply only_calls_bind; [apply calm_ApplyDropped | intros _; exact IH].
Qed.

Lemma calm_FlushWAL : only_calls no_mutex FlushWAL.
Proof. unfold FlushWAL. calls_auto. Qed.

Lemma calm_InstallLoop todo : forall done files s,
  only_calls is_BuilderFinish (InstallLoop todo done files s).
Proof.
  induction todo as [|[first second] rest IH]; intros done files s; cbn [InstallLoop].
  - calls_auto.
  - destruct second as [b|]; [|calls_auto].
    apply only_calls_bind; [apply only_calls_now | intros n].
    destruct (builder_Finish n b) as [[s1 b1] contexts].
    apply only_calls_bind; [apply only_calls_log; reflexivity | intros _].
    apply only_calls_bind; [apply only_calls_BatchWriteNewIndices | intros s2].
    destruct (negb (Status.ok s2)); [calls_auto|].
    apply only_calls_bind; [apply only_calls_RecordMetric | intros _].
    destruct first as [number|]; [apply IH | calls_auto].
Qed.

Lemma calm_InstallOutputBlobFiles : only_calls no_mutex InstallOutputBlobFiles.
Proof.
  unfold InstallOutputBlobFiles.
  apply only_calls_bind; [apply only_calls_gets | intros builders].
  apply only_calls_bind; [|intros [[s builders'] files]; calls_auto].
  eapply only_calls_weaken; [|apply calm_InstallLoop].
  intros []; cbn; congruence.
Qed.

Lemma calm_InstallOutputShadows : only_calls no_mutex InstallOutputShadows.
Proof. unfold InstallOutputShadows. calls_auto. Qed.

Lemma calm_DeleteInputBlobFiles : only_calls no_mutex DeleteInputBlobFiles.
Proof.
  intros st. destruct (DeleteInputBlobFiles_run st) as (m & ->).
  eexists. split; [reflexivity|]. repeat constructor.
Qed.

Lemma RewriteLoop_returns (todo : list (WriteBatch * GarbageCollectionWriteCallback)) :
  forall done dropped s st, exists r st', RewriteLoop todo done dropped s st = (Returns r, st').
Proof.
  induction todo as [|[wb cb] rest IH]; intros done dropped s st; [eexists _, _; reflexivity|].
  cbn [RewriteLoop]. unfold bind at 1. rewrite IsDropped_run.
  destruct (cfd_IsDropped _); [eexists _, _; reflexivity|].
  unfold bind at 1. rewrite IsShutingDown_run.
  destruct (shuting_down _); [eexists _, _; reflexivity|].
  unfold bind at 1. unfold WriteWithCallback, bind at 1.
  match goal with
  | |- context [Callback cb ?x] => destruct (Callback_returns cb x) as (s1 & n & ->)
  end.
  destruct (Status.ok s1) eqn:Hs1.
  - unfold bind, now, log, ret. cbn [history set_history].
    set (s2 := db_Commit _ wb).
    destruct (Status.ok s2).
    + destruct (0 <? _); cbn [RecordMetric modify]; apply IH.
    + destruct (Status.IsBusy s2); [cbn [RecordMetric modify]; apply IH|].
      eexists _, _; reflexivity.
  - unfold ret. rewrite Hs1.
    destruct (Status.IsBusy s1); [|eexists _, _; reflexivity].
    unfold bind. cbn [RecordMetric modify]. apply IH.
Qed.

Lemma ApplyAllDropped_returns (entries : list (Z * (Z * gset Z))) :
  forall st, exists st', ApplyAllDropped entries st = (Returns tt, st').
Proof.
  induction entries as [|[number [size orders]] rest IH]; intros st; [eexists; reflexivity|].
  cbn [ApplyAllDropped]. unfold bind at 1.
  assert (H : exists st1, ApplyDropped (number, (size, orders)) st = (Returns tt, st1)).
  { unfold ApplyDropped, bind. cbn [gets].
    destruct (storage st) as [files|]; [|eexists; reflexivity].
    destruct (files !! number); eexists; reflexivity. }
  destruct H as (st1 & ->). apply IH.
Qed.

(** The mutex calls of [RewriteValidKeyToLSM]: it always returns, and it
    takes the mutex once and releases it. *)
Lemma RewriteValidKeyToLSM_mutex (st : State) :
  exists s st' evs,
    RewriteValidKeyToLSM st = (Returns s, st') /\
    history st' = history st ++ evs /\ mutex_trace evs = [true; false].
Proof.
  unfold RewriteValidKeyToLSM, bind. cbn [gets].
  destruct (calm_RewriteLoop (rewrite_batches_ st) [] ∅ Status.OK st) as (e1 & He1 & Hc1).
  destruct (RewriteLoop_returns (rewrite_batches_ st) [] ∅ Status.OK st)
    as ([[s0 batches] dropped] & st1 & Hloop).
  rewrite Hloop in He1 |- *. cbn [snd] in He1. cbn [modify log].
  set (st2 := set_history _ _).
  destruct (calm_ApplyAllDropped (map_to_list dropped) st2) as (e2 & He2 & Hc2).
  destruct (ApplyAllDropped_returns (map_to_list dropped) st2) as (st3 & Hadj).
  rewrite Hadj in He2 |- *. cbn [snd] in He2.
  assert (Hh : history st3 ++ [EvMutexUnlock]
               = history st ++ e1 ++ [EvMutexLock] ++ e2 ++ [EvMutexUnlock]).
  { rewrite He2. unfold st2. cbn [history set_history set_rewrite_batches].
    rewrite He1, <- !app_assoc. reflexivity. }
  assert (Ht : forall tail, Forall (fun e => no_mutex e = true) tail ->
            mutex_trace (e1 ++ [EvMutexLock] ++ e2 ++ [EvMutexUnlock] ++ tail) = [true; false]).
  { intros tail Htail. rewrite !mutex_trace_app.
    rewrite (mutex_trace_none e1 Hc1), (mutex_trace_none e2 Hc2),
      (mutex_trace_none tail Htail). reflexivity. }
  destruct (Status.ok (if Status.IsBusy s0 then Status.OK else s0)).
  - unfold FlushWAL, bind, now, log, ret. cbn [history set_history].
    set (w := db_FlushWAL _).
    eexists _, _, (e1 ++ [EvMutexLock] ++ e2 ++ [EvMutexUnlock] ++ [EvFlushWAL w]).
    split_and!; [reflexivity | |].
    + cbn [history set_history]. rewrite Hh, <- !app_assoc. reflexivity.
    + apply Ht. repeat constructor.
  - eexists _, _, (e1 ++ [EvMutexLock] ++ e2 ++ [EvMutexUnlock] ++ []).
    split_and!; [reflexivity | |].
    + cbn [history set_history]. rewrite Hh, app_nil_r. reflexivity.
    + apply Ht. constructor.
Qed.

(** The end of [Finish] always returns; it takes the mutex and keeps it. *)
Lemma FinishTail_mutex (s : Status.t) (st : State) :
  exists s' st' evs,
    FinishTail s st = (Returns s', st') /\
    history st' = history st ++ evs /\ mutex_trace evs = [true].
Proof.
  unfold FinishTail, bind at 1. cbn [log].
  set (st1 := set_history _ st).
  assert (Hmid : exists s1 st2 e,
            (if Status.ok s
             then bind IsDropped (fun d => if negb d then DeleteInputBlobFiles else ret s)
             else ret s) st1 = (Returns s1, st2) /\
            history st2 = history st1 ++ e /\ Forall (fun e => no_mutex e = true) e).
  { destruct (Status.ok s).
    - unfold bind. rewrite IsDropped_run.
      destruct (cfd_IsDropped _); cbn [negb].
      + eexists _, _, [_]. split_and!; [reflexivity | reflexivity | repeat constructor].
      + match goal with
        | |- context [DeleteInputBlobFiles ?x] =>
            destruct (DeleteInputBlobFiles_run x) as (m & ->)
        end.
        eexists _, _, (_ :: _). split_and!; [reflexivity | |].
        * cbn [history set_history set_metrics]. rewrite <- app_assoc. reflexivity.
        * repeat constructor.
    - exists s, st1, []. rewrite app_nil_r. split_and!; auto. }
  destruct Hmid as (s1 & st2 & e & Hrun & He & Hc).
  unfold bind at 1. rewrite Hrun.
  assert (Ht : forall tail, Forall (fun e => no_mutex e = true) tail ->
            mutex_trace ([EvMutexLock] ++ e ++ tail) = [true]).
  { intros tail Htail. rewrite !mutex_trace_app.
    rewrite (mutex_trace_none e Hc), (mutex_trace_none tail Htail). reflexivity. }
  destruct (Status.ok s1); unfold bind, UpdateInternalOpStats, log, ret.
  - eexists _, _, ([EvMutexLock] ++ e ++ [EvUpdateInternalOpStats]).
    split_and!; [reflexivity | |].
    + cbn [history set_history]. rewrite He. unfold st1. cbn [history set_history].
      rewrite <- !app_assoc. reflexivity.
    + apply Ht. repeat constructor.
  - eexists _, _, ([EvMutexLock] ++ e ++ []).
    split_and!; [reflexivity | |].
    + rewrite He. unfold st1. cbn [history set_history].
      rewrite app_nil_r, <- !app_assoc. reflexivity.
    + apply Ht. constructor.
Qed.

Lemma Finish_mutex_run (st : State) :
  exists o st' evs,
    Finish st = (o, st') /\ history st' = history st ++ evs /\
    match o with
    | Returns _ =>
        mutex_trace evs = [false; true] \/ mutex_trace evs = [false; true; false; true]
    | Faults _ => mutex_trace evs = [false]
    end.
Proof.
  rewrite Finish_unfold. unfold bind at 1. cbn [log].
  set (st0 := set_history (history st ++ [EvMutexUnlock]) st).
  assert (H0 : history st0 = history st ++ [EvMutexUnlock]) by reflexivity.
  clearbody st0. unfold bind at 1.
  destruct (calm_InstallOutputBlobFiles st0) as (e1 & He1 & Hc1).
  pose proof (mutex_trace_none e1 Hc1) as Ht1.
  destruct (InstallOutputBlobFiles st0) as [[s|f] st1]; cbn [snd] in He1.
  2:{ exists (Faults f), st1, ([EvMutexUnlock] ++ e1). split_and!.
      - reflexivity.
      - rewrite He1, H0, <- app_assoc. reflexivity.
      - rewrite mutex_trace_app, Ht1. reflexivity. }
  assert (Htail : forall s1 st2 e2,
            history st2 = history st1 ++ e2 ->
            (mutex_trace e2 = [] \/ mutex_trace e2 = [true; false]) ->
            exists o st' evs,
              FinishTail s1 st2 = (o, st') /\ history st' = history st ++ evs /\
              match o with
              | Returns _ =>
                  mutex_trace evs = [false; true] \/
                  mutex_trace evs = [false; true; false; true]
              | Faults _ => mutex_trace evs = [false]
              end).
  { intros s1 st2 e2 He2 Ht2.
    destruct (FinishTail_mutex s1 st2) as (s2 & st3 & e3 & -> & He3 & Ht3).
    exists (Returns s2), st3, ([EvMutexUnlock] ++ e1 ++ e2 ++ e3). split_and!.
    - reflexivity.
    - rewrite He3, He2, He1, H0, <- !app_assoc. reflexivity.
    - rewrite !mutex_trace_app, Ht1, Ht3.
      destruct Ht2 as [-> | ->]; [left|right]; reflexivity. }
  unfold FinishRest, bind at 1.
  destruct (Status.ok s).
  - destruct (negb (rewrite_shadow cf_options)).
    + destruct (RewriteValidKeyToLSM_mutex st1) as (s1 & st2 & e2 & -> & He2 & Ht2).
      apply (Htail s1 st2 e2 He2). auto.
    + unfold InstallOutputShadows, bind, modify, ret.
      eapply (Htail _ _ []); [rewrite app_nil_r; reflexivity | auto].
  - unfold ret. eapply (Htail _ _ []); [rewrite app_nil_r; reflexivity | auto].
Qed.

(** X13.  The mutex during [Finish].  The job holds the mutex when [Finish]
    is called.  [Finish] releases it first and, when it returns, holds it
    again: its mutex calls are Unlock, Lock when the new indices do not go to
    the LSM or the installation of the output files has failed, and Unlock,
    Lock, Unlock, Lock otherwise (the second pair is the update of the blob
    storage in [RewriteValidKeyToLSM]).  The mutex is never taken twice in a
    row.  When [Finish] does not return, its only mutex call is the first
    Unlock. *)
Theorem Finish_mutex (st : State) :
  exists evs,
    history (Finish st).2 = history st ++ evs /\
    match (Finish st).1 with
    | Returns _ =>
        mutex_trace evs = [false; true] \/ mutex_trace evs = [false; true; false; true]
    | Faults _ => mutex_trace evs = [false]
    end.
Proof.
  destruct (Finish_mutex_run st) as (o & st' & evs & -> & Hh & Ht).
  exists evs. split; [exact Hh | exact Ht].
Qed.

(** *** The installation of the output files *)

(** X14.  The calls of [InstallOutputBlobFiles]: builders are finished, and
    then at most one call to the blob file manager is made.  When the
    function returns it has either called [BatchFinishFiles], and returns the
    answer of that call, or it has called [BatchDeleteFiles], and returns an
    error.  It never makes both calls; [BatchDeleteFiles] is not called once
    [BatchFinishFiles] has been, whatever that answered. *)
Theorem InstallOutputBlobFiles_calls (st : State) :
  exists pre tail,
    history (InstallOutputBlobFiles st).2 = history st ++ pre ++ tail /\
    Forall (fun e => is_BuilderFinish e = true) pre /\
    match (InstallOutputBlobFiles st).1 with
    | Returns s =>
        (exists files, tail = [EvBatchFinishFiles files s]) \/
        (exists handles s', tail = [EvBatchDeleteFiles handles s'] /\ Status.ok s = false)
    | Faults _ => tail = []
    end.
Proof.
  unfold InstallOutputBlobFiles, bind. cbn [gets].
  destruct (calm_InstallLoop (blob_file_builders_ st) [] [] Status.OK st) as (pre & Hpre & Hp).
  destruct (InstallLoop _ _ _ _ st) as [[[[s0 builders] files]|f] st1]; cbn [snd] in Hpre.
  2:{ exists pre, []. cbn. rewrite app_nil_r. auto. }
  cbn [modify].
  destruct (Status.ok s0) eqn:Hs0.
  - cbn [now log]. set (s1 := bfm_BatchFinishFiles _ _ _).
    exists pre, [EvBatchFinishFiles (map file_number files) s1].
    destruct (Status.ok s1); cbn; rewrite Hpre, <- app_assoc; split_and!; eauto.
  - destruct (collect_handles builders) as [handles|].
    + exists pre, [EvBatchDeleteFiles handles
                     (bfm_BatchDeleteFiles (length (history st1)) handles)].
      cbn. rewrite Hpre, <- app_assoc. split_and!; eauto.
    + exists pre, []. cbn. rewrite Hpre, app_nil_r. auto.
Qed.

Lemma BatchWriteNewIndices_state (contexts : list BlobRecordContext) :
  forall (s : Status.t) (st : State) r st',
    BatchWriteNewIndices contexts s st = (r, st') ->
    exists new, st' = set_rewrite_batches (rewrite_batches_ st ++ new) st.
Proof.
  induction contexts as [|ctx rest IH]; intros s st r st' H.
  - injection H as <- <-. exists []. rewrite app_nil_r. destruct st. reflexivity.
  - cbn [BatchWriteNewIndices] in H.
    destruct (ParseInternalKey (ctx_key ctx)) as [s1 ikey].
    destruct (Status.ok s1); cbn [negb] in H.
    2:{ injection H as <- <-. exists []. rewrite app_nil_r. destruct st. reflexivity. }
    unfold bind, NewCallback, assert, fault, ret in H.
    destruct (assertions_enabled && negb (negb (String.eqb (user_key ikey) EmptyString))).
    { injection H as <- <-. exists []. rewrite app_nil_r. destruct st. reflexivity. }
    destruct (WriteBatchInternal_PutBlobIndex [] (cf_id blob_gc_) (user_key ikey) _)
      as [s2 wb].
    cbn in H.
    destruct (Status.ok s2); cbn [negb] in H.
    + apply IH in H. destruct H as (new & ->). eexists (_ :: new).
      cbn. rewrite <- app_assoc. reflexivity.
    + injection H as <- <-. eexists [_]. reflexivity.
Qed.

Lemma InstallLoop_ok (todo : list (option Z * option Builder)) :
  forall done files s st s' builders files' st',
    InstallLoop todo done files s st = (Returns (s', builders, files'), st') ->
    Status.ok s' = true ->
    exists new evs,
      files' = files ++ new /\
      Forall2 (fun b f => b.1 = Some (file_number f) /\ file_state f = kPendingGCOutput)
              todo new /\
      history st' = history st ++ evs /\ length evs = length todo /\
      Forall (fun e => is_BuilderFinish e = true) evs /\
      builders.*1 = done.*1 ++ replicate (length todo) None /\
      outputs st' = outputs st /\ storage st' = storage st.
Proof.
  induction todo as [|[first second] rest IH];
    intros done files s st s' builders files' st' H Hs'.
  - injection H as <- <- <- <-. exists [], []. rewrite !app_nil_r. split_and!; auto.
  - cbn [InstallLoop] in H. destruct second as [b|]; [|discriminate].
    unfold bind at 1 in H. cbn [now] in H.
    destruct (builder_Finish (length (history st)) b) as [[s1 b1] contexts].
    unfold bind at 1 in H. cbn [log] in H. unfold bind at 1 in H.
    destruct (BatchWriteNewIndices contexts s1 _) as [[s2|f] st1] eqn:Hbw; [|discriminate].
    apply BatchWriteNewIndices_builders in Hbw as Hframe. destruct Hframe as [_ Hh1].
    assert (Hst1 : outputs st1 = outputs st /\ storage st1 = storage st).
    { destruct (BatchWriteNewIndices_state contexts s1 _ _ _ Hbw) as (new & ->). auto. }
    cbn [history set_history] in Hh1.
    destruct (Status.ok s2) eqn:Hs2; cbn [negb] in H.
    2:{ injection H as <- <- <- <-. congruence. }
    unfold bind at 1 in H. cbn [RecordMetric modify] in H.
    destruct first as [number|]; [|discriminate].
    apply IH in H; [|exact Hs']. destruct H as (new & evs & -> & Hnew & Hh & Hlen & Hev & Hb & Ho & Hsto).
    eexists (_ :: new), (EvBuilderFinish s1 :: evs). split_and!.
    + rewrite <- app_assoc. reflexivity.
    + constructor; [|exact Hnew]. split; reflexivity.
    + rewrite Hh. cbn [history set_metrics]. rewrite Hh1, <- app_assoc. reflexivity.
    + cbn. rewrite Hlen. reflexivity.
    + constructor; [reflexivity | exact Hev].
    + rewrite Hb, fmap_app. cbn. rewrite <- app_assoc. reflexivity.
    + rewrite Ho. apply Hst1.
    + rewrite Hsto. apply Hst1.
Qed.

(** X15.  An installation that returns OK.  Every registered builder has
    been finished, once and in order, and then one [BatchFinishFiles] has been
    called with a file for each of them, under the number of its handle and in
    the order of the builders; these numbers have been added to the outputs of
    the job (line 740).  Every handle has been moved out of
    [blob_file_builders_]. *)
Theorem InstallOutputBlobFiles_published (st : State) s st' :
  InstallOutputBlobFiles st = (Returns s, st') -> Status.ok s = true ->
  exists numbers pre,
    Forall2 (fun b n => b.1 = Some n) (blob_file_builders_ st) numbers /\
    history st' = history st ++ pre ++ [EvBatchFinishFiles numbers s] /\
    length pre = length (blob_file_builders_ st) /\
    Forall (fun e => is_BuilderFinish e = true) pre /\
    outputs st' = outputs st ++ numbers /\
    (blob_file_builders_ st').*1 = replicate (length (blob_file_builders_ st)) None.
Proof.
  unfold InstallOutputBlobFiles, bind. cbn [gets].
  destruct (InstallLoop _ _ _ _ st) as [[[[s0 builders] files]|f] st1] eqn:Hloop;
    [|discriminate].
  cbn [modify].
  destruct (Status.ok s0) eqn:Hs0.
  - apply InstallLoop_ok in Hloop; [|exact Hs0].
    destruct Hloop as (new & pre & Hfiles & Hnew & Hh & Hlen & Hev & Hb & Ho & _).
    cbn [app] in Hfiles. subst files.
    cbn [now log history set_blob_file_builders]. set (s1 := bfm_BatchFinishFiles _ _ _).
    destruct (Status.ok s1) eqn:Hs1; cbn; intros H Hs; injection H as <- <-; [|congruence].
    exists (map file_number new), pre. cbn. split_and!; auto.
    + clear - Hnew. induction Hnew as [|b f bs fs [Hb _] _ IH]; constructor; auto.
    + rewrite Hh, <- app_assoc. reflexivity.
    + rewrite Ho. reflexivity.
  - destruct (collect_handles builders); [|discriminate].
    cbn. intros H Hs. injection H as <- <-. congruence.
Qed.

(** *** The manifest edit that marks the inputs obsolete *)

Lemma u64_add_l (a b : Z) : u64 (u64 a + b) = u64 (a + b).
Proof. unfold u64. apply Zplus_mod_idemp_l. Qed.

Lemma obsolete_edit_counts (files : list BlobFileMeta) (seq : Z) : forall st,
  exists m,
    obsolete_edit files seq st =
      (Returns (map (fun f => (file_number f, seq))
                    (List.filter (fun f => negb (is_obsolete f)) files)),
       set_metrics m st) /\
    u64 (m gc_num_files) = u64 (metrics_ st gc_num_files + Z.of_nat (length files)) /\
    (forall t, t <> gc_num_files -> m t = metrics_ st t).
Proof.
  induction files as [|f rest IH]; intros st.
  - exists (metrics_ st). destruct st. cbn. rewrite Z.add_0_r. auto.
  - cbn [obsolete_edit]. unfold bind. cbn [RecordMetric modify].
    destruct (IH (set_metrics (bump gc_num_files 1 (metrics_ st)) st)) as (m & -> & Hm & Ho).
    exists m. cbn [metrics_ set_metrics] in *. split_and!.
    + cbn [List.filter]. destruct (is_obsolete f); reflexivity.
    + rewrite Hm. unfold bump. destruct (decide _); [|congruence].
      rewrite u64_add_l. f_equal. cbn [length]. lia.
    + intros t Ht. rewrite (Ho t Ht). unfold bump. destruct (decide _); congruence.
Qed.

(** X16.  [DeleteInputBlobFiles] makes two calls: it reads the latest
    sequence number and applies one manifest edit, whose status it returns.
    The edit is for the column family of the job and deletes, at that
    sequence number, exactly the inputs that are not already obsolete, in the
    order of the inputs.  Every input is counted in [gc_num_files], obsolete
    or not; no other counter moves and nothing else of the job changes. *)
Theorem DeleteInputBlobFiles_edit (st : State) :
  exists seq edit s m,
    DeleteInputBlobFiles st =
      (Returns s,
       set_history (history st ++ [EvGetLatestSequenceNumber seq; EvLogAndApply edit s])
         (set_metrics m st)) /\
    seq = db_GetLatestSequenceNumber (length (history st)) /\
    s = LogAndApply (S (length (history st))) edit /\
    edit_cf edit = cf_id blob_gc_ /\
    (edit_deleted edit).*1 = map file_number
                             (List.filter (fun f => negb (is_obsolete f)) (inputs blob_gc_)) /\
    (forall number sq, (number, sq) ∈ edit_deleted edit <->
       sq = seq /\ exists f, f ∈ inputs blob_gc_ /\ file_number f = number /\
                             is_obsolete f = false) /\
    u64 (m gc_num_files)
      = u64 (metrics_ st gc_num_files + Z.of_nat (length (inputs blob_gc_))) /\
    (forall t, t <> gc_num_files -> m t = metrics_ st t).
Proof.
  unfold DeleteInputBlobFiles, bind. cbn [now log].
  set (seq := db_GetLatestSequenceNumber (length (history st))).
  destruct (obsolete_edit_counts (inputs blob_gc_) seq
              (set_history (history st ++ [EvGetLatestSequenceNumber seq]) st))
    as (m & -> & Hm & Ho).
  cbn [history set_history set_metrics]. rewrite length_snoc.
  set (edit := {| edit_cf := _; edit_deleted := _ |}).
  exists seq, edit, (LogAndApply (S (length (history st))) edit), m.
  cbn [metrics_ set_history] in Hm, Ho. split_and!; auto.
  - rewrite <- app_assoc. reflexivity.
  - unfold edit. cbn. rewrite <- list_fmap_compose. reflexivity.
  - intros number sq. unfold edit. cbn. rewrite list_elem_of_fmap. split.
    + intros (f & Heq & Hin). injection Heq as -> ->.
      apply list_elem_of_In, filter_In in Hin as [Hin Hobs].
      split; [reflexivity|]. exists f. split_and!; auto.
      * apply list_elem_of_In. exact Hin.
      * apply negb_true_iff. exact Hobs.
    + intros (-> & f & Hin & <- & Hobs). exists f. split; [reflexivity|].
      apply list_elem_of_In, filter_In. split; [apply list_elem_of_In; exact Hin|].
      rewrite Hobs. reflexivity.
Qed.

(** *** The loop of the rewrite *)

Lemma u64_sum_1 (a b c : Z) : u64 (u64 (a + 1) + b + c) = u64 (a + b + c + 1).
Proof. rewrite <- Z.add_assoc, u64_add_l. f_equal. lia. Qed.

Lemma u64_sum_2 (a b c : Z) : u64 (a + u64 (b + 1) + c) = u64 (a + b + c + 1).
Proof.
  replace (a + u64 (b + 1) + c) with (u64 (b + 1) + (a + c)) by lia.
  rewrite u64_add_l. f_equal. lia.
Qed.

Lemma u64_sum_3 (a b c : Z) : u64 (a + b + u64 (c + 1)) = u64 (a + b + c + 1).
Proof.
  replace (a + b + u64 (c + 1)) with (u64 (c + 1) + (a + b)) by lia.
  rewrite u64_add_l. f_equal. lia.
Qed.


(** X17.  A loop of [RewriteValidKeyToLSM] that ends with OK or Busy has
    visited every batch, and has counted each batch once in one of
    [gc_num_keys_relocated], [gc_num_keys_fallback] and
    [gc_num_keys_overwritten_callback] (counters of 64 bits): their sum has
    grown by the number of batches.  The batches are kept, in their order. *)
Theorem rewrite_counts_each_batch_once
  (todo : list (WriteBatch * GarbageCollectionWriteCallback)) :
  forall done dropped s0 st s batches dropped' st',
    RewriteLoop todo done dropped s0 st = (Returns (s, batches, dropped'), st') ->
    Status.ok s || Status.IsBusy s = true ->
    u64 (keys_counted st') = u64 (keys_counted st + Z.of_nat (length todo)) /\
    batches.*1 = done.*1 ++ todo.*1.
Proof.
  induction todo as [|[wb cb] rest IH]; intros done dropped s0 st s batches dropped' st' H Hs.
  - injection H as <- <- <- <-. cbn. rewrite Z.add_0_r, app_nil_r. auto.
  - cbn [RewriteLoop] in H. unfold bind at 1 in H. rewrite IsDropped_run in H.
    destruct (cfd_IsDropped _); [injection H as <- <- <- <-; discriminate|].
    unfold bind at 1 in H. rewrite IsShutingDown_run in H.
    destruct (shuting_down _); [injection H as <- <- <- <-; discriminate|].
    unfold bind at 1 in H. unfold WriteWithCallback, bind at 1 in H.
    match type of H with
    | context [Callback cb ?x] => destruct (Callback_returns cb x) as (s1 & n & Hcb)
    end.
    rewrite Hcb in H.
    assert (Hstep : forall st2 cb1 dr,
              (exists s2, RewriteLoop rest (done ++ [(wb, cb1)]) dr s2 st2
                = (Returns (s, batches, dropped'), st')) ->
              u64 (keys_counted st2) = u64 (keys_counted st + 1) ->
              u64 (keys_counted st') = u64 (keys_counted st + Z.of_nat (length ((wb, cb) :: rest)))
              /\ batches.*1 = done.*1 ++ ((wb, cb) :: rest).*1).
    { intros st2 cb1 dr (s2 & Hrun) H2.
      apply IH in Hrun; auto. destruct Hrun as [Hc Hb]. split.
      - rewrite Hc, <- u64_add_l, H2, u64_add_l. f_equal. cbn [length]. lia.
      - rewrite Hb, fmap_app. cbn. rewrite <- app_assoc. reflexivity. }
    destruct (Status.ok s1) eqn:Hs1.
    + unfold bind, now, log, ret in H. cbn [history set_history] in H.
      set (s2 := db_Commit _ wb) in H.
      destruct (Status.ok s2) eqn:Hs2.
      * destruct (0 <? _); cbn [RecordMetric modify] in H.
        -- eapply Hstep; [eexists; exact H|].
           unfold keys_counted, bump. cbn. apply u64_sum_1.
        -- eapply Hstep; [eexists; exact H|].
           unfold keys_counted, bump. cbn. apply u64_sum_2.
      * destruct (Status.IsBusy s2) eqn:Hb2.
        -- cbn [RecordMetric modify] in H.
           eapply Hstep; [eexists; exact H|].
           unfold keys_counted, bump. cbn. apply u64_sum_3.
        -- injection H as <- <- <- <-. rewrite Hs2, Hb2 in Hs. discriminate.
    + unfold ret in H. rewrite Hs1 in H.
      destruct (Status.IsBusy s1) eqn:Hb1.
      * unfold bind in H. cbn [RecordMetric modify] in H.
        eapply Hstep; [eexists; exact H|].
        unfold keys_counted, bump. cbn. apply u64_sum_3.
      * injection H as <- <- <- <-. rewrite Hs1, Hb1 in Hs. discriminate.
Qed.

Lemma RewriteValidKeyToLSM_dropped
  (wb : WriteBatch) (cb : GarbageCollectionWriteCallback)
  (rest : list (WriteBatch * GarbageCollectionWriteCallback)) (st : State) :
  rewrite_batches_ st = (wb, cb) :: rest ->
  cfd_IsDropped (length (history st)) = true ->
  RewriteValidKeyToLSM st
    = (Returns (Status.Aborted "Column family drop"),
       set_history (history st ++ [EvIsDropped true; EvMutexLock; EvMutexUnlock]) st).
Proof.
  intros Hb Hd.
  unfold RewriteValidKeyToLSM, bind. cbn [gets]. rewrite Hb.
  cbn [RewriteLoop]. unfold bind at 1. rewrite IsDropped_run, Hd.
  cbn [ret modify log]. rewrite map_to_list_empty.
  cbn. rewrite <- Hb, <- !app_assoc. destruct st. reflexivity.
Qed.

(** X18.  The loop of [RewriteValidKeyToLSM] tests, before every batch,
    whether the column family is dropped and then whether the job is shutting
    down.  In the first case it stops with Aborted "Column family drop", in
    the second with ShutdownInProgress: the batch and those after it are not
    written and their callbacks are not called, the entries of [dropped] made
    so far are kept.  The function then still takes and releases the mutex
    for these entries, does not sync the WAL and returns that status. *)
Theorem rewrite_stops_when_dropped_or_shut
  (wb : WriteBatch) (cb : GarbageCollectionWriteCallback)
  (rest done : list (WriteBatch * GarbageCollectionWriteCallback))
  (dropped : gmap Z (Z * gset Z)) (s0 : Status.t) (st : State) :
  cfd_IsDropped (length (history st)) = true \/
  (cfd_IsDropped (length (history st)) = false /\
   shuting_down (S (length (history st))) = true) ->
  exists s polls,
    RewriteLoop ((wb, cb) :: rest) done dropped s0 st
      = (Returns (s, done ++ (wb, cb) :: rest, dropped),
         set_history (history st ++ polls) st) /\
    ((s = Status.Aborted "Column family drop" /\ polls = [EvIsDropped true]) \/
     (s = Status.ShutdownInProgress /\ polls = [EvIsDropped false; EvIsShutingDown true])) /\
    Status.ok s = false /\ Status.IsBusy s = false /\
    (rewrite_batches_ st = (wb, cb) :: rest -> done = [] -> dropped = ∅ ->
     s0 = Status.OK ->
     RewriteValidKeyToLSM st
       = (Returns s, set_history (history st ++ polls ++ [EvMutexLock; EvMutexUnlock]) st)).
Proof.
  intros Hstop.
  assert (Hloop : exists s polls,
    RewriteLoop ((wb, cb) :: rest) done dropped s0 st
      = (Returns (s, done ++ (wb, cb) :: rest, dropped),
         set_history (history st ++ polls) st) /\
    ((s = Status.Aborted "Column family drop" /\ polls = [EvIsDropped true]) \/
     (s = Status.ShutdownInProgress /\ polls = [EvIsDropped false; EvIsShutingDown true])) /\
    Status.ok s = false /\ Status.IsBusy s = false).
  { cbn [RewriteLoop]. unfold bind at 1. rewrite IsDropped_run.
    destruct Hstop as [-> | [-> Hsd]].
    - eexists _, _. split_and!; [reflexivity | left; auto | reflexivity | reflexivity].
    - unfold bind at 1. rewrite IsShutingDown_run. cbn [history set_history].
      rewrite length_snoc, Hsd.
      eexists _, [_; _]. cbn [ret set_history history]. rewrite <- app_assoc.
      split_and!; [reflexivity | right; auto | reflexivity | reflexivity]. }
  destruct Hloop as (s & polls & Hrun & Hcase & Hok & Hbusy).
  exists s, polls. split_and!; auto.
  intros Hb -> -> ->. unfold RewriteValidKeyToLSM, bind. cbn [gets].
  rewrite Hb, Hrun. cbn [modify log]. rewrite Hbusy, Hok, map_to_list_empty.
  cbn. rewrite <- Hb, <- !app_assoc. destruct st. reflexivity.
Qed.

Lemma no_sync_in_phase_1 (evs : list Event) :
  Forall (in_phases 1 1) evs -> List.filter is_FlushWAL evs = [].
Proof.
  induction 1 as [|e evs He _ IH]; [reflexivity|].
  cbn [List.filter]. rewrite IH.
  destruct e; try reflexivity. specialize (He 2%nat eq_refl). lia.
Qed.

(** X19.  [RewriteValidKeyToLSM] always returns.  It syncs the WAL at most
    once, as its last call, and exactly when its loop has ended with OK or
    Busy: it then returns the answer of the sync.  In particular it returns
    OK only as the answer of a sync; when the loop has ended otherwise, its
    status is returned and nothing is synced. *)
Theorem RewriteValidKeyToLSM_sync (st : State) :
  exists s st' evs,
    RewriteValidKeyToLSM st = (Returns s, st') /\
    history st' = history st ++ evs /\
    ((List.filter is_FlushWAL evs = [EvFlushWAL s] /\ last evs = Some (EvFlushWAL s)) \/
     (List.filter is_FlushWAL evs = [] /\ Status.ok s = false /\ Status.IsBusy s = false)).
Proof.
  unfold RewriteValidKeyToLSM, bind. cbn [gets].
  destruct (staged_RewriteLoop (rewrite_batches_ st) [] ∅ Status.OK st) as (e1 & He1 & Hp1 & _).
  destruct (RewriteLoop_returns (rewrite_batches_ st) [] ∅ Status.OK st)
    as ([[s0 batches] dropped] & st1 & Hloop).
  rewrite Hloop in He1 |- *. cbn [snd] in He1. cbn [modify log].
  set (st2 := set_history _ _).
  destruct (staged_ApplyAllDropped 1 1 (map_to_list dropped) ltac:(lia) st2)
    as (e2 & He2 & Hp2 & _).
  destruct (ApplyAllDropped_returns (map_to_list dropped) st2) as (st3 & Hadj).
  rewrite Hadj in He2 |- *. cbn [snd] in He2.
  assert (Hh : history st3 ++ [EvMutexUnlock]
               = history st ++ e1 ++ [EvMutexLock] ++ e2 ++ [EvMutexUnlock]).
  { rewrite He2. unfold st2. cbn [history set_history set_rewrite_batches].
    rewrite He1, <- !app_assoc. reflexivity. }
  assert (Hf : forall tail,
            List.filter is_FlushWAL (e1 ++ [EvMutexLock] ++ e2 ++ [EvMutexUnlock] ++ tail)
            = List.filter is_FlushWAL tail).
  { intros tail. rewrite !List.filter_app.
    rewrite (no_sync_in_phase_1 e1 Hp1), (no_sync_in_phase_1 e2 Hp2). reflexivity. }
  destruct (Status.IsBusy s0) eqn:Hb0.
  - change (Status.ok Status.OK) with true. cbv iota.
    unfold FlushWAL, bind, now, log, ret. cbn [history set_history].
    set (w := db_FlushWAL _).
    eexists w, _, (e1 ++ [EvMutexLock] ++ e2 ++ [EvMutexUnlock] ++ [EvFlushWAL w]).
    split_and!; [reflexivity | |].
    + cbn [history set_history]. rewrite Hh, <- !app_assoc. reflexivity.
    + left. rewrite Hf. split; [reflexivity|].
      rewrite !app_assoc. apply last_snoc.
  - destruct (Status.ok s0) eqn:Hs0.
    + unfold FlushWAL, bind, now, log, ret. cbn [history set_history].
      set (w := db_FlushWAL _).
      eexists w, _, (e1 ++ [EvMutexLock] ++ e2 ++ [EvMutexUnlock] ++ [EvFlushWAL w]).
      split_and!; [reflexivity | |].
      * cbn [history set_history]. rewrite Hh, <- !app_assoc. reflexivity.
      * left. rewrite Hf. split; [reflexivity|].
        rewrite !app_assoc. apply last_snoc.
    + eexists s0, _, (e1 ++ [EvMutexLock] ++ e2 ++ [EvMutexUnlock] ++ []).
      split_and!; [reflexivity | |].
      * cbn [history set_history ret]. rewrite Hh, app_nil_r. reflexivity.
      * right. rewrite Hf. auto.
Qed.

(** *** The end of the commit *)

Lemma tail_calls_FinishTail (s : Status.t) : only_calls tail_call (FinishTail s).
Proof.
  unfold FinishTail.
  apply only_calls_bind; [apply only_calls_log; reflexivity | intros _].
  apply only_calls_bind; [|intros s1].
  - destruct (Status.ok s); [|calls_auto].
    apply only_calls_bind; [apply only_calls_IsDropped; reflexivity | intros d].
    destruct (negb d); [|calls_auto].
    intros st. destruct (DeleteInputBlobFiles_run st) as (m & ->).
    eexists. split; [reflexivity|]. repeat constructor.
  - unfold UpdateInternalOpStats. calls_auto.
Qed.

Lemma install_calls_InstallOutputBlobFiles : only_calls install_call InstallOutputBlobFiles.
Proof.
  unfold InstallOutputBlobFiles.
  apply only_calls_bind; [apply only_calls_gets | intros builders].
  apply only_calls_bind; [|intros [[s builders'] files]; calls_auto].
  eapply only_calls_weaken; [|apply calm_InstallLoop].
  intros []; cbn; congruence.
Qed.

(** ** The order of the commit *)

Lemma handles_of_files (todo : list (option Z * option Builder)) (new : list BlobFileMeta) :
  Forall2 (fun b f => b.1 = Some (file_number f) /\ file_state f = kPendingGCOutput)
          todo new ->
  omap fst todo = map file_number new.
Proof.
  induction 1 as [|b f bs fs [Hb _] _ IH]; [reflexivity|].
  cbn. rewrite Hb. cbn. f_equal. exact IH.
Qed.

(** An installation that returns OK has finished the registered builders and
    then published the files of exactly these builders. *)
Lemma InstallOutputBlobFiles_numbers (st : State) s st' :
  InstallOutputBlobFiles st = (Returns s, st') -> Status.ok s = true ->
  exists pre,
    history st' = history st ++ pre ++ [EvBatchFinishFiles (output_numbers st) s] /\
    Forall (fun e => is_BuilderFinish e = true) pre.
Proof.
  unfold InstallOutputBlobFiles, bind. cbn [gets].
  destruct (InstallLoop _ _ _ _ st) as [[[[s0 builders] files]|f] st1] eqn:Hloop;
    [|discriminate].
  cbn [modify].
  destruct (Status.ok s0) eqn:Hs0.
  - apply InstallLoop_ok in Hloop; [|exact Hs0].
    destruct Hloop as (new & pre & Hfiles & Hnew & Hh & _ & Hev & _).
    cbn [app] in Hfiles. subst files.
    cbn [now log history set_blob_file_builders]. set (s1 := bfm_BatchFinishFiles _ _ _).
    destruct (Status.ok s1) eqn:Hs1; cbn; intros H Hs; injection H as <- <-; [|congruence].
    exists pre. cbn. split; [|exact Hev].
    unfold output_numbers. rewrite (handles_of_files _ _ Hnew), Hh, <- app_assoc.
    reflexivity.
  - destruct (collect_handles builders); [|discriminate].
    cbn. intros H Hs. injection H as <- <-. congruence.
Qed.

(** The calls of [Finish]: the first Unlock, the calls [e1] of the
    installation and the calls [e2] of what follows it.  Either nothing is
    written or marked obsolete after the installation, or the installation has
    ended on a successful publication of the registered output files. *)
Lemma Finish_published (st : State) :
  exists e1 e2,
    history (Finish st).2 = history st ++ (EvMutexUnlock :: e1) ++ e2 /\
    Forall (fun e => install_call e = true) e1 /\
    (Forall (fun e => ~ writes e /\ ~ obsoletes e) e2 \/
     exists pre s, e1 = pre ++ [EvBatchFinishFiles (output_numbers st) s] /\
                   Status.ok s = true) /\
    (rewrite_shadow cf_options = true -> Forall (fun e => tail_call e = true) e2).
Proof.
  rewrite Finish_unfold. unfold bind at 1. cbn [log].
  set (st0 := set_history (history st ++ [EvMutexUnlock]) st).
  assert (Hnum : output_numbers st0 = output_numbers st) by reflexivity.
  assert (H0 : history st0 = history st ++ [EvMutexUnlock]) by reflexivity.
  clearbody st0. unfold bind at 1.
  destruct (install_calls_InstallOutputBlobFiles st0) as (e1 & He1 & Hc1).
  destruct (InstallOutputBlobFiles st0) as [[s|f] st1] eqn:Hinst; cbn [snd] in He1.
  2:{ exists e1, []. split_and!.
      - cbn [snd]. rewrite He1, H0, app_nil_r, <- app_assoc. reflexivity.
      - exact Hc1.
      - left. constructor.
      - intros _. constructor. }
  destruct (Status.ok s) eqn:Hs.
  - destruct (InstallOutputBlobFiles_numbers st0 s st1 Hinst Hs) as (pre & Hpre & _).
    assert (He : e1 = pre ++ [EvBatchFinishFiles (output_numbers st) s]).
    { rewrite Hpre, Hnum in He1. apply app_inv_head in He1. congruence. }
    destruct (staged_FinishRest s st1) as (e2 & He2 & _).
    exists e1, e2. split_and!.
    + rewrite He2, He1, H0, <- !app_assoc. reflexivity.
    + exact Hc1.
    + right. exists pre, s. auto.
    + intros Hsh. revert He2. unfold FinishRest, bind at 1. rewrite Hs, Hsh. cbn [negb].
      unfold InstallOutputShadows, bind, modify, ret. cbv beta iota.
      match goal with
      | |- context [FinishTail Status.OK ?x] =>
          destruct (tail_calls_FinishTail Status.OK x) as (e & Htail & Hc)
      end.
      rewrite Htail. cbn [history set_shadow_set]. intros He2.
      apply app_inv_head in He2. subst e2. exact Hc.
  - rewrite (FinishRest_failed s st1 Hs). exists e1, [EvMutexLock]. split_and!.
    + cbn [snd history set_history]. rewrite He1, H0, <- !app_assoc. reflexivity.
    + exact Hc1.
    + left. repeat constructor; intros (x & y & H); discriminate.
    + intros _. repeat constructor.
Qed.

(** C6.  The calls of [Finish] stand in the order of the commit: every
    publication of output files before every write of a batch to the LSM,
    every such write before every sync of the WAL, every sync before every
    manifest edit that marks the inputs obsolete.  A batch is written, and the
    inputs are marked obsolete, only after the successful publication of the
    output files that the job has registered, all of them and no other.
    When the new indices go to the LSM ([rewrite_shadow] off) the inputs are
    marked obsolete only after the WAL has been synced with success.  With
    [rewrite_shadow] on, no batch is written and the WAL is not synced at all:
    the manifest edit then follows the publication alone. *)
Theorem commit_order (st : State) :
  exists evs,
    history (Finish st).2 = history st ++ evs /\
    in_order evs /\
    preceded_by (publishes_outputs (output_numbers st)) writes evs /\
    preceded_by (publishes_outputs (output_numbers st)) obsoletes evs /\
    (rewrite_shadow cf_options = false -> preceded_by syncs obsoletes evs) /\
    (rewrite_shadow cf_options = true ->
     Forall (fun e => is_Write e = false /\ is_FlushWAL e = false) evs).
Proof.
  destruct (Finish_steps_in_order st) as (evs & Hevs & Hord & Hsync).
  destruct (Finish_published st) as (e1 & e2 & Hh & Hc1 & Hpub & Hsh).
  assert (Heq : evs = (EvMutexUnlock :: e1) ++ e2).
  { rewrite Hh in Hevs. apply app_inv_head in Hevs. congruence. }
  assert (Hquiet : Forall (fun e => ~ writes e /\ ~ obsoletes e) (EvMutexUnlock :: e1)).
  { constructor.
    - split; intros (x & y & H); discriminate.
    - eapply Forall_impl; [exact Hc1|]. intros e He.
      split; intros (x & y & ->); discriminate. }
  assert (Hafter : forall Q : Event -> Prop,
            (forall e, ~ writes e /\ ~ obsoletes e -> ~ Q e) ->
            preceded_by (publishes_outputs (output_numbers st)) Q evs).
  { intros Q HQ. rewrite Heq. apply preceded_by_app.
    - apply preceded_by_none. eapply Forall_impl; [exact Hquiet | exact HQ].
    - destruct Hpub as [Hnone|(pre & s & -> & Hs)].
      + left. eapply Forall_impl; [exact Hnone | exact HQ].
      + right. exists (EvBatchFinishFiles (output_numbers st) s). split.
        * apply list_elem_of_further. apply elem_of_app. right.
          apply list_elem_of_singleton. reflexivity.
        * exists s. auto. }
  exists evs. split_and!.
  - exact Hevs.
  - exact Hord.
  - apply Hafter. intros e [H _]. exact H.
  - apply Hafter. intros e [_ H]. exact H.
  - exact Hsync.
  - intros Hshadow. rewrite Heq. apply Forall_app. split.
    + constructor; [auto|]. eapply Forall_impl; [exact Hc1|].
      intros []; cbn; intros; try discriminate; auto.
    + eapply Forall_impl; [exact (Hsh Hshadow)|].
      intros []; cbn; intros; try discriminate; auto.
Qed.

(** X20.  With shadow tables ([rewrite_shadow] on) [Finish] never touches
    the LSM: besides the first Unlock and the calls of the installation of the
    output files it makes only the calls of its end (Lock, the test of the
    column family, the manifest edit, the statistics).  No batch is written,
    the WAL is not synced, the blob storage is not adjusted.  When the
    installation has returned OK, the output shadows of the job have been
    appended to the shadow set. *)
Theorem Finish_with_shadows (st : State) :
  rewrite_shadow cf_options = true ->
  exists o st' install tail,
    Finish st = (o, st') /\
    history st' = history st ++ [EvMutexUnlock] ++ install ++ tail /\
    Forall (fun e => install_call e = true) install /\
    Forall (fun e => tail_call e = true) tail /\
    (forall s st1,
       InstallOutputBlobFiles (set_history (history st ++ [EvMutexUnlock]) st)
         = (Returns s, st1) ->
       (Status.ok s = true -> shadow_set st' = shadow_set st1 ++ output_shadows blob_gc_) /\
       (Status.ok s = false -> shadow_set st' = shadow_set st1)).
Proof.
  intros Hsh. rewrite Finish_unfold. unfold bind at 1. cbn [log].
  set (st0 := set_history (history st ++ [EvMutexUnlock]) st).
  unfold bind at 1.
  destruct (install_calls_InstallOutputBlobFiles st0) as (inst & Hh & Hinst).
  destruct (InstallOutputBlobFiles st0) as [[s|f] st1]; cbn [snd] in Hh.
  2:{ exists (Faults f), st1, inst, []. split_and!; auto.
      - rewrite Hh. unfold st0. cbn [history set_history].
        rewrite app_nil_r, <- !app_assoc. reflexivity.
      - intros s st2 H. discriminate. }
  assert (Htail : forall st2, history st2 = history st1 -> forall s1,
            exists tail, history (FinishTail s1 st2).2 = history st ++ [EvMutexUnlock]
                                                           ++ inst ++ tail /\
                         Forall (fun e => tail_call e = true) tail /\
                         shadow_set (FinishTail s1 st2).2 = shadow_set st2).
  { intros st2 Hst2 s1. destruct (tail_calls_FinishTail s1 st2) as (tail & Ht & Hc).
    exists tail. split_and!; auto.
    - rewrite Ht, Hst2, Hh. unfold st0. cbn [history set_history].
      rewrite <- !app_assoc. reflexivity.
    - unfold FinishTail, bind. cbn [log].
      destruct (Status.ok s1).
      + rewrite IsDropped_run. destruct (cfd_IsDropped _); cbn [negb].
        * cbn [ret]. destruct (Status.ok s1); reflexivity.
        * match goal with
          | |- context [DeleteInputBlobFiles ?x] =>
              destruct (DeleteInputBlobFiles_run x) as (m & ->)
          end.
          cbv zeta. destruct (Status.ok _); reflexivity.
      + cbn [ret]. destruct (Status.ok s1); reflexivity. }
  unfold FinishRest, bind at 1. rewrite Hsh. cbn [negb].
  destruct (Status.ok s) eqn:Hs.
  - unfold InstallOutputShadows, bind, modify, ret.
    set (st2 := set_shadow_set _ st1).
    destruct (Htail st2 eq_refl Status.OK) as (tail & Ht & Hc & Hss).
    exists (FinishTail Status.OK st2).1, (FinishTail Status.OK st2).2, inst, tail.
    split_and!; auto.
    + apply surjective_pairing.
    + intros s' st1' H. injection H as <- <-. split; [|congruence].
      intros _. rewrite Hss. reflexivity.
  - unfold ret.
    destruct (Htail st1 eq_refl s) as (tail & Ht & Hc & Hss).
    exists (FinishTail s st1).1, (FinishTail s st1).2, inst, tail.
    split_and!; auto.
    + apply surjective_pairing.
    + intros s' st1' H. injection H as <- <-. split; [congruence|].
      intros _. exact Hss.
Qed.

(** X21.  When the column family of the job has been dropped, [Finish]
    marks no input obsolete and writes nothing to the LSM: the loop of the
    rewrite stops before its first batch, and the end of [Finish] skips
    [DeleteInputBlobFiles] (line 682). *)
Theorem Finish_dropped_column_family (st : State) :
  (forall n, cfd_IsDropped n = true) ->
  exists evs,
    history (Finish st).2 = history st ++ evs /\
    Forall (fun e => ~ writes e /\ ~ obsoletes e) evs.
Proof.
  intros Hdropped. rewrite Finish_unfold. unfold bind at 1. cbn [log].
  set (st0 := set_history (history st ++ [EvMutexUnlock]) st). unfold bind.
  assert (Hcalm : forall e, e = EvMutexUnlock \/ e = EvMutexLock \/ e = EvIsDropped true \/
                            e = EvUpdateInternalOpStats \/ (exists s, e = EvFlushWAL s) ->
                            ~ writes e /\ ~ obsoletes e).
  { intros e He. split.
    - intros (wb & s & ->). destruct He as [?|[?|[?|[?|[? ?]]]]]; discriminate.
    - intros (ed & s & ->). destruct He as [?|[?|[?|[?|[? ?]]]]]; discriminate. }
  destruct (staged_InstallOutputBlobFiles st0) as (e1 & He1 & Hp1 & _).
  assert (Hc1 : Forall (fun e => ~ writes e /\ ~ obsoletes e) e1).
  { eapply Forall_impl; [exact Hp1|]. intros e He. split.
    - intros Hw. specialize (He _ (writes_phase e Hw)). lia.
    - intros Ho. specialize (He _ (obsoletes_phase e Ho)). lia. }
  destruct (InstallOutputBlobFiles st0) as [[s|f] st1]; cbn [snd] in He1.
  2:{ exists ([EvMutexUnlock] ++ e1). cbn. split.
      - rewrite He1. unfold st0. cbn [history set_history]. rewrite <- app_assoc. reflexivity.
      - constructor; [apply Hcalm; auto | exact Hc1]. }
  assert (Htail : forall s1 st2 e2,
            history st2 = history st1 ++ e2 ->
            Forall (fun e => ~ writes e /\ ~ obsoletes e) e2 ->
            exists evs, history (FinishTail s1 st2).2 = history st ++ evs /\
                        Forall (fun e => ~ writes e /\ ~ obsoletes e) evs).
  { intros s1 st2 e2 He2 Hc2. unfold FinishTail, bind. cbn [log].
    assert (Hpre : Forall (fun e => ~ writes e /\ ~ obsoletes e)
                          ([EvMutexUnlock] ++ e1 ++ e2 ++ [EvMutexLock])).
    { rewrite !Forall_app. split_and!; auto; repeat constructor; apply Hcalm; auto. }
    assert (Hhist : history st2 ++ [EvMutexLock]
                    = history st ++ [EvMutexUnlock] ++ e1 ++ e2 ++ [EvMutexLock]).
    { rewrite He2, He1. unfold st0. cbn [history set_history].
      rewrite <- !app_assoc. reflexivity. }
    destruct (Status.ok s1) eqn:Hs1.
    - rewrite IsDropped_run, Hdropped. cbn [negb ret]. rewrite Hs1.
      unfold UpdateInternalOpStats, log. cbn [history set_history snd].
      exists (([EvMutexUnlock] ++ e1 ++ e2 ++ [EvMutexLock])
              ++ [EvIsDropped true; EvUpdateInternalOpStats]).
      split.
      + rewrite Hhist, <- !app_assoc. reflexivity.
      + apply Forall_app. split; [exact Hpre|]. repeat constructor; apply Hcalm; auto.
    - cbn [ret]. rewrite Hs1. cbn [history set_history snd ret].
      exists ([EvMutexUnlock] ++ e1 ++ e2 ++ [EvMutexLock]). split; [exact Hhist | exact Hpre]. }
  unfold FinishRest, bind.
  destruct (Status.ok s); [|unfold ret; eapply (Htail _ _ []); [rewrite app_nil_r; reflexivity | constructor]].
  destruct (negb (rewrite_shadow cf_options)).
  - assert (Hrw : exists s1 st2 e2,
              RewriteValidKeyToLSM st1 = (Returns s1, st2) /\
              history st2 = history st1 ++ e2 /\
              Forall (fun e => ~ writes e /\ ~ obsoletes e) e2).
    { destruct (rewrite_batches_ st1) as [|[wb cb] rest] eqn:Hb.
      - unfold RewriteValidKeyToLSM, bind. cbn [gets]. rewrite Hb. cbn [RewriteLoop ret modify log].
        rewrite map_to_list_empty. cbn [ApplyAllDropped ret Status.IsBusy].
        change (Status.IsBusy Status.OK) with false. cbv iota.
        change (Status.ok Status.OK) with true. cbv iota.
        unfold FlushWAL, bind, now, log, ret. cbn [history set_history set_rewrite_batches].
        eexists _, _, [EvMutexLock; EvMutexUnlock; EvFlushWAL _].
        split_and!; [reflexivity | rewrite <- !app_assoc; reflexivity |].
        repeat constructor; apply Hcalm; eauto 10.
      - rewrite (RewriteValidKeyToLSM_dropped wb cb rest st1 Hb (Hdropped _)). eexists _, _, _. split_and!; [reflexivity | reflexivity |].
        repeat constructor; apply Hcalm; auto. }
    destruct Hrw as (s1 & st2 & e2 & -> & He2 & Hc2). apply (Htail s1 st2 e2 He2 Hc2).
  - unfold InstallOutputShadows, bind, modify, ret.
    eapply (Htail _ _ []); [rewrite app_nil_r; reflexivity | constructor].
Qed.

(** ** The shadow table of a level and the end of the scan *)

(** X24.  A live record whose level has an open shadow table.  Its entries
    are added to that table and [shadow_size] becomes the estimated size of
    the table.  Below the target size the table stays open in its slot, with
    the entries added.  At or above the target the table is finished at once;
    when that answers OK the slots of the level (builder and file) are
    emptied, so that the next live record of the level opens a new table, and
    when it fails the loop is left with its status. *)
Theorem shadow_table_rolls (level : Z) (contexts : list BlobRecordContext) (l : Locals)
  (st : State) (tb : TableBuilder) :
  0 <= level ->
  level_shadow_builders l !! Z.to_nat level = Some (Some tb) ->
  Status.ok (AddToShadow tb contexts Status.OK).1 = true ->
  let tb' := (AddToShadow tb contexts Status.OK).2 in
  let size := EstimatedFileSize tb' in
  exists brk l' st',
    RewriteToShadow level contexts l st = (Returns (brk, l'), st') /\
    shadow_size l' = size /\
    length (level_shadow_builders l') = length (level_shadow_builders l) /\
    (forall i, i <> Z.to_nat level ->
               level_shadow_builders l' !! i = level_shadow_builders l !! i) /\
    (size < shadow_target_size cf_options ->
     brk = false /\ st' = st /\
     level_shadow_builders l' !! Z.to_nat level = Some (Some tb')) /\
    (shadow_target_size cf_options <= size ->
     let s := tb_Finish (length (history st)) tb' in
     st' = set_history (history st ++ [EvShadowFinish (tb_level tb') s]) st /\
     s_status l' = s /\ brk = negb (Status.ok s) /\
     (Status.ok s = true ->
      level_shadow_builders l' !! Z.to_nat level = Some None /\
      level_shadow_files l' !! Z.to_nat level
        = (fun _ => None) <$> level_shadow_files l !! Z.to_nat level) /\
     (Status.ok s = false ->
      level_shadow_builders l' !! Z.to_nat level = Some (Some tb'))).
Proof.
  intros Hlevel Hslot Hadd tb' size.
  assert (Hrange : 0 <= level < Z.of_nat (length (level_shadow_builders l))).
  { apply lookup_lt_Some in Hslot. lia. }
  assert (Hidx : forall (v : list (option TableBuilder)) x st0,
            v !! Z.to_nat level = Some x -> index v level st0 = (Returns x, st0)).
  { intros v x st0 Hv. unfold index. destruct (Z.ltb_spec level 0); [lia|].
    rewrite Hv. reflexivity. }
  unfold RewriteToShadow, bind at 1. rewrite (Hidx _ _ _ Hslot).
  unfold bind at 1. cbn [ret]. unfold bind at 1. rewrite (Hidx _ _ _ Hslot).
  unfold bind at 1, assert. cbn [is_Some_b negb]. rewrite andb_false_r. cbn [ret].
  fold tb'. destruct (AddToShadow tb contexts Status.OK) as [s1 tb1] eqn:Hrun.
  cbn [fst snd] in *. subst tb'. rewrite Hadd. cbn [negb].
  cbn [shadow_size set_shadow_size]. fold size.
  assert (Hother : forall x i, i <> Z.to_nat level ->
            <[Z.to_nat level := x]> (level_shadow_builders l) !! i
            = level_shadow_builders l !! i).
  { intros x i Hi. apply list_lookup_insert_ne. congruence. }
  assert (Hsame : forall x, <[Z.to_nat level := x]> (level_shadow_builders l) !! Z.to_nat level
                            = Some x).
  { intros x. apply list_lookup_insert_eq. lia. }
  destruct (Z.leb_spec (shadow_target_size cf_options) size) as [Hbig|Hsmall].
  - unfold bind. rewrite FinishShadow_run.
    set (s := tb_Finish (length (history st)) tb1).
    destruct (Status.ok s) eqn:Hs; cbn [negb].
    + eexists _, _, _. split_and!; [reflexivity | reflexivity | | | |].
      * cbn. rewrite !length_insert. reflexivity.
      * intros i Hi. cbn. rewrite list_lookup_insert_ne by congruence. apply Hother. exact Hi.
      * intros H. lia.
      * intros _. cbv zeta. fold s. split_and!; try reflexivity.
        -- intros _. cbn. split.
           ++ apply list_lookup_insert_eq. rewrite length_insert. lia.
           ++ destruct (level_shadow_files l !! Z.to_nat level) eqn:Hf; cbn.
              ** apply list_lookup_insert_eq. apply lookup_lt_Some in Hf. exact Hf.
              ** apply lookup_ge_None. rewrite length_insert.
                 apply lookup_ge_None in Hf. exact Hf.
        -- discriminate.
    + eexists _, _, _. split_and!; [reflexivity | reflexivity | | | |].
      * cbn. rewrite !length_insert. reflexivity.
      * intros i Hi. cbn. apply Hother. exact Hi.
      * intros H. lia.
      * intros _. cbv zeta. fold s. split_and!; try reflexivity.
        -- discriminate.
        -- intros _. cbn. apply Hsame.
  - eexists _, _, _. split_and!; [reflexivity | reflexivity | | | |].
    + cbn. rewrite !length_insert. reflexivity.
    + intros i Hi. cbn. apply Hother. exact Hi.
    + intros _. split_and!; try reflexivity. cbn. apply Hsame.
    + intros H. lia.
Qed.

(** X25.  When the merged iterator has ended with an error (the loop was
    not left with [break]), [DoRunGC] returns this error at line 415,
    whatever the status of the loop: the open output file is not registered
    for installation and the open shadow tables are not finished. *)
Theorem iterator_error_returned (terminal : Status.t) (l : Locals) (st : State) :
  Status.ok terminal = false ->
  AfterScan false terminal l st = (Returns terminal, st) /\
  forall st0 tuples s0 st1,
    BuildIterator st0 = (Returns (s0, Some (tuples, terminal)), st1) ->
    Status.ok s0 = true -> tuples <> [] ->
    scan_loop tuples (initial_locals s0) st1 = (Returns (false, l), st) ->
    DoRunGC st0 = (Returns terminal, st).
Proof.
  intros Hterminal.
  assert (Hafter : AfterScan false terminal l st = (Returns terminal, st)).
  { unfold AfterScan. rewrite Hterminal. reflexivity. }
  split; [exact Hafter|].
  intros st0 tuples s0 st1 Hbuild Hs0 Hne Hscan.
  unfold DoRunGC, bind. rewrite Hbuild, Hs0. cbn [negb].
  unfold assert. rewrite bool_decide_eq_false_2 by exact Hne.
  rewrite andb_false_r. cbn [ret]. rewrite Hscan. exact Hafter.
Qed.

(** ** The loop of the rewrite: a batch that is written, a write that fails *)

(** X26.  One iteration of the loop on a batch whose write returns OK or an
    error other than Busy (column family not dropped, no shutdown).  After a
    write that returned OK the batch is counted as relocated, with the size of
    the batch in [gc_bytes_written_lsm] and the size of the old record in
    [gc_bytes_relocated], when the size of its new index is above 0, and as a
    fallback otherwise; nothing is entered in [dropped] and the loop goes on.
    After an error the loop is left with it: nothing is counted, not even the
    bytes read by the callback, and the batches that follow are left alone. *)
Theorem rewrite_step_written_or_failed (wb : WriteBatch) (cb : GarbageCollectionWriteCallback)
  (rest done : list (WriteBatch * GarbageCollectionWriteCallback))
  (dropped : gmap Z (Z * gset Z)) (s0 : Status.t) (st : State) s cb' st' :
  cfd_IsDropped (length (history st)) = false ->
  shuting_down (S (length (history st))) = false ->
  WriteWithCallback wb cb
    (set_history ((history st ++ [EvIsDropped false]) ++ [EvIsShutingDown false]) st)
    = (Returns (s, cb'), st') ->
  Status.IsBusy s = false ->
  let relocated := 0 <? BlobHandle.size (BlobIndex.blob_handle (new_blob_index_ cb')) in
  (Status.ok s = true ->
   exists st'',
     RewriteLoop ((wb, cb) :: rest) done dropped s0 st
       = RewriteLoop rest (done ++ [(wb, cb')]) dropped s st'' /\
     history st'' = history st' /\
     metrics_ st'' gc_num_keys_relocated
       = (if relocated then u64 (metrics_ st' gc_num_keys_relocated + 1)
          else metrics_ st' gc_num_keys_relocated) /\
     metrics_ st'' gc_num_keys_fallback
       = (if relocated then metrics_ st' gc_num_keys_fallback
          else u64 (metrics_ st' gc_num_keys_fallback + 1)) /\
     metrics_ st'' gc_bytes_written_lsm
       = (if relocated then u64 (metrics_ st' gc_bytes_written_lsm + GetDataSize wb)
          else metrics_ st' gc_bytes_written_lsm) /\
     metrics_ st'' gc_bytes_relocated
       = (if relocated then u64 (metrics_ st' gc_bytes_relocated + blob_record_size cb')
          else metrics_ st' gc_bytes_relocated) /\
     metrics_ st'' gc_bytes_fallback
       = (if relocated then metrics_ st' gc_bytes_fallback
          else u64 (metrics_ st' gc_bytes_fallback + blob_record_size cb')) /\
     metrics_ st'' gc_bytes_read_callback
       = u64 (metrics_ st' gc_bytes_read_callback + read_bytes_ cb') /\
     metrics_ st'' gc_num_keys_overwritten_callback
       = metrics_ st' gc_num_keys_overwritten_callback) /\
  (Status.ok s = false ->
   RewriteLoop ((wb, cb) :: rest) done dropped s0 st
     = (Returns (s, done ++ (wb, cb') :: rest, dropped), st')).
Proof.
  intros Hd Hsd Hw Hbusy relocated.
  assert (Hrun : RewriteLoop ((wb, cb) :: rest) done dropped s0 st =
    (let new_blob_index := new_blob_index_ cb' in
     if Status.ok s then
       bind (if 0 <? BlobHandle.size (BlobIndex.blob_handle new_blob_index) then
               bind (RecordMetric gc_bytes_written_lsm (GetDataSize wb)) (fun _ =>
               bind (RecordMetric gc_num_keys_relocated 1) (fun _ =>
               RecordMetric gc_bytes_relocated (blob_record_size cb')))
             else
               bind (RecordMetric gc_num_keys_fallback 1) (fun _ =>
               RecordMetric gc_bytes_fallback (blob_record_size cb')))
         (fun _ => bind (RecordMetric gc_bytes_read_callback (read_bytes_ cb'))
                     (fun _ => RewriteLoop rest (done ++ [(wb, cb')]) dropped s))
     else if Status.IsBusy s then
       bind (RecordMetric gc_num_keys_overwritten_callback 1) (fun _ =>
       bind (RecordMetric gc_bytes_overwritten_callback (blob_record_size cb')) (fun _ =>
       bind (RecordMetric gc_bytes_read_callback (read_bytes_ cb')) (fun _ =>
       RewriteLoop rest (done ++ [(wb, cb')])
         (add_dropped new_blob_index dropped) s)))
     else ret (s, done ++ (wb, cb') :: rest, dropped)) st').
  { cbn [RewriteLoop]. unfold bind at 1. rewrite IsDropped_run, Hd.
    unfold bind at 1. rewrite IsShutingDown_run. cbn [history set_history].
    rewrite length_snoc, Hsd. unfold bind at 1.
    match goal with
    | |- context [WriteWithCallback wb cb ?x] =>
        change x with (set_history ((history st ++ [EvIsDropped false])
                                      ++ [EvIsShutingDown false]) st)
    end.
    rewrite Hw. reflexivity. }
  rewrite Hrun. cbv zeta. fold relocated. split.
  - intros Hs. rewrite Hs. unfold bind. destruct relocated; cbn [RecordMetric modify];
      eexists; split_and!; reflexivity.
  - intros Hs. rewrite Hs, Hbusy. reflexivity.
Qed.

(** ** The counters of the scan *)

Lemma u64_idem (x : Z) : u64 (u64 x) = u64 x.
Proof. unfold u64. apply Z.mod_mod. lia. Qed.

Lemma counted_refl l st : counted 0 0 0 l st l st.
Proof. unfold counted. rewrite !Z.add_0_r. auto. Qed.

Lemma counted_trans k1 v1 d1 k2 v2 d2 l1 st1 l2 st2 l3 st3 :
  counted k1 v1 d1 l1 st1 l2 st2 -> counted k2 v2 d2 l2 st2 l3 st3 ->
  counted (k1 + k2) (v1 + v2) (d1 + d2) l1 st1 l3 st3.
Proof.
  unfold counted. intros (A1 & A2 & A3 & A4) (B1 & B2 & B3 & B4).
  assert (H : forall a b c x y, u64 b = u64 (a + x) -> u64 c = u64 (b + y) ->
                                u64 c = u64 (a + (x + y))).
  { intros a b c x y Hb Hc. rewrite Hc, <- u64_add_l, Hb, u64_add_l. f_equal. lia. }
  split_and!; eapply H; eauto.
Qed.

Lemma DiscardEntry_metrics (key : string) (blob_index : BlobIndex.t) (discardable : bool)
  (st : State) r st' :
  DiscardEntry key blob_index discardable st = (r, st') ->
  forall t, t <> gc_bytes_read_check -> metrics_ st' t = metrics_ st t.
Proof.
  unfold DiscardEntry, bind. rewrite GetImpl_run.
  set (g := db_GetImpl _ _ _).
  assert (Hm : forall t, t <> gc_bytes_read_check ->
               bump gc_bytes_read_check (slice_size key + slice_size (g_value g))
                    (metrics_ st) t = metrics_ st t).
  { intros t Ht. unfold bump. destruct (decide _); congruence. }
  destruct (negb (Status.ok (g_status g)) && negb (Status.IsNotFound (g_status g))).
  - intros H. injection H as <- <-. reflexivity.
  - cbn [RecordMetric modify].
    destruct (Status.IsNotFound (g_status g) || negb (g_is_blob_index g)).
    + intros H. injection H as <- <-. exact Hm.
    + destruct (DecodeFrom (g_value g)) as [s other].
      destruct (negb (Status.ok s)); intros H; injection H as <- <-; exact Hm.
Qed.

Lemma RewriteFallback_metrics t l st brk l' st' :
  RewriteFallback t l st = (Returns (brk, l'), st') -> metrics_ st' = metrics_ st.
Proof.
  unfold RewriteFallback, bind, NewCallback, assert, fault, ret, push_rewrite_batch, modify.
  intros H. run_cases H; simplify_eq; cbn; reflexivity.
Qed.

Lemma RollOutputFile_metrics l st brk l' st' :
  RollOutputFile l st = (Returns (brk, l'), st') -> metrics_ st' = metrics_ st.
Proof.
  unfold RollOutputFile, bind, assert, fault, ret, push_blob_file_builder, modify, now, log.
  intros H. run_cases H; simplify_eq; cbn; reflexivity.
Qed.

Lemma RewriteToShadow_metrics level contexts l st brk l' st' :
  RewriteToShadow level contexts l st = (Returns (brk, l'), st') -> metrics_ st' = metrics_ st.
Proof.
  unfold RewriteToShadow, bind, index, OpenGCOutputShadow, FinishShadow, assert, fault,
    ret, modify, now, log.
  intros H. run_cases H; simplify_eq; cbn; reflexivity.
Qed.

Lemma RewriteToBlobFile_metrics t level l st brk l' st' :
  RewriteToBlobFile t level l st = (Returns (brk, l'), st') ->
  forall c, c <> gc_bytes_written_blob -> metrics_ st' c = metrics_ st c.
Proof.
  unfold RewriteToBlobFile, bind. intros H c Hc.
  destruct (RollOutputFile l st) as [[[b1 l1]|f] st1] eqn:Hroll; [|discriminate].
  apply RollOutputFile_metrics in Hroll.
  destruct b1.
  - injection H as <- <- <-. rewrite Hroll. reflexivity.
  - rewrite <- Hroll. clear Hroll.
    revert H. unfold assert, fault, ret, RecordMetric, modify. intros H.
    assert (Hb : forall n, bump gc_bytes_written_blob n (metrics_ st1) c = metrics_ st1 c).
    { intros n. unfold bump. destruct (decide _); congruence. }
    repeat (case_match; try discriminate); simplify_eq.
    + apply RewriteToShadow_metrics in H. rewrite H. cbn. apply Hb.
    + match goal with
      | H : BatchWriteNewIndices _ _ _ = _ |- _ =>
          apply BatchWriteNewIndices_state in H; destruct H as (new & ->)
      end.
      cbn. apply Hb.
Qed.

Lemma RewriteLive_metrics t level l st brk l' st' :
  RewriteLive t level l st = (Returns (brk, l'), st') ->
  forall c, c <> gc_bytes_written_blob -> metrics_ st' c = metrics_ st c.
Proof.
  unfold RewriteLive. destruct (blob_run_mode cf_options).
  - eauto using RewriteToBlobFile_metrics.
  - eauto using RewriteToBlobFile_metrics.
  - intros H c _. apply RewriteFallback_metrics in H. rewrite H. reflexivity.
Qed.

Lemma scan_body_counted (t : Tuple) (l : Locals) (st : State) brk l' st' :
  scan_body t l st = (Returns (brk, l'), st') ->
  exists v d, 0 <= v /\ 0 <= d /\ v + d <= 1 /\ counted 1 v d l st l' st'.
Proof.
  unfold scan_body, bind. rewrite IsShutingDown_run.
  set (l0 := set_total_count (u64 (total_count l + 1)) l).
  assert (Hleaf : forall v d l1 st1,
            0 <= v -> 0 <= d -> v + d <= 1 ->
            total_count l1 = u64 (total_count l + 1) ->
            valid_count l1 = (if v =? 0 then valid_count l else u64 (valid_count l + 1)) ->
            discardable_count l1
              = (if d =? 0 then discardable_count l else u64 (discardable_count l + 1)) ->
            metrics_ st1 gc_num_keys_overwritten_check
              = (if d =? 0 then metrics_ st gc_num_keys_overwritten_check
                 else u64 (metrics_ st gc_num_keys_overwritten_check + 1)) ->
            exists v d, 0 <= v /\ 0 <= d /\ v + d <= 1 /\ counted 1 v d l st l1 st1).
  { intros v d l1 st1 Hv Hd Hvd Ht Hval Hdis Hm. exists v, d. split_and!; auto.
    unfold counted. rewrite Ht, Hval, Hdis, Hm, u64_idem.
    assert (v = 0 \/ v = 1) as [-> | ->] by lia;
      assert (d = 0 \/ d = 1) as [-> | ->] by lia; cbn [Z.eqb];
      rewrite ?u64_idem, ?Z.add_0_r; auto. }
  destruct (shuting_down (length (history st))).
  { intros H. injection H as <- <- <-. apply (Hleaf 0 0); cbn; auto; lia. }
  cbn [RecordMetric modify].
  assert (Hblob : forall n, bump gc_bytes_read_blob n (metrics_ st) gc_num_keys_overwritten_check
                            = metrics_ st gc_num_keys_overwritten_check).
  { intros n. unfold bump. destruct (decide _); congruence. }
  destruct (same_key t l0 && last_key_is_fresh l0).
  { intros H. injection H as <- <- <-. apply (Hleaf 0 0); cbn; auto; lia. }
  set (lk := if same_key t l0 then l0
             else set_last_key_is_fresh false (set_last_key (t_key t) l0)).
  assert (Hlk : total_count lk = u64 (total_count l + 1) /\ valid_count lk = valid_count l /\
                discardable_count lk = discardable_count l).
  { unfold lk. destruct (same_key t l0); auto. }
  destruct Hlk as (Hk1 & Hk2 & Hk3).
  destruct (DiscardEntryWithBitset (t_blob_index t) false) as [s discardable].
  destruct (Status.ok s); cbn [negb].
  2:{ intros H. injection H as <- <- <-. apply (Hleaf 0 0); cbn; auto; lia. }
  destruct discardable; cbn [negb].
  - unfold ret at 1. destruct (Status.ok s); cbn [negb].
    + intros H. injection H as <- <- <-. apply (Hleaf 0 1); cbn; auto; try lia;
        try congruence; unfold bump; cbn; rewrite ?Hblob, ?Hm1; reflexivity.
    + intros H. injection H as <- <- <-. apply (Hleaf 0 0); cbn; auto; lia.
  - destruct (DiscardEntry (t_key t) (t_blob_index t) false _) as [[[[s1 d1] lvl]|f] st1]
      eqn:Hde; [|discriminate].
    pose proof (DiscardEntry_metrics _ _ _ _ _ _ Hde gc_num_keys_overwritten_check
                  ltac:(discriminate)) as Hm1.
    cbn [metrics_ set_metrics set_history] in Hm1. rewrite Hblob in Hm1.
    destruct (Status.ok s1); cbn [negb].
    2:{ intros H. injection H as <- <- <-. apply (Hleaf 0 0); cbn; auto; lia. }
    destruct d1.
    + intros H. injection H as <- <- <-. apply (Hleaf 0 1); cbn; auto; try lia;
        try congruence; unfold bump; cbn; rewrite ?Hblob, ?Hm1; reflexivity.
    + intros H.
      pose proof (RewriteLive_frame _ _ _ _ _ _ _ H) as (_ & _ & Hv & Hd & Ht).
      pose proof (RewriteLive_metrics _ _ _ _ _ _ _ H gc_num_keys_overwritten_check
                    ltac:(discriminate)) as Hm2.
      cbn in Hv, Hd, Ht. apply (Hleaf 1 0); cbn [Z.eqb]; try lia; congruence.
Qed.

(** X27.  The counters of the scan, all of 64 bits.  [total_count] grows by
    one for every tuple visited, also for the tuple on which the loop is left
    and for the versions that are skipped; a loop that is not left with
    [break] has visited every tuple.  Every tuple is counted at most once
    more, as valid or as discardable; and [discardable_count] and the counter
    [gc_num_keys_overwritten_check] of the job grow together. *)
Theorem scan_counters (ts : list Tuple) : forall (l : Locals) (st : State) brk l' st',
  scan_loop ts l st = (Returns (brk, l'), st') ->
  exists k v d,
    0 <= v /\ 0 <= d /\ v + d <= k <= Z.of_nat (length ts) /\
    (brk = false -> k = Z.of_nat (length ts)) /\ (brk = true -> 1 <= k) /\
    counted k v d l st l' st'.
Proof.
  induction ts as [|t ts IH]; intros l st brk l' st' H.
  - injection H as <- <- <-. exists 0, 0, 0. cbn.
    split_and!; try lia; try discriminate; try apply counted_refl; reflexivity.
  - cbn [scan_loop] in H. unfold bind in H.
    destruct (scan_body t l st) as [[[b1 l1]|f] st1] eqn:Hstep; [|discriminate].
    apply scan_body_counted in Hstep as (v1 & d1 & Hv1 & Hd1 & Hvd1 & Hc1).
    destruct b1.
    + injection H as <- <- <-. exists 1, v1, d1. cbn [length].
      split_and!; try lia; try discriminate; exact Hc1.
    + apply IH in H as (k & v & d & Hv & Hd & Hvd & Hall & Hbrk & Hc).
      exists (1 + k), (v1 + v), (d1 + d). cbn [length].
      split_and!; try lia.
      all: try (intros Hb; specialize (Hall Hb); lia).
      eapply counted_trans; eauto.
Qed.

(** ** The output blob file of a live record *)

(** X28.  A live record in normal mode, the target size being above 0.
    When no output file is open, [NewFile] is called: if it fails the loop is
    left with its status and the record is not written (no byte is counted,
    no builder is touched); if it answers OK the record is handled as with
    this new file open, with a fresh builder and [file_size] 0.  When an
    output file is open (and [file_size] is below the target), no file is
    asked for: the bytes of the record are counted in [gc_bytes_written_blob],
    the record is added to the builder of the open file under a context that
    carries its original index and the number of the open file, and the
    contexts that the builder gives back go to the shadow table of the level,
    or to the rewrite batches. *)
Theorem RewriteToBlobFile_opens_file (t : Tuple) (level : Z) (l : Locals) (st : State) :
  0 < blob_file_target_size cf_options ->
  (blob_file_handle l = None -> blob_file_builder l = None ->
   cur_file_size l < blob_file_target_size cf_options ->
   let r := bfm_NewFile (length (history st)) in
   let st1 := set_history (history st ++ [EvNewFile r.1 r.2]) st in
   (Status.ok r.1 = false ->
    RewriteToBlobFile t level l st = (Returns (true, set_s_status r.1 l), st1)) /\
   (Status.ok r.1 = true ->
    RewriteToBlobFile t level l st
      = RewriteToBlobFile t level (with_output_file r.1 r.2 l) st1)) /\
  (forall number builder,
     blob_file_handle l = Some number -> blob_file_builder l = Some builder ->
     cur_file_size l < blob_file_target_size cf_options ->
     let record := {| rec_key := t_key t; rec_value := t_value t |} in
     let ctx := {| ctx_key := InternalKey_Encode (t_key t) 1 kTypeValue;
                   ctx_original_blob_index := t_blob_index t;
                   ctx_new_blob_index := BlobIndex.mk number (BlobHandle.mk 0 0 0) |} in
     let added := builder_Add builder record ctx in
     let l1 := set_blob_file_builder (Some added.1) l in
     let st1 := set_metrics (bump gc_bytes_written_blob (BlobRecord_size record)
                               (metrics_ st)) st in
     RewriteToBlobFile t level l st =
       (if rewrite_shadow cf_options then RewriteToShadow level added.2 l1
        else bind (BatchWriteNewIndices added.2 (s_status l1))
               (fun s => ret (negb (Status.ok s), set_s_status s l1))) st1).
Proof.
  intros Htarget. split.
  - intros Hh Hb Hsize r st1.
    assert (Hroll : RollOutputFile l st =
              (if negb (Status.ok r.1) then (Returns (true, set_s_status r.1 l), st1)
               else (Returns (false, with_output_file r.1 r.2 l), st1))).
    { unfold RollOutputFile. rewrite Hh, Hb. cbn [is_Some_b negb andb orb].
      destruct (Z.leb_spec (blob_file_target_size cf_options) (cur_file_size l)) as [Hbig|_];
        [lia|].
      unfold bind. cbn [ret now log]. fold r. destruct r as [s number]. cbn [fst snd] in *.
        unfold st1, with_output_file. destruct (Status.ok s); reflexivity. }
    split.
    + intros Hs. unfold RewriteToBlobFile, bind. rewrite Hroll, Hs. reflexivity.
    + intros Hs. symmetry. unfold RewriteToBlobFile at 1. unfold bind at 1.
      rewrite (RollOutputFile_open (with_output_file r.1 r.2 l) st1 r.2 (builder_new r.2));
        [| reflexivity | reflexivity | cbn; lia].
      symmetry. unfold RewriteToBlobFile at 1. unfold bind at 1. rewrite Hroll, Hs.
      reflexivity.
  - intros number builder Hh Hb Hsize record ctx added l1 st1.
    subst l1 st1 added. unfold RewriteToBlobFile, bind, assert, ret, RecordMetric, modify.
    rewrite (RollOutputFile_open l st number builder Hh Hb Hsize), Hh, Hb.
    cbn [is_Some_b negb]. rewrite !andb_false_r. cbv beta iota.
    cbn [rec_key]. fold record. fold ctx.
    destruct (builder_Add builder record ctx) as [builder' contexts]. reflexivity.
Qed.

(** ** The statistics of the job *)

Lemma rewrite_calls_GetImpl cf key : only_calls rewrite_call (GetImpl cf key).
Proof. apply only_calls_GetImpl. reflexivity. Qed.

Lemma rewrite_calls_IsShutingDown : only_calls rewrite_call IsShutingDown.
Proof. apply only_calls_IsShutingDown. reflexivity. Qed.

Lemma rewrite_calls_IsDropped : only_calls rewrite_call IsDropped.
Proof. apply only_calls_IsDropped. reflexivity. Qed.

#[local] Hint Resolve rewrite_calls_GetImpl rewrite_calls_IsShutingDown
  rewrite_calls_IsDropped : calls.

Lemma rewrite_calls_Callback cb : only_calls rewrite_call (Callback cb).
Proof. unfold Callback. calls_auto. Qed.

#[local] Hint Resolve rewrite_calls_Callback : calls.

Lemma rewrite_calls_WriteWithCallback wb cb : only_calls rewrite_call (WriteWithCallback wb cb).
Proof. unfold WriteWithCallback. calls_auto. Qed.

Lemma rewrite_calls_RewriteLoop todo : forall done dropped s,
  only_calls rewrite_call (RewriteLoop todo done dropped s).
Proof.
  induction todo as [|[wb cb] rest IH]; intros done dropped s; cbn [RewriteLoop].
  - calls_auto.
  - apply only_calls_bind; [apply rewrite_calls_IsDropped | intros d].
    destruct d; [calls_auto|].
    apply only_calls_bind; [apply rewrite_calls_IsShutingDown | intros sd].
    destruct sd; [calls_auto|].
    apply only_calls_bind; [apply rewrite_calls_WriteWithCallback | intros [s1 cb1]].
    destruct (Status.ok s1).
    + apply only_calls_bind; [destruct (0 <? _); calls_auto | intros _].
      apply only_calls_bind; [apply only_calls_RecordMetric | intros _]. apply IH.
    + destruct (Status.IsBusy s1); [|calls_auto].
      do 3 (apply only_calls_bind; [apply only_calls_RecordMetric | intros _]). apply IH.
Qed.

Lemma rewrite_calls_ApplyAllDropped entries : only_calls rewrite_call (ApplyAllDropped entries).
Proof.
  induction entries as [|[number [size orders]] rest IH]; cbn [ApplyAllDropped].
  - calls_auto.
  - apply only_calls_bind; [unfold ApplyDropped; calls_auto | intros _; exact IH].
Qed.

Lemma rewrite_calls_RewriteValidKeyToLSM : only_calls rewrite_call RewriteValidKeyToLSM.
Proof.
  unfold RewriteValidKeyToLSM.
  apply only_calls_bind; [apply only_calls_gets | intros batches].
  apply only_calls_bind; [apply rewrite_calls_RewriteLoop | intros [[s batches'] dropped]].
  apply only_calls_bind; [apply only_calls_modify; reflexivity | intros _].
  apply only_calls_bind; [apply only_calls_log; reflexivity | intros _].
  apply only_calls_bind; [apply rewrite_calls_ApplyAllDropped | intros _].
  apply only_calls_bind; [apply only_calls_log; reflexivity | intros _].
  destruct (Status.ok _); [unfold FlushWAL|]; calls_auto.
Qed.

Lemma no_stats_update (P : Event -> bool) (evs : list Event) :
  (forall e, P e = true -> is_stats_update e = false) ->
  Forall (fun e => P e = true) evs -> List.filter is_stats_update evs = [].
Proof.
  intros HP. induction 1 as [|e evs He _ IH]; [reflexivity|].
  cbn [List.filter]. rewrite (HP e He). exact IH.
Qed.

Lemma FinishTail_stats (s : Status.t) (st : State) :
  exists s' st' evs,
    FinishTail s st = (Returns s', st') /\ history st' = history st ++ evs /\
    List.filter is_stats_update evs
      = (if Status.ok s' then [EvUpdateInternalOpStats] else []) /\
    (Status.ok s' = true -> last evs = Some EvUpdateInternalOpStats).
Proof.
  unfold FinishTail, bind at 1. cbn [log].
  set (st1 := set_history _ st).
  assert (Hmid : exists s1 st2 e,
            (if Status.ok s
             then bind IsDropped (fun d => if negb d then DeleteInputBlobFiles else ret s)
             else ret s) st1 = (Returns s1, st2) /\
            history st2 = history st1 ++ e /\ List.filter is_stats_update e = []).
  { destruct (Status.ok s).
    - unfold bind. rewrite IsDropped_run.
      destruct (cfd_IsDropped _); cbn [negb].
      + eexists _, _, [_]. split_and!; reflexivity.
      + match goal with
        | |- context [DeleteInputBlobFiles ?x] =>
            destruct (DeleteInputBlobFiles_run x) as (m & ->)
        end.
        eexists _, _, [EvIsDropped false; EvGetLatestSequenceNumber _; EvLogAndApply _ _].
        split_and!; [reflexivity | | reflexivity].
        cbn [history set_history set_metrics]. rewrite <- app_assoc. reflexivity.
    - exists s, st1, []. rewrite app_nil_r. split_and!; auto. }
  destruct Hmid as (s1 & st2 & e & Hrun & He & Hc).
  unfold bind at 1. rewrite Hrun.
  destruct (Status.ok s1) eqn:Hs1; unfold bind, UpdateInternalOpStats, log, ret.
  - eexists s1, _, ([EvMutexLock] ++ e ++ [EvUpdateInternalOpStats]).
    rewrite Hs1. split_and!; [reflexivity | | |].
    + cbn [history set_history]. rewrite He. unfold st1. cbn [history set_history].
      rewrite <- !app_assoc. reflexivity.
    + rewrite !List.filter_app, Hc. reflexivity.
    + intros _. rewrite !app_assoc. apply last_snoc.
  - eexists s1, _, ([EvMutexLock] ++ e ++ []).
    rewrite Hs1. split_and!; [reflexivity | | | discriminate].
    + rewrite He. unfold st1. cbn [history set_history].
      rewrite app_nil_r, <- !app_assoc. reflexivity.
    + rewrite !List.filter_app, Hc. reflexivity.
Qed.

(** X29.  [Finish] updates the internal statistics of the garbage
    collection exactly when it returns OK: the update is then made once, as
    the last call of [Finish]; when [Finish] returns an error, or does not
    return, no update is made. *)
Theorem Finish_updates_stats_iff_ok (st : State) :
  exists evs,
    history (Finish st).2 = history st ++ evs /\
    match (Finish st).1 with
    | Returns s =>
        List.filter is_stats_update evs
          = (if Status.ok s then [EvUpdateInternalOpStats] else []) /\
        (Status.ok s = true -> last evs = Some EvUpdateInternalOpStats)
    | Faults _ => List.filter is_stats_update evs = []
    end.
Proof.
  assert (Hrun : exists o st' evs,
    Finish st = (o, st') /\ history st' = history st ++ evs /\
    match o with
    | Returns s =>
        List.filter is_stats_update evs
          = (if Status.ok s then [EvUpdateInternalOpStats] else []) /\
        (Status.ok s = true -> last evs = Some EvUpdateInternalOpStats)
    | Faults _ => List.filter is_stats_update evs = []
    end).
  { rewrite Finish_unfold. unfold bind at 1. cbn [log].
    set (st0 := set_history (history st ++ [EvMutexUnlock]) st).
    assert (H0 : history st0 = history st ++ [EvMutexUnlock]) by reflexivity.
    clearbody st0. unfold bind at 1.
    destruct (install_calls_InstallOutputBlobFiles st0) as (e1 & He1 & Hc1).
    apply (no_stats_update install_call) in Hc1; [|intros []; cbn; congruence].
    destruct (InstallOutputBlobFiles st0) as [[s|f] st1]; cbn [snd] in He1.
    2:{ exists (Faults f), st1, ([EvMutexUnlock] ++ e1). split_and!.
        - reflexivity.
        - rewrite He1, H0, <- app_assoc. reflexivity.
        - rewrite List.filter_app, Hc1. reflexivity. }
    assert (Htail : forall s1 st2 e2,
              history st2 = history st1 ++ e2 -> List.filter is_stats_update e2 = [] ->
              exists o st' evs,
                FinishTail s1 st2 = (o, st') /\ history st' = history st ++ evs /\
                match o with
                | Returns s =>
                    List.filter is_stats_update evs
                      = (if Status.ok s then [EvUpdateInternalOpStats] else []) /\
                    (Status.ok s = true -> last evs = Some EvUpdateInternalOpStats)
                | Faults _ => List.filter is_stats_update evs = []
                end).
    { intros s1 st2 e2 He2 Hc2.
      destruct (FinishTail_stats s1 st2) as (s2 & st3 & e3 & -> & He3 & Hf3 & Hl3).
      exists (Returns s2), st3, ([EvMutexUnlock] ++ e1 ++ e2 ++ e3). split_and!.
      - reflexivity.
      - rewrite He3, He2, He1, H0, <- !app_assoc. reflexivity.
      - rewrite !List.filter_app, Hc1, Hc2, Hf3. reflexivity.
      - intros Hs2. specialize (Hl3 Hs2). rewrite !app_assoc.
        destruct e3 as [|x e3] using rev_ind; [discriminate|].
        rewrite last_snoc in Hl3. injection Hl3 as ->.
        rewrite app_assoc. apply last_snoc. }
    unfold FinishRest, bind at 1.
    destruct (Status.ok s).
    - destruct (negb (rewrite_shadow cf_options)).
      + destruct (rewrite_calls_RewriteValidKeyToLSM st1) as (e2 & He2 & Hc2).
        apply (no_stats_update rewrite_call) in Hc2; [|intros []; cbn; congruence].
        destruct (RewriteValidKeyToLSM_mutex st1) as (s1 & st2 & e2' & Hrw & _).
        rewrite Hrw in He2 |- *. cbn [snd] in He2.
        apply (Htail s1 st2 e2 He2 Hc2).
      + unfold InstallOutputShadows, bind, modify, ret.
        eapply (Htail _ _ []); [rewrite app_nil_r; reflexivity | reflexivity].
    - unfold ret. eapply (Htail _ _ []); [rewrite app_nil_r; reflexivity | reflexivity]. }
  destruct Hrun as (o & st' & evs & -> & Hh & Ho). exists evs. split; [exact Hh | exact Ho].
Qed.

(** X30.  A loop left with [break] on an error, with shadow tables
    ([rewrite_shadow] on).  The output file that is open is not registered,
    and the shadow tables still open are finished.  The status that the loop
    was left with is returned only when no table is open: as soon as one is,
    [DoRunGC] returns what the calls of [Finish] answer, OK when all of them
    succeed, so that the error of the loop (a shutdown, a failed lookup, a
    failed [NewFile]) is not reported. *)
Theorem break_status_replaced (terminal : Status.t) (l : Locals) (st : State) :
  rewrite_shadow cf_options = true -> Status.ok (s_status l) = false ->
  let open := omap id (level_shadow_builders l) in
  exists s evs,
    AfterScan true terminal l st = (Returns s, set_history (history st ++ evs) st) /\
    Forall (fun e => exists level s', e = EvShadowFinish level s') evs /\
    (open = [] -> evs = [] /\ s = s_status l) /\
    (open <> [] ->
     (Status.ok s = true /\ length evs = length open) \/
     (Status.ok s = false /\ exists level, last evs = Some (EvShadowFinish level s))).
Proof.
  intros Hsh Hs open. rewrite (AfterScan_break_shadow terminal l st Hsh Hs).
  destruct (FinishShadows_prefix (level_shadow_builders l) (s_status l) st)
    as (s & oks & stop & Hrun & Hoks & Hend).
  fold open in Hoks, Hend.
  assert (Hev : Forall (fun e => exists level s', e = EvShadowFinish level s') oks).
  { clear - Hoks. induction Hoks as [|b e bs es (s' & -> & _) _ IH]; constructor; eauto. }
  exists s, (oks ++ stop). split_and!.
  - exact Hrun.
  - apply Forall_app. split; [exact Hev|].
    destruct Hend as [(-> & _)|(b & _ & -> & _)]; repeat constructor; eauto.
  - intros Hopen. rewrite Hopen in Hend.
    destruct Hend as [(-> & Hlen & Hnil & _)|(b & Hb & _)].
    + destruct oks; [|discriminate]. split; [reflexivity | apply Hnil; reflexivity].
    + rewrite lookup_nil in Hb. discriminate.
  - intros Hopen. destruct Hend as [(-> & Hlen & _ & Hcons)|(b & _ & -> & Hfail)].
    + left. rewrite app_nil_r. split; [|exact Hlen].
      apply Hcons. intros ->. destruct open; [contradiction | discriminate].
    + right. split; [exact Hfail|]. exists (tb_level b). apply last_snoc.
Qed.

End Job.

(** * Runs on explicit inputs *)

(** The five answers of the callback, each on a lookup that calls for it:
    the scanned index is record 0 of file 7. *)
Lemma Callback_decision_witness :
  let cb := {| cfh_ := 0; key_ := "k"; blob_index_ := Demo.index 7 0;
               new_blob_index_ := Demo.index 9 0; read_bytes_ := 0 |} in
  let run lookup :=
    (@Callback Demo.format (Demo.engine (fun _ _ => lookup) true)
               (Demo.files [] Status.OK Status.OK) cb fresh_job).1 in
  (exists cb', run Demo.missing = Returns (Status.Busy "key deleted", cb')) /\
  (exists cb', run (Demo.inlined "v" 1) =
               Returns (Status.Busy "key overwritten with other value", cb')) /\
  (exists cb', run (Demo.points_to (Demo.index 8 3) 1) =
               Returns (Status.Busy "key overwritten with other blob", cb')) /\
  (exists s cb', run (Demo.points_to (Demo.index 7 0) 1) = Returns (s, cb') /\
                 Status.ok s = true) /\
  (exists cb', run (Demo.failing (Status.mk Status.kIOError "disk")) =
               Returns (Status.mk Status.kIOError "disk", cb')) /\
  (exists cb', run Demo.garbled =
               Returns (Status.mk Status.kCorruption "bad blob index", cb')).
Proof.
  intros cb run.
  pose proof (fun lookup =>
    @Callback_decision Demo.format (Demo.engine (fun _ _ => lookup) true)
      (Demo.files [] Status.OK Status.OK) cb fresh_job) as H.
  repeat split.
  - destruct (H Demo.missing) as (s & cb' & Hrun & H1 & _).
    exists cb'. unfold run. rewrite Hrun. simpl. rewrite (H1 eq_refl). reflexivity.
  - destruct (H (Demo.inlined "v" 1)) as (s & cb' & Hrun & _ & H2 & _).
    exists cb'. unfold run. rewrite Hrun. simpl.
    rewrite (H2 eq_refl eq_refl). reflexivity.
  - destruct (H (Demo.points_to (Demo.index 8 3) 1)) as (s & cb' & Hrun & _ & _ & H3 & _).
    exists cb'. unfold run. rewrite Hrun. simpl.
    rewrite (H3 eq_refl eq_refl eq_refl); [reflexivity|]. vm_compute. congruence.
  - destruct (H (Demo.points_to (Demo.index 7 0) 1)) as (s & cb' & Hrun & _ & _ & _ & H4 & _).
    exists s, cb'. unfold run. rewrite Hrun. simpl. split; [reflexivity|].
    apply H4; reflexivity.
  - destruct (H (Demo.failing (Status.mk Status.kIOError "disk")))
      as (s & cb' & Hrun & _ & _ & _ & _ & H5 & _).
    exists cb'. unfold run. rewrite Hrun. simpl.
    rewrite (H5 eq_refl eq_refl). reflexivity.
  - destruct (H Demo.garbled) as (s & cb' & Hrun & _ & _ & _ & _ & _ & H6).
    exists cb'. unfold run. rewrite Hrun. simpl.
    rewrite (H6 eq_refl eq_refl eq_refl). reflexivity.
Defined.

(** Two records of input file 7; the LSM points at record 0 of file 7, on
    level 1.  Record 1 has its bit set and is found overwritten by the
    lookup; with the bit of record 0 cleared, record 0 is discarded without a
    lookup. *)
Lemma scan_classification_witness :
  let E := Demo.engine (fun _ _ => Demo.points_to (Demo.index 7 0) 1) true in
  let F := Demo.files [] Status.OK Status.OK in
  let o := Demo.options kNormalMode 100 false in
  let l := @initial_locals F Status.OK in
  let cleared := SetLiveDataBitset 0 false (Demo.input 7 2) in
  (exists l' st',
     @scan_body Demo.format E F Demo.shadows (Demo.gc [cleared] o)
                (Demo.tuple "k" 7 0) l fresh_job = (Returns (false, l'), st') /\
     discardable_count l' = 1 /\ history st' = [EvIsShutingDown false]) /\
  (exists l' st',
     @scan_body Demo.format E F Demo.shadows (Demo.gc [Demo.input 7 2] o)
                (Demo.tuple "k" 7 1) l fresh_job = (Returns (false, l'), st') /\
     discardable_count l' = 1 /\
     history st' = [EvIsShutingDown false;
                    EvGetImpl "k" (Demo.points_to (Demo.index 7 0) 1)]) /\
  (exists l1 st1,
     @scan_body Demo.format E F Demo.shadows (Demo.gc [Demo.input 7 2] o)
                (Demo.tuple "k" 7 0) l fresh_job
     = @RewriteLive Demo.format E F Demo.shadows (Demo.gc [Demo.input 7 2] o)
                    (Demo.tuple "k" 7 0) 1 l1 st1 /\
     valid_count l1 = 1 /\ last_key_is_fresh l1 = true).
Proof.
  intros E F o l cleared. split_and!.
  - destruct (@scan_classification Demo.format E F Demo.shadows (Demo.gc [cleared] o)
                (Demo.tuple "k" 7 0) l fresh_job cleared eq_refl eq_refl eq_refl)
      as [Hfast _].
    destruct (Hfast eq_refl) as (l' & st' & Hrun & Hd & _ & _ & _ & _ & Hadd).
    exists l', st'. split_and!; [exact Hrun | exact Hd | exact Hadd].
  - destruct (@scan_classification Demo.format E F Demo.shadows
                (Demo.gc [Demo.input 7 2] o)
                (Demo.tuple "k" 7 1) l fresh_job (Demo.input 7 2) eq_refl eq_refl eq_refl)
      as [_ Hslow].
    destruct (Hslow eq_refl) as (_ & _ & Hblob).
    destruct (Hblob eq_refl eq_refl eq_refl) as [Hother _].
    destruct Hother as (l' & st' & Hrun & Hd & _ & _ & _ & _ & Hadd).
    { vm_compute. congruence. }
    exists l', st'. split_and!; [exact Hrun | exact Hd | exact Hadd].
  - destruct (@scan_classification Demo.format E F Demo.shadows
                (Demo.gc [Demo.input 7 2] o)
                (Demo.tuple "k" 7 0) l fresh_job (Demo.input 7 2) eq_refl eq_refl eq_refl)
      as [_ Hslow].
    destruct (Hslow eq_refl) as (_ & _ & Hblob).
    destruct (Hblob eq_refl eq_refl eq_refl) as [_ Hsame].
    destruct (Hsame eq_refl) as (l1 & st1 & Hrun & Hv & _ & Hf & _).
    exists l1, st1. split_and!; [exact Hrun | exact Hv | exact Hf].
Defined.

(** Two versions of key "k" in input file 7, the LSM pointing at the first:
    the first is counted valid and rewritten, the second is skipped. *)
Lemma older_versions_skipped_witness :
  let E := Demo.engine (fun _ _ => Demo.points_to (Demo.index 7 0) 1) true in
  let F := Demo.files [] Status.OK Status.OK in
  let G := Demo.gc [Demo.input 7 2] (Demo.options kNormalMode 100 false) in
  let l := @initial_locals F Status.OK in
  let seen := set_last_key_is_fresh true (set_last_key "k" l) in
  (exists brk l' st' b,
     @scan_body Demo.format E F Demo.shadows G (Demo.tuple "k" 7 1) seen fresh_job
       = (Returns (brk, l'), st') /\
     history st' = [EvIsShutingDown b] /\ valid_count l' = 0 /\
     discardable_count l' = 0 /\ rewrite_batches_ st' = []) /\
  (exists brk l' st',
     @scan_loop Demo.format E F Demo.shadows G
       [Demo.tuple "k" 7 0; Demo.tuple "k" 7 1] l fresh_job = (Returns (brk, l'), st') /\
     valid_count l' = 1 /\ discardable_count l' = 0 /\
     length (rewrite_batches_ st') = 1%nat).
Proof.
  intros E F G l seen.
  destruct (@older_versions_skipped Demo.format E F Demo.shadows G) as (Hskip & _ & Hrun).
  split.
  - destruct (Hskip (Demo.tuple "k" 7 1) seen fresh_job)
      as (brk & l' & st' & b & Hr & Hh & Hd & Hv & _ & _ & _ & _ & _ & Hrb & _);
      [discriminate | reflexivity | reflexivity |].
    exists brk, l', st', b. split_and!; assumption.
  - set (first := @scan_body Demo.format E F Demo.shadows G (Demo.tuple "k" 7 0) l fresh_job).
    set (l1 := match first.1 with Returns (_, l1) => l1 | Faults _ => l end).
    assert (H1 : first.1 = Returns (false, l1)) by (vm_compute; reflexivity).
    pose proof (surjective_pairing first) as Hfirst. rewrite H1 in Hfirst.
    assert (Hv1 : valid_count l1 = 1) by (vm_compute; reflexivity).
    assert (Hd1 : discardable_count l1 = 0) by (vm_compute; reflexivity).
    assert (Hb1 : length (rewrite_batches_ first.2) = 1%nat) by (vm_compute; reflexivity).
    destruct (Hrun (Demo.tuple "k" 7 0) [Demo.tuple "k" 7 1] l fresh_job l1 first.2)
      as (brk & l' & st' & Hr & Hv & Hd & _ & _ & _ & Hrb & _).
    + discriminate.
    + constructor; [reflexivity | constructor].
    + exact Hfirst.
    + rewrite Hv1. discriminate.
    + exists brk, l', st'. split_and!; [exact Hr | congruence | congruence | congruence].
Defined.

(** With an empty key the test of line 238 never holds.  The tuple below
    has the key of [last_key] (the empty key) while [last_key_is_fresh]
    holds, and it is classified all the same: a lookup is made for it and it
    is counted discardable.  The state is the one a first tuple with the empty
    key leaves: the run of the job over two versions of the empty key, the
    LSM pointing at the first, rewrites the first and counts the second as
    overwritten. *)
Lemma empty_key_is_classified_again :
  let E := Demo.engine (fun _ _ => Demo.points_to (Demo.index 7 0) 1) true in
  let F := Demo.files [Demo.tuple "" 7 0; Demo.tuple "" 7 1] Status.OK Status.OK in
  let G := Demo.gc [Demo.input 7 2] (Demo.options kNormalMode 100 true) in
  let seen := set_last_key_is_fresh true (@initial_locals F Status.OK) in
  let t := Demo.tuple "" 7 1 in
  let step := @scan_body Demo.format E F Demo.shadows G t seen fresh_job in
  let run := @Run Demo.format E F Demo.shadows G fresh_job in
  (t_key t = last_key seen /\ last_key_is_fresh seen = true /\
   exists l', step.1 = Returns (false, l') /\ discardable_count l' = 1 /\
              history step.2 = [EvIsShutingDown false;
                                EvGetImpl "" (Demo.points_to (Demo.index 7 0) 1)]) /\
  (run.1 = Returns Status.OK /\
   metrics_ run.2 gc_num_keys_overwritten_check = 1 /\
   length (List.filter is_GetImpl (history run.2)) = 2%nat).
Proof.
  intros E F G seen t step run. split_and!.
  - reflexivity.
  - reflexivity.
  - exists (match step.1 with Returns (_, l') => l' | Faults _ => seen end).
    split_and!; vm_compute; reflexivity.
  - vm_compute. reflexivity.
  - vm_compute. reflexivity.
  - vm_compute. reflexivity.
Qed.

(** Two live records of 11 bytes each and a target of 8 bytes: after the
    first record the output file holds more than the target, and the second
    record is appended to the same file all the same.  One file is opened
    during the whole run and it ends with both records, 22 bytes. *)
Lemma output_file_not_rolled_at_target :
  let lookup (_ : nat) (key : string) :=
    if String.eqb key "a" then Demo.points_to (Demo.index 7 0) 1
    else Demo.points_to (Demo.index 7 1) 1 in
  let E := Demo.engine lookup true in
  let F := Demo.files [Demo.tuple "a" 7 0; Demo.tuple "b" 7 1] Status.OK Status.OK in
  let G := Demo.gc [Demo.input 7 2] (Demo.options kNormalMode 8 false) in
  let r := @Run Demo.format E F Demo.shadows G fresh_job in
  r.1 = Returns Status.OK /\
  List.filter is_NewFile (history r.2) = [EvNewFile Status.OK 103] /\
  map (fun b => (b.1, @NumEntries F <$> b.2, @GetFileSize F 103 <$> b.2))
      (blob_file_builders_ r.2)
    = [(Some 103, Some 2, Some 22)] /\
  metrics_ r.2 gc_bytes_written_blob = 22.
Proof.
  intros lookup E F G r. split_and!; vm_compute; reflexivity.
Qed.



(** The commit of a job that has relocated the one record of input file 7
    to output file 103: the four steps occur once each, in their order; the
    publication is that of file 103, and the batch written afterwards is the
    new index of the key, in file 103. *)
Lemma commit_order_witness :
  let E := Demo.engine (fun _ _ => Demo.points_to (Demo.index 7 0) 1) true in
  let F := Demo.files [Demo.tuple "k" 7 0] Status.OK Status.OK in
  let G := Demo.gc [Demo.input 7 1] (Demo.options kNormalMode 100 false) in
  let st := (@Run Demo.format E F Demo.shadows G fresh_job).2 in
  from_inputs (inputs G) (@iter_tuples F) /\
  output_numbers st = [103] /\
  exists evs,
    history (@Finish Demo.format E F G st).2 = history st ++ evs /\
    in_order evs /\
    preceded_by (publishes_outputs [103]) writes evs /\
    preceded_by (publishes_outputs [103]) obsoletes evs /\
    preceded_by syncs obsoletes evs /\
    omap phase evs = [0; 1; 2; 3]%nat /\
    List.filter is_Write evs
      = [EvWrite [OpPutBlobIndex 0 "k"
                    (Demo.encode (BlobIndex.mk 103 (BlobHandle.mk 0 11 0)))] Status.OK].
Proof.
  intros E F G st.
  assert (Hn : output_numbers st = [103]) by (vm_compute; reflexivity).
  split_and!; [vm_compute; reflexivity | exact Hn |].
  destruct (@commit_order Demo.format E F G st) as (evs & Hevs & Hord & Hw & Ho & Hs & _).
  rewrite Hn in Hw, Ho.
  exists evs. split_and!;
    [exact Hevs | exact Hord | exact Hw | exact Ho | exact (Hs eq_refl) | |].
  all: apply (f_equal (drop (length (history st)))) in Hevs;
    rewrite drop_app_length in Hevs; rewrite <- Hevs;
    vm_compute; reflexivity.
Defined.

(** The same job with shadow tables ([rewrite_shadow] on).  The scan and
    [Finish] return OK; [Finish] publishes output file 103 and marks input
    file 7 obsolete, and the WAL is not synced in between: no sync stands
    before the manifest edit. *)
Lemma shadow_mode_obsoletes_without_sync :
  let E := Demo.engine (fun _ _ => Demo.points_to (Demo.index 7 0) 1) true in
  let F := Demo.files [Demo.tuple "k" 7 0] Status.OK Status.OK in
  let G := Demo.gc [Demo.input 7 1] (Demo.options kNormalMode 100 true) in
  let scan := @Run Demo.format E F Demo.shadows G fresh_job in
  let r := @Finish Demo.format E F G scan.2 in
  let evs := added scan.2 r.2 in
  from_inputs (inputs G) (@iter_tuples F) /\
  scan.1 = Returns Status.OK /\ r.1 = Returns Status.OK /\
  evs = [EvMutexUnlock; EvBuilderFinish Status.OK; EvBatchFinishFiles [103] Status.OK;
         EvMutexLock; EvIsDropped false; EvGetLatestSequenceNumber 100;
         EvLogAndApply {| edit_cf := 0; edit_deleted := [(7, 100)] |} Status.OK;
         EvUpdateInternalOpStats] /\
  ~ preceded_by syncs obsoletes evs.
Proof.
  intros E F G scan r evs.
  assert (Hevs : evs =
            [EvMutexUnlock; EvBuilderFinish Status.OK; EvBatchFinishFiles [103] Status.OK;
             EvMutexLock; EvIsDropped false; EvGetLatestSequenceNumber 100;
             EvLogAndApply {| edit_cf := 0; edit_deleted := [(7, 100)] |} Status.OK;
             EvUpdateInternalOpStats]) by (vm_compute; reflexivity).
  split_and!; [vm_compute; reflexivity | vm_compute; reflexivity
              | vm_compute; reflexivity | exact Hevs |].
  rewrite Hevs. intros H.
  destruct (H [EvMutexUnlock; EvBuilderFinish Status.OK;
               EvBatchFinishFiles [103] Status.OK;
               EvMutexLock; EvIsDropped false; EvGetLatestSequenceNumber 100]
              (EvLogAndApply {| edit_cf := 0; edit_deleted := [(7, 100)] |} Status.OK)
              [EvUpdateInternalOpStats] eq_refl)
    as (e' & He' & (s & -> & _)).
  - eexists _, _. reflexivity.
  - repeat (apply elem_of_cons in He' as [He'|He']; [discriminate|]).
    apply elem_of_nil in He'. exact He'.
Qed.

(** One live key has been relocated to output file 103.  When
    [BatchFinishFiles] fails, [Finish] returns its error, writes no batch and
    marks no input obsolete, and it never calls [BatchDeleteFiles]: the
    output file stays.  When finishing the builder fails instead, the output
    file is handed to [BatchDeleteFiles]. *)
Lemma publish_failure_deletes_nothing :
  let E := Demo.engine (fun _ _ => Demo.points_to (Demo.index 7 0) 1) true in
  let G := Demo.gc [Demo.input 7 2] (Demo.options kNormalMode 100 false) in
  let error := Status.mk Status.kIOError "disk" in
  let job F := @Finish Demo.format E F G (@Run Demo.format E F Demo.shadows G fresh_job).2 in
  let publish_fails := job (Demo.files [Demo.tuple "k" 7 0] Status.OK error) in
  let finish_fails := job (Demo.files [Demo.tuple "k" 7 0] error Status.OK) in
  (publish_fails.1 = Returns error /\
   List.filter is_BatchFinishFiles (history publish_fails.2)
     = [EvBatchFinishFiles [103] error] /\
   List.filter is_BatchDeleteFiles (history publish_fails.2) = [] /\
   List.filter is_Write (history publish_fails.2) = [] /\
   List.filter is_LogAndApply (history publish_fails.2) = []) /\
  (finish_fails.1 = Returns error /\
   List.filter is_BatchDeleteFiles (history finish_fails.2)
     = [EvBatchDeleteFiles [103] Status.OK] /\
   List.filter is_Write (history finish_fails.2) = [] /\
   List.filter is_LogAndApply (history finish_fails.2) = []).
Proof.
  intros E G error job publish_fails finish_fails.
  split_and!; vm_compute; reflexivity.
Qed.


(** Three input files of which the second cannot be read: the reader of
    file 7 is opened, the reader of file 8 fails, the reader of file 9 is
    not asked for, and no iterator is made. *)
Lemma BuildIterator_prefix_witness :
  let E := Demo.engine (fun _ _ => Demo.missing) true in
  let F := Demo.unreadable 8 [] in
  let G := Demo.gc [Demo.input 7 2; Demo.input 8 2; Demo.input 9 2]
             (Demo.options kNormalMode 100 false) in
  let error := Status.mk Status.kIOError "no such file" in
  (exists s (oks stop : list Event),
     @BuildIterator E F G fresh_job =
       (Returns (s, if Status.ok s then Some (@iter_tuples F, @iter_terminal_status F)
                    else None),
        set_history (history fresh_job ++ oks ++ stop) fresh_job) /\
     ((stop = [] /\ length oks = 3%nat /\ Status.ok s = true) \/
      (exists f, inputs G !! length oks = Some f /\
                 stop = [EvNewBlobFileReader (file_number f) s] /\ Status.ok s = false))) /\
  (@BuildIterator E F G fresh_job).1 = Returns (error, None) /\
  history (@BuildIterator E F G fresh_job).2
    = [EvNewBlobFileReader 7 Status.OK; EvNewBlobFileReader 8 error].
Proof.
  intros E F G error. split_and!.
  - destruct (@BuildIterator_prefix E F G fresh_job) as (s & oks & stop & Hrun & _ & Hend).
    + discriminate.
    + exists s, oks, stop. split; [exact Hrun | exact Hend].
  - vm_compute. reflexivity.
  - vm_compute. reflexivity.
Defined.

(** The job is shutting down when the first of two tuples is polled: the
    scan ends on it and [DoRunGC] returns ShutdownInProgress. *)
Lemma shutdown_stops_scan_witness :
  let E := Demo.stopping (fun _ => false) (fun _ => true)
             (fun _ _ => Demo.points_to (Demo.index 7 0) 1) in
  let F := Demo.files [Demo.tuple "a" 7 0; Demo.tuple "b" 7 1] Status.OK Status.OK in
  let G := Demo.gc [Demo.input 7 2] (Demo.options kNormalMode 100 false) in
  let l := @initial_locals F Status.OK in
  let l' := set_s_status Status.ShutdownInProgress (set_total_count (u64 (0 + 1)) l) in
  let st' := set_history (history fresh_job ++ [EvIsShutingDown true]) fresh_job in
  @scan_loop Demo.format E F Demo.shadows G [Demo.tuple "a" 7 0; Demo.tuple "b" 7 1]
    l fresh_job = (Returns (true, l'), st') /\
  @AfterScan E F Demo.shadows G true Status.OK l' st'
    = (Returns Status.ShutdownInProgress, st').
Proof.
  intros E F G l l' st'.
  destruct (@shutdown_stops_scan Demo.format E F Demo.shadows G
              (Demo.tuple "a" 7 0) [Demo.tuple "b" 7 1] l fresh_job eq_refl) as [Hscan Hafter].
  split; [exact Hscan | exact (Hafter eq_refl Status.OK)].
Defined.

(** Two live records and a target of 8 bytes: the run registers one output
    file.  With a blob index of no input file as the second tuple the run
    fails and registers none. *)
Lemma Run_registers_one_file_witness :
  let lookup (_ : nat) (key : string) :=
    if String.eqb key "a" then Demo.points_to (Demo.index 7 0) 1
    else Demo.points_to (Demo.index 7 1) 1 in
  let E := Demo.engine lookup true in
  let G := Demo.gc [Demo.input 7 2] (Demo.options kNormalMode 8 false) in
  let F := Demo.files [Demo.tuple "a" 7 0; Demo.tuple "b" 7 1] Status.OK Status.OK in
  let F' := Demo.files [Demo.tuple "a" 7 0; Demo.tuple "b" 9 0] Status.OK Status.OK in
  (exists new,
     blob_file_builders_ (@Run Demo.format E F Demo.shadows G fresh_job).2 = [] ++ new /\
     (length new <= 1)%nat) /\
  blob_file_builders_ (@Run Demo.format E F' Demo.shadows G fresh_job).2 = [].
Proof.
  intros lookup E G F F'. split.
  - set (r := @Run Demo.format E F Demo.shadows G fresh_job).
    assert (H1 : r.1 = Returns Status.OK) by (vm_compute; reflexivity).
    pose proof (surjective_pairing r) as Hr. rewrite H1 in Hr.
    destruct (@Run_registers_one_file Demo.format E F Demo.shadows G fresh_job
                Status.OK r.2) as (new & Hnew & Hlen & _).
    + reflexivity.
    + exact Hr.
    + exists new. split; [exact Hnew | exact Hlen].
  - set (r := @Run Demo.format E F' Demo.shadows G fresh_job).
    assert (H1 : r.1 = Returns (Status.NotFound "Blob file meta not found"))
      by (vm_compute; reflexivity).
    pose proof (surjective_pairing r) as Hr. rewrite H1 in Hr.
    destruct (@Run_registers_one_file Demo.format E F' Demo.shadows G fresh_job
                _ r.2 eq_refl Hr) as (new & Hnew & _ & _ & Hnone).
    rewrite Hnew, (Hnone eq_refl eq_refl). reflexivity.
Defined.

(** The reader of the only input file cannot be opened: [Run] returns the
    error of the reader and scans nothing. *)
Lemma Run_without_iterator_witness :
  let E := Demo.engine (fun _ _ => Demo.missing) true in
  let F := Demo.unreadable 7 [Demo.tuple "a" 7 0] in
  let G := Demo.gc [Demo.input 7 2] (Demo.options kNormalMode 100 false) in
  let error := Status.mk Status.kIOError "no such file" in
  exists st',
    @Run Demo.format E F Demo.shadows G fresh_job = (Returns error, st') /\
    exists evs, st' = set_history (history fresh_job ++ evs) fresh_job /\
                Forall is_reader_open evs.
Proof.
  intros E F G error.
  set (r := @BuildIterator E F G fresh_job).
  assert (H1 : r.1 = Returns (error, None)) by (vm_compute; reflexivity).
  pose proof (surjective_pairing r) as Hr. rewrite H1 in Hr.
  destruct (@Run_without_iterator Demo.format E F Demo.shadows G fresh_job error r.2 Hr)
    as (s' & Hrun & _ & Hs & _ & Hev).
  exists r.2. rewrite Hrun, (Hs eq_refl). split; [reflexivity | exact Hev].
Defined.

(** Two live records scanned in fallback mode: two batches, no file. *)
Lemma fallback_scan_witness :
  let lookup (_ : nat) (key : string) :=
    if String.eqb key "a" then Demo.points_to (Demo.index 7 0) 1
    else Demo.points_to (Demo.index 7 1) 1 in
  let E := Demo.engine lookup true in
  let F := Demo.files [Demo.tuple "a" 7 0; Demo.tuple "b" 7 1] Status.OK Status.OK in
  let G := Demo.gc [Demo.input 7 2] (Demo.options kFallback 100 false) in
  let ts := [Demo.tuple "a" 7 0; Demo.tuple "b" 7 1] in
  let r := @scan_loop Demo.format E F Demo.shadows G ts (@initial_locals F Status.OK)
             fresh_job in
  exists l',
    r.1 = Returns (false, l') /\
    @fallback_step Demo.format F G ts (@initial_locals F Status.OK) fresh_job l' r.2 /\
    length (rewrite_batches_ r.2) = 2%nat.
Proof.
  intros lookup E F G ts r.
  set (l' := match r.1 with Returns (_, l') => l' | Faults _ => @initial_locals F Status.OK end).
  assert (H1 : r.1 = Returns (false, l')) by (vm_compute; reflexivity).
  pose proof (surjective_pairing r) as Hr. rewrite H1 in Hr.
  exists l'. split_and!.
  - exact H1.
  - exact (proj1 (@fallback_scan Demo.format E F Demo.shadows G ts _ fresh_job false l' r.2
                    eq_refl Hr)).
  - vm_compute. reflexivity.
Defined.

(** One live key relocated to output file 103: the installation finishes
    the one builder, publishes file 103 and adds it to the outputs. *)
Lemma InstallOutputBlobFiles_published_witness :
  let E := Demo.engine (fun _ _ => Demo.points_to (Demo.index 7 0) 1) true in
  let F := Demo.files [Demo.tuple "k" 7 0] Status.OK Status.OK in
  let G := Demo.gc [Demo.input 7 2] (Demo.options kNormalMode 100 false) in
  let st := (@Run Demo.format E F Demo.shadows G fresh_job).2 in
  exists st' (pre : list Event),
    @InstallOutputBlobFiles Demo.format E F G st = (Returns Status.OK, st') /\
    history st' = history st ++ pre ++ [EvBatchFinishFiles [103] Status.OK] /\
    length pre = 1%nat /\ outputs st' = [103].
Proof.
  intros E F G st.
  set (r := @InstallOutputBlobFiles Demo.format E F G st).
  assert (H1 : r.1 = Returns Status.OK) by (vm_compute; reflexivity).
  pose proof (surjective_pairing r) as Hr. rewrite H1 in Hr.
  destruct (@InstallOutputBlobFiles_published Demo.format E F G st Status.OK r.2 Hr eq_refl)
    as (numbers & pre & Hn & Hh & Hlen & _ & Ho & _).
  assert (Hb : (blob_file_builders_ st).*1 = [Some 103]) by (vm_compute; reflexivity).
  assert (numbers = [103]) as ->.
  { destruct (blob_file_builders_ st) as [|b [|b' bs]]; try discriminate.
    inversion Hn as [|b0 n bs ns Hhead Htail]; subst.
    inversion Htail; subst. cbn in Hhead, Hb. congruence. }
  exists r.2, pre. split_and!; [exact Hr | exact Hh | | exact Ho].
  rewrite Hlen. apply (f_equal length) in Hb. rewrite length_fmap in Hb. exact Hb.
Defined.

(** Three batches: the key of the first is still where the scan found it
    and is relocated, the key of the second has been deleted, the third was
    made in fallback mode.  Each is counted once. *)
Lemma rewrite_counts_each_batch_once_witness :
  let lookup (_ : nat) (key : string) :=
    if String.eqb key "b" then Demo.missing
    else if String.eqb key "a" then Demo.points_to (Demo.index 7 0) 1
    else Demo.points_to (Demo.index 7 2) 1 in
  let E := Demo.engine lookup true in
  let F := Demo.files [] Status.OK Status.OK in
  let batch key order new_index :=
    ([OpPutBlobIndex 0 key (Demo.encode new_index)],
     {| cfh_ := 0; key_ := key; blob_index_ := Demo.index 7 order;
        new_blob_index_ := new_index; read_bytes_ := 0 |}) in
  let todo := [batch "a" 0 (BlobIndex.mk 103 (BlobHandle.mk 0 11 0));
               batch "b" 1 (BlobIndex.mk 103 (BlobHandle.mk 11 11 1));
               batch "c" 2 BlobIndex.empty] in
  let r := @RewriteLoop Demo.format E F todo [] ∅ Status.OK fresh_job in
  u64 (keys_counted r.2) = 3 /\
  metrics_ r.2 gc_num_keys_relocated = 1 /\ metrics_ r.2 gc_num_keys_fallback = 1 /\
  metrics_ r.2 gc_num_keys_overwritten_callback = 1.
Proof.
  intros lookup E F batch todo r.
  set (s := match r.1 with Returns (s, _, _) => s | Faults _ => Status.OK end).
  set (batches := match r.1 with Returns (_, b, _) => b | Faults _ => [] end).
  set (dropped := match r.1 with Returns (_, _, d) => d | Faults _ => ∅ end).
  assert (H1 : r.1 = Returns (s, batches, dropped)) by (vm_compute; reflexivity).
  pose proof (surjective_pairing r) as Hr. rewrite H1 in Hr.
  destruct (@rewrite_counts_each_batch_once Demo.format E F todo [] ∅ Status.OK fresh_job
              s batches dropped r.2 Hr) as [Hcount _].
  - vm_compute. reflexivity.
  - split_and!; [rewrite Hcount | | |]; vm_compute; reflexivity.
Defined.

(** A job with one rewrite batch whose column family has been dropped, and
    the same job shutting down: nothing is written, the mutex is taken and
    released, the status is Aborted, respectively ShutdownInProgress. *)
Lemma rewrite_stops_when_dropped_or_shut_witness :
  let F := Demo.files [] Status.OK Status.OK in
  let new_index := BlobIndex.mk 103 (BlobHandle.mk 0 11 0) in
  let cb := {| cfh_ := 0; key_ := "a"; blob_index_ := Demo.index 7 0;
               new_blob_index_ := new_index; read_bytes_ := 0 |} in
  let wb := [OpPutBlobIndex 0 "a" (Demo.encode new_index)] in
  let st := set_rewrite_batches [(wb, cb)] (@fresh_job F) in
  let run dropped shut :=
    @RewriteValidKeyToLSM Demo.format
      (Demo.stopping (fun _ => dropped) (fun _ => shut) (fun _ _ => Demo.missing)) F st in
  run true false =
    (Returns (Status.Aborted "Column family drop"),
     set_history [EvIsDropped true; EvMutexLock; EvMutexUnlock] st) /\
  run false true =
    (Returns Status.ShutdownInProgress,
     set_history [EvIsDropped false; EvIsShutingDown true; EvMutexLock; EvMutexUnlock] st).
Proof.
  intros F new_index cb wb st run. split.
  - destruct (@rewrite_stops_when_dropped_or_shut Demo.format
                (Demo.stopping (fun _ => true) (fun _ => false) (fun _ _ => Demo.missing)) F
                wb cb [] [] ∅ Status.OK st (or_introl eq_refl))
      as (s & polls & _ & [[-> ->]|[-> ->]] & _ & _ & Hrun).
    + exact (Hrun eq_refl eq_refl eq_refl eq_refl).
    + specialize (Hrun eq_refl eq_refl eq_refl eq_refl).
      unfold run. rewrite Hrun. vm_compute in Hrun. discriminate Hrun.
  - destruct (@rewrite_stops_when_dropped_or_shut Demo.format
                (Demo.stopping (fun _ => false) (fun _ => true) (fun _ _ => Demo.missing)) F
                wb cb [] [] ∅ Status.OK st (or_intror (conj eq_refl eq_refl)))
      as (s & polls & _ & [[-> ->]|[-> ->]] & _ & _ & Hrun).
    + specialize (Hrun eq_refl eq_refl eq_refl eq_refl).
      unfold run. rewrite Hrun. vm_compute in Hrun. discriminate Hrun.
    + exact (Hrun eq_refl eq_refl eq_refl eq_refl).
Defined.

(** A job with shadow tables that has relocated one live key: [Finish]
    installs output file 103, appends the output shadows, and marks input
    file 7 obsolete, without a write or a sync. *)
Lemma Finish_with_shadows_witness :
  let E := Demo.engine (fun _ _ => Demo.points_to (Demo.index 7 0) 1) true in
  let F := Demo.files [Demo.tuple "k" 7 0] Status.OK Status.OK in
  let G := {| inputs := [Demo.input 7 2];
              titan_cf_options := Demo.options kNormalMode 100 true;
              cf_id := 0; output_shadows := [500] |} in
  let st := (@Run Demo.format E F Demo.shadows G fresh_job).2 in
  exists o st' (install tail : list Event),
    @Finish Demo.format E F G st = (o, st') /\
    history st' = history st ++ [EvMutexUnlock] ++ install ++ tail /\
    Forall (fun e => install_call e = true) install /\
    Forall (fun e => tail_call e = true) tail /\
    shadow_set st' = [500] /\
    List.filter is_LogAndApply (history st')
      = [EvLogAndApply {| edit_cf := 0; edit_deleted := [(7, 100)] |} Status.OK].
Proof.
  intros E F G st.
  destruct (@Finish_with_shadows Demo.format E F G st eq_refl)
    as (o & st' & install & tail & Hrun & Hh & Hi & Ht & Hsh).
  exists o, st', install, tail. split_and!; try assumption.
  - set (r := @InstallOutputBlobFiles Demo.format E F G
                (set_history (history st ++ [EvMutexUnlock]) st)).
    assert (H1 : r.1 = Returns Status.OK) by (vm_compute; reflexivity).
    pose proof (surjective_pairing r) as Hr. rewrite H1 in Hr.
    destruct (Hsh Status.OK r.2 Hr) as [Hok _]. rewrite (Hok eq_refl).
    vm_compute. reflexivity.
  - assert (Hst : st' = (@Finish Demo.format E F G st).2) by (rewrite Hrun; reflexivity).
    rewrite Hst. vm_compute. reflexivity.
Defined.

(** The column family is dropped while the job holds one rewrite batch:
    [Finish] writes nothing and marks no input obsolete. *)
Lemma Finish_dropped_column_family_witness :
  let E := Demo.stopping (fun _ => true) (fun _ => false)
             (fun _ _ => Demo.points_to (Demo.index 7 0) 1) in
  let F := Demo.files [Demo.tuple "k" 7 0] Status.OK Status.OK in
  let G := Demo.gc [Demo.input 7 2] (Demo.options kNormalMode 100 false) in
  let st := (@Run Demo.format E F Demo.shadows G fresh_job).2 in
  length (rewrite_batches_ st) = 1%nat /\
  (@Finish Demo.format E F G st).1 = Returns (Status.Aborted "Column family drop") /\
  exists evs : list Event,
    history (@Finish Demo.format E F G st).2 = history st ++ evs /\
    Forall (fun e => ~ writes e /\ ~ obsoletes e) evs.
Proof.
  intros E F G st. split_and!.
  - vm_compute. reflexivity.
  - vm_compute. reflexivity.
  - exact (@Finish_dropped_column_family Demo.format E F G st (fun _ => eq_refl)).
Defined.

(** One live key has been relocated and [BatchFinishFiles] fails: [Finish]
    returns its error after taking the mutex again. *)
Lemma Finish_install_failed_witness :
  let E := Demo.engine (fun _ _ => Demo.points_to (Demo.index 7 0) 1) true in
  let error := Status.mk Status.kIOError "disk" in
  let F := Demo.files [Demo.tuple "k" 7 0] Status.OK error in
  let G := Demo.gc [Demo.input 7 2] (Demo.options kNormalMode 100 false) in
  let st := (@Run Demo.format E F Demo.shadows G fresh_job).2 in
  exists st1 (evs : list Event),
    @Finish Demo.format E F G st
      = (Returns error, set_history (history st1 ++ [EvMutexLock]) st1) /\
    history st1 = history st ++ EvMutexUnlock :: evs /\
    Forall (fun e => ~ writes e /\ ~ obsoletes e /\ is_FlushWAL e = false) evs.
Proof.
  intros E error F G st.
  set (r := @InstallOutputBlobFiles Demo.format E F G
              (set_history (history st ++ [EvMutexUnlock]) st)).
  assert (H1 : r.1 = Returns error) by (vm_compute; reflexivity).
  pose proof (surjective_pairing r) as Hr. rewrite H1 in Hr.
  destruct (@Finish_install_failed Demo.format E F G st error r.2 Hr eq_refl)
    as (Hrun & evs & Hh & Hev).
  exists r.2, evs. split_and!; assumption.
Defined.

(** The input set is file 7 and the tuple carries a blob index of file 9:
    the scan stops on it with NotFound and makes no lookup. *)
Lemma bitset_check_missing_file_witness :
  let E := Demo.engine (fun _ _ => Demo.points_to (Demo.index 7 0) 1) true in
  let F := Demo.files [Demo.tuple "b" 9 0] Status.OK Status.OK in
  let G := Demo.gc [Demo.input 7 2] (Demo.options kNormalMode 100 false) in
  let l := @initial_locals F Status.OK in
  exists l' st',
    @scan_body Demo.format E F Demo.shadows G (Demo.tuple "b" 9 0) l fresh_job
      = (Returns (true, l'), st') /\
    s_status l' = Status.NotFound "Blob file meta not found" /\
    history st' = [EvIsShutingDown false].
Proof.
  intros E F G l.
  destruct (@bitset_check_missing_file Demo.format E F Demo.shadows G
              (Demo.tuple "b" 9 0) l fresh_job eq_refl eq_refl eq_refl)
    as (_ & l' & st' & Hrun & Hs & _ & _ & _ & Hh).
  exists l', st'. split_and!; assumption.
Defined.

(** The shadow table of level 1 is open and the target size is one entry:
    the entry of a live record fills the table, which is finished, and the
    slot of level 1 is empty again. *)
Lemma shadow_table_rolls_witness :
  let E := Demo.engine (fun _ _ => Demo.missing) true in
  let F := Demo.files [] Status.OK Status.OK in
  let G := Demo.gc [Demo.input 7 2]
             {| blob_run_mode := kNormalMode; blob_file_target_size := 100;
                rewrite_shadow := true; shadow_target_size := 1 |} in
  let tb := {| tb_number := 500; tb_level := 1; tb_entries := [] |} in
  let l := set_level_shadow_builders (<[1%nat := Some tb]> (replicate 7 None))
             (@initial_locals F Status.OK) in
  let ctx := {| ctx_key := Demo.ikey_encode "k" 1 kTypeValue;
                ctx_original_blob_index := Demo.index 7 0;
                ctx_new_blob_index := BlobIndex.mk 103 (BlobHandle.mk 0 11 0) |} in
  exists brk l' st',
    @RewriteToShadow Demo.format E F Demo.shadows G 1 [ctx] l fresh_job
      = (Returns (brk, l'), st') /\
    brk = false /\ shadow_size l' = 1 /\
    history st' = [EvShadowFinish 1 Status.OK] /\
    level_shadow_builders l' !! 1%nat = Some None.
Proof.
  intros E F G tb l ctx.
  destruct (@shadow_table_rolls Demo.format E F Demo.shadows G 1 [ctx] l fresh_job tb)
    as (brk & l' & st' & Hrun & Hsize & _ & _ & _ & Hbig).
  - lia.
  - reflexivity.
  - reflexivity.
  - destruct Hbig as (Hst & _ & Hbrk & Hok & _); [vm_compute; discriminate|].
    exists brk, l', st'. split_and!.
    + exact Hrun.
    + rewrite Hbrk. reflexivity.
    + rewrite Hsize. reflexivity.
    + rewrite Hst. reflexivity.
    + exact (proj1 (Hok eq_refl)).
Defined.

(** A scan of one live record after which the iterator reports an I/O
    error: [DoRunGC] returns this error and the output file 103, though open
    and written, is not registered. *)
Lemma iterator_error_returned_witness :
  let E := Demo.engine (fun _ _ => Demo.points_to (Demo.index 7 0) 1) true in
  let error := Status.mk Status.kIOError "read" in
  let F := Demo.files_ending [Demo.tuple "k" 7 0] error in
  let G := Demo.gc [Demo.input 7 2] (Demo.options kNormalMode 100 false) in
  let r := @DoRunGC Demo.format E F Demo.shadows G fresh_job in
  r.1 = Returns error /\ blob_file_builders_ r.2 = [] /\
  List.filter is_NewFile (history r.2) = [EvNewFile Status.OK 103].
Proof.
  intros E error F G r.
  set (b := @BuildIterator E F G fresh_job).
  assert (Hb1 : b.1 = Returns (Status.OK, Some ([Demo.tuple "k" 7 0], error)))
    by (vm_compute; reflexivity).
  pose proof (surjective_pairing b) as Hb. rewrite Hb1 in Hb.
  set (sc := @scan_loop Demo.format E F Demo.shadows G [Demo.tuple "k" 7 0]
               (@initial_locals F Status.OK) b.2).
  set (l := match sc.1 with Returns (_, l) => l | Faults _ => @initial_locals F Status.OK end).
  assert (Hs1 : sc.1 = Returns (false, l)) by (vm_compute; reflexivity).
  pose proof (surjective_pairing sc) as Hs. rewrite Hs1 in Hs.
  destruct (@iterator_error_returned Demo.format E F Demo.shadows G error l sc.2 eq_refl) as [_ Hrun].
  specialize (Hrun fresh_job [Demo.tuple "k" 7 0] Status.OK b.2 Hb eq_refl).
  assert (Hr : r = (Returns error, sc.2)).
  { apply Hrun; [discriminate | exact Hs]. }
  rewrite Hr. split_and!; [reflexivity | vm_compute; reflexivity | vm_compute; reflexivity].
Defined.

(** A batch whose key is still where the scan found it: the write returns
    OK and the key is counted as relocated. *)
Lemma rewrite_step_written_or_failed_witness :
  let E := Demo.engine (fun _ _ => Demo.points_to (Demo.index 7 0) 1) true in
  let F := Demo.files [] Status.OK Status.OK in
  let new_index := BlobIndex.mk 103 (BlobHandle.mk 0 11 0) in
  let cb := {| cfh_ := 0; key_ := "a"; blob_index_ := Demo.index 7 0;
               new_blob_index_ := new_index; read_bytes_ := 0 |} in
  let wb := [OpPutBlobIndex 0 "a" (Demo.encode new_index)] in
  exists cb' st',
    @RewriteLoop Demo.format E F [(wb, cb)] [] ∅ Status.OK fresh_job
      = @RewriteLoop Demo.format E F [] [(wb, cb')] ∅ Status.OK st' /\
    metrics_ st' gc_num_keys_relocated = 1 /\ metrics_ st' gc_num_keys_fallback = 0 /\
    metrics_ st' gc_bytes_relocated = 10 /\
    List.filter is_Write (history st') = [EvWrite wb Status.OK].
Proof.
  intros E F new_index cb wb.
  set (w := @WriteWithCallback Demo.format E F wb cb
              (set_history ((history fresh_job ++ [EvIsDropped false])
                              ++ [EvIsShutingDown false]) fresh_job)).
  set (cb' := match w.1 with Returns (_, c) => c | Faults _ => cb end).
  assert (H1 : w.1 = Returns (Status.OK, cb')) by (vm_compute; reflexivity).
  pose proof (surjective_pairing w) as Hw. rewrite H1 in Hw.
  destruct (@rewrite_step_written_or_failed Demo.format E F wb cb [] [] ∅ Status.OK
              fresh_job Status.OK cb' w.2 eq_refl eq_refl Hw eq_refl) as [Hok _].
  destruct (Hok eq_refl) as (st'' & Hrun & Hh & Hrel & Hfb & _ & Hbytes & _).
  exists cb', st''. split_and!.
  - exact Hrun.
  - rewrite Hrel. vm_compute. reflexivity.
  - rewrite Hfb. vm_compute. reflexivity.
  - rewrite Hbytes. vm_compute. reflexivity.
  - rewrite Hh. vm_compute. reflexivity.
Defined.

(** Two tuples of input file 7: the LSM still points at the first, the key
    of the second has been deleted.  Both are counted, one as valid and one as
    discardable. *)
Lemma scan_counters_witness :
  let lookup (_ : nat) (key : string) :=
    if String.eqb key "a" then Demo.points_to (Demo.index 7 0) 1 else Demo.missing in
  let E := Demo.engine lookup true in
  let F := Demo.files [Demo.tuple "a" 7 0; Demo.tuple "b" 7 1] Status.OK Status.OK in
  let G := Demo.gc [Demo.input 7 2] (Demo.options kNormalMode 100 false) in
  let l := @initial_locals F Status.OK in
  let r := @scan_loop Demo.format E F Demo.shadows G
             [Demo.tuple "a" 7 0; Demo.tuple "b" 7 1] l fresh_job in
  exists l' k v d,
    r.1 = Returns (false, l') /\ k = 2 /\ 0 <= v /\ 0 <= d /\ v + d <= k /\
    @counted F k v d l fresh_job l' r.2 /\
    total_count l' = 2 /\ valid_count l' = 1 /\ discardable_count l' = 1 /\
    metrics_ r.2 gc_num_keys_overwritten_check = 1.
Proof.
  intros lookup E F G l r.
  set (l' := match r.1 with Returns (_, l') => l' | Faults _ => l end).
  assert (H1 : r.1 = Returns (false, l')) by (vm_compute; reflexivity).
  pose proof (surjective_pairing r) as Hr. rewrite H1 in Hr.
  destruct (@scan_counters Demo.format E F Demo.shadows G _ l fresh_job false l' r.2 Hr)
    as (k & v & d & Hv & Hd & Hvd & Hall & _ & Hc).
  exists l', k, v, d. split_and!; try assumption.
  - exact (Hall eq_refl).
  - lia.
  - vm_compute. reflexivity.
  - vm_compute. reflexivity.
  - vm_compute. reflexivity.
  - vm_compute. reflexivity.
Defined.

(** A live record met while no output file is open, the target size being
    100: the file manager is asked for a file, and the record is then handled
    with this file open. *)
Lemma RewriteToBlobFile_opens_file_witness :
  let E := Demo.engine (fun _ _ => Demo.missing) true in
  let F := Demo.files [] Status.OK Status.OK in
  let G := Demo.gc [Demo.input 7 2]
             {| blob_run_mode := kNormalMode; blob_file_target_size := 100;
                rewrite_shadow := false; shadow_target_size := 1 |} in
  let t := Demo.tuple "k" 7 0 in
  let l := @initial_locals F Status.OK in
  let r := @bfm_NewFile F 0 in
  let st1 := set_history [EvNewFile r.1 r.2] fresh_job in
  0 < 100 /\
  @RewriteToBlobFile Demo.format E F Demo.shadows G t 1 l fresh_job
    = @RewriteToBlobFile Demo.format E F Demo.shadows G t 1 (with_output_file r.1 r.2 l) st1.
Proof.
  intros E F G t l r st1. split; [lia|].
  destruct (@RewriteToBlobFile_opens_file Demo.format E F Demo.shadows G t 1 l fresh_job)
    as [Hclosed _]; [cbn; lia|].
  destruct Hclosed as [_ Hopen]; [reflexivity | reflexivity | cbn; lia |].
  apply Hopen. reflexivity.
Defined.

(** Input file 7 holds the records of "a" and "b", both live on level 1,
    and the job is shut down after the first has been relocated.  The loop is
    left on the poll of the second record with ShutdownInProgress while the
    shadow table of level 1 is open; the table is finished and [Run] returns
    OK, with no output file registered. *)
Lemma break_status_replaced_witness :
  let lookup (_ : nat) (key : string) :=
    if String.eqb key "a" then Demo.points_to (Demo.index 7 0) 1
    else Demo.points_to (Demo.index 7 1) 1 in
  let E := Demo.stopping (fun _ => false) (fun n => (5 <=? n)%nat) lookup in
  let F := Demo.files [Demo.tuple "a" 7 0; Demo.tuple "b" 7 1] Status.OK Status.OK in
  let G := Demo.gc [Demo.input 7 2] (Demo.options kNormalMode 100 true) in
  let st1 := (@BuildIterator E F G fresh_job).2 in
  let scan := @scan_loop Demo.format E F Demo.shadows G (@iter_tuples F)
                (@initial_locals F Status.OK) st1 in
  from_inputs (inputs G) (@iter_tuples F) /\
  (exists l s evs,
     scan.1 = Returns (true, l) /\ s_status l = Status.ShutdownInProgress /\
     @AfterScan E F Demo.shadows G true Status.OK l scan.2
       = (Returns s, set_history (history scan.2 ++ evs) scan.2) /\
     Status.ok s = true /\ length evs = 1%nat) /\
  (@Run Demo.format E F Demo.shadows G fresh_job).1 = Returns Status.OK /\
  blob_file_builders_ (@Run Demo.format E F Demo.shadows G fresh_job).2 = [].
Proof.
  intros lookup E F G st1 scan.
  split_and!; [vm_compute; reflexivity | | vm_compute; reflexivity | vm_compute; reflexivity].
  set (l := match scan.1 with Returns (_, l) => l | Faults _ => @initial_locals F Status.OK end).
  assert (Hscan : scan.1 = Returns (true, l)) by (vm_compute; reflexivity).
  assert (Hs : s_status l = Status.ShutdownInProgress) by (vm_compute; reflexivity).
  destruct (@break_status_replaced E F Demo.shadows G Status.OK l scan.2)
    as (s & evs & Hrun & _ & _ & Hopen).
  - reflexivity.
  - rewrite Hs. reflexivity.
  - assert (Hone : length (omap id (level_shadow_builders l)) = 1%nat)
      by (vm_compute; reflexivity).
    exists l, s, evs. split_and!; [exact Hscan | exact Hs | exact Hrun | |].
    + destruct Hopen as [[Hok _]|[Hfail (level & Hlast)]].
      * intros H. rewrite H in Hone. discriminate.
      * exact Hok.
      * assert (Hall : (@AfterScan E F Demo.shadows G true Status.OK l scan.2).1
                       = Returns Status.OK) by (vm_compute; reflexivity).
        rewrite Hrun in Hall. injection Hall as ->. discriminate.
    + destruct Hopen as [[_ Hlen]|[Hfail _]].
      * intros H. rewrite H in Hone. discriminate.
      * rewrite Hlen. exact Hone.
      * assert (Hall : (@AfterScan E F Demo.shadows G true Status.OK l scan.2).1
                       = Returns Status.OK) by (vm_compute; reflexivity).
        rewrite Hrun in Hall. injection Hall as ->. discriminate.
Defined.

